(** * ReTag marketplace backend: product lifecycle, settlement and pricing

    A shallow embedding of the parts of the backend that carry the
    product state machine ([routes/sell.ts]), the settlement protocol
    ([routes/payments.ts]), the Mongoose schemas of [Product] and [Order]
    and the fallback pricing of [utils/aiService.ts], followed by the
    properties established about them.

    Conventions of the embedding.
    - A JavaScript [number] is an IEEE-754 binary64 value: Rocq's primitive
      [float].  [Math.round] is defined through the exact value of the
      float, so rounding errors of the source arithmetic are kept.
    - A JavaScript string is a [string] (a sequence of bytes); request
      fields that the handlers only read as strings are taken as strings.
    - [undefined]/absent is [None].
    - The MongoDB collections are a finite map from [_id] to document for
      [Product] and an insertion-ordered list for [Order]; every awaited
      database call may throw, which is decided by an explicit [Faults]
      argument of the request.
    - Time stamps maintained by Mongoose ([created_at], [updated_at]) and
      console output are outside the model; [new Date()] is an argument. *)

From Stdlib Require Import ZArith Floats Ascii String.
From stdpp Require Import base option list gmap strings.

Set Warnings "-inexact-float".
Local Open Scope string_scope.

(** ** JavaScript values *)

Abbreviation number := float (only parsing).

(** [Boolean(x)] for a number: [0], [-0] and [NaN] are falsy. *)
Definition truthy_number (x : number) : bool :=
  negb (PrimFloat.eqb x 0%float) && PrimFloat.eqb x x.

(** [Boolean(x)] for a possibly absent number. *)
Definition truthy_num (x : option number) : bool :=
  match x with Some v => truthy_number v | None => false end.

(** [Boolean(x)] for a possibly absent string: the empty string is falsy. *)
Definition truthy_str (x : option string) : bool :=
  match x with Some "" => false | Some _ => true | None => false end.

(** [x || undefined] for a number. *)
Definition or_undefined (x : option number) : option number :=
  if truthy_num x then x else None.

(** [x || d] for a string. *)
Definition str_or (x : option string) (d : string) : string :=
  match x with Some "" => d | Some s => s | None => d end.

(** [x || d] for a number. *)
Definition num_or (x : option number) (d : number) : number :=
  match x with Some v => if truthy_number v then v else d | None => d end.

(** The float of an integer of magnitude below [2^63] (exact below
    [2^53]). *)
Definition Z2F (z : Z) : number :=
  if (z <? 0)%Z then PrimFloat.opp (PrimFloat.of_uint63 (Uint63.of_Z (- z)))
  else PrimFloat.of_uint63 (Uint63.of_Z z).

(** [Math.round]: the integer closest to [x], a tie going towards
    [+Infinity]; [NaN] and the infinities are returned as they are.  A finite
    float is [(-1)^s * m * 2^e]; for [e >= 0] it is an integer already,
    otherwise the rounding is [floor (x + 1/2)] computed exactly in [Z]. *)
Definition Math_round (x : number) : number :=
  match Prim2SF x with
  | S754_finite s m e =>
      if (0 <=? e)%Z then x
      else
        let n := if s then Z.neg m else Z.pos m in
        let r := ((2 * n + 2 ^ (- e)) / 2 ^ (1 - e))%Z in
        if (r =? 0)%Z then (if s then PrimFloat.neg_zero else PrimFloat.zero) else Z2F r
  | _ => x
  end.

(** [c.toLowerCase()] on one byte (ASCII letters). *)
Definition lower_ascii (c : ascii) : ascii :=
  let n := nat_of_ascii c in
  if (65 <=? n)%nat && (n <=? 90)%nat then ascii_of_nat (n + 32) else c.

(** [s.toLowerCase()]. *)
Fixpoint toLowerCase (s : string) : string :=
  match s with
  | EmptyString => EmptyString
  | String c t => String (lower_ascii c) (toLowerCase t)
  end.

(** [hay.includes(needle)]. *)
Fixpoint includes (hay needle : string) : bool :=
  String.prefix needle hay ||
  match hay with
  | EmptyString => false
  | String _ t => includes t needle
  end.

(** ** aiService.ts: price suggestion *)

Inductive Quality := excellent | good | fair | poor.

Definition Quality_str (q : Quality) : string :=
  match q with
  | excellent => "excellent" | good => "good" | fair => "fair" | poor => "poor"
  end.

Record ImageAnalysis := {
  caption : string;
  quality : Quality;
  ia_category : string;
  brand_detected : option string;
  colors_detected : option (list string);
  condition_score : number;
  features : list string
}.

Record PriceSuggestion := {
  suggested_price : number;
  reasoning : string;
  market_comparison : string;
  confidence_score : number;
  factors : list string
}.

(** The market reference returned by [fetchSerpPrice]. *)
Record SerpPrices := { sp_min : number; sp_max : number; sp_avg : number }.

(** [productDetails] is typed [any] in the source: every field may be
    absent ([{}] is passed by [parseGeminiResponse]). *)
Record ProductDetails := {
  pd_article : option string;
  pd_brand : option string;
  pd_category : option string;
  pd_gender : option string;
  pd_size : option string;
  pd_age : option string;
  pd_wear_count : option number;
  pd_damage : option string
}.

(** The object literal [{}]. *)
Definition empty_details : ProductDetails :=
  {| pd_article := None; pd_brand := None; pd_category := None;
     pd_gender := None; pd_size := None; pd_age := None;
     pd_wear_count := None; pd_damage := None |}.

(** [GeminiService.fallbackPriceSuggestion]. *)
Definition fallbackPriceSuggestion
    (productDetails : ProductDetails) (serpPrices : option SerpPrices)
  : PriceSuggestion :=
  let basePrice :=
    match serpPrices with
    | Some sp =>
        if truthy_number (sp_avg sp)
        then Math_round (sp_avg sp * 0.5)%float
        else
          match pd_brand productDetails with
          | Some b => if includes (toLowerCase b) "nike" then 800%float else 500%float
          | None => 500%float
          end
    | None =>
        match pd_brand productDetails with
        | Some b => if includes (toLowerCase b) "nike" then 800%float else 500%float
        | None => 500%float
        end
    end in
  {| suggested_price := basePrice;
     reasoning := "Based on standard market rates for second-hand clothing (typically 40–60% of new price)";
     market_comparison := "Similar to other pre-owned items in the market";
     confidence_score := 0.6%float;
     factors := ["brand reputation"; "general condition"; "market demand"] |}.

(** What [parseGeminiResponse] finds in the reply of the reasoning signal:
    no [{...}] in the text, a [{...}] that [JSON.parse] rejects (or a
    reply whose shape makes the extraction throw), or an object whose
    fields may be missing. *)
Inductive GeminiReply :=
| NoJsonObject
| MalformedJson
| JsonObject (price : option number) (why : option string)
             (comparison : option string) (confidence : option number)
             (facts : option (list string)).

(** [GeminiService.parseGeminiResponse]. *)
Definition parseGeminiResponse (response : GeminiReply) : PriceSuggestion :=
  match response with
  | JsonObject price why comparison confidence facts =>
      {| suggested_price := num_or price 500%float;
         reasoning := str_or why "Based on market analysis";
         market_comparison := str_or comparison "Comparable to similar items";
         confidence_score := num_or confidence 0.7%float;
         factors := default ["brand"; "condition"; "market demand"] facts |}
  | NoJsonObject | MalformedJson => fallbackPriceSuggestion empty_details None
  end.

(** Outcome of the [axios.post] to the reasoning signal. *)
Inductive ApiOutcome := ApiFailure | ApiResponse (r : GeminiReply).

(** [GeminiService.suggestPriceWithSerp]; [apiKey] is [this.apiKey]. *)
Definition suggestPriceWithSerp (apiKey : string)
    (imageAnalysis : ImageAnalysis) (productDetails : ProductDetails)
    (serpPrices : option SerpPrices) (call : ApiOutcome) : PriceSuggestion :=
  if negb (truthy_str (Some apiKey))
  then fallbackPriceSuggestion productDetails serpPrices
  else
    match call with
    | ApiResponse r => parseGeminiResponse r
    | ApiFailure => fallbackPriceSuggestion productDetails serpPrices
    end.



(** ** models/Product.ts and models/Order.ts

    Optional nested objects follow the TypeScript interfaces [IProduct]
    and [IOrder]: [admin_review?], [listed_product?] and the like are
    present once a handler has written them. *)

Abbreviation ObjectId := string (only parsing).

Inductive ProductStatus := pending | approved | rejected | listed | sold.
Inductive OrderStatus := created | paid | failed.

#[global] Instance ProductStatus_eq_dec : EqDecision ProductStatus.
Proof. solve_decision. Defined.

#[global] Instance OrderStatus_eq_dec : EqDecision OrderStatus.
Proof. solve_decision. Defined.

Record AiAnalysis := {
  image_analysis : ImageAnalysis;
  price_suggestion : PriceSuggestion;
  final_recommendation : string
}.

Record AdminReview := {
  final_price : option number;
  ar_mrp : option number;
  ar_discount_percentage : option number;
  pricing_type : option string;
  admin_notes : option string;
  reviewed_by : option ObjectId;
  reviewed_at : option nat
}.

Record PickupDetails := {
  pk_address : string;
  pk_phone : string;
  preferred_date : string;
  preferred_time : string
}.

Record BankAccount := {
  account_number : string;
  ifsc_code : string;
  account_holder : string
}.

Record PaymentDetails := {
  upi_id : option string;
  bank_account : option BankAccount
}.

Record ListedProduct := {
  title : string;
  description : string;
  price : number;
  lp_mrp : option number;
  lp_discount_percentage : option number;
  lp_category : string;
  tags : list string;
  listed_at : nat;
  lp_mainCategory : option string
}.

Record Product := {
  seller : ObjectId;
  article : string;
  brand : string;
  category : string;
  gender : option string;
  size : option string;
  age : option string;
  wear_count : option number;
  damage : option string;
  images : list string;
  ai_analysis : AiAnalysis;
  status : ProductStatus;
  admin_review : option AdminReview;
  pickup_details : option PickupDetails;
  payment_details : option PaymentDetails;
  listed_product : option ListedProduct;
  mainCategory : option string
}.

Record CartItem := {
  productId : string;
  ci_name : string;
  ci_price : string;
  quantity : number;
  image : option string
}.

Record Address := {
  ad_name : string;
  ad_phone : string;
  pincode : string;
  house : string;
  area : string
}.

Record Order := {
  o_id : ObjectId;
  user : ObjectId;
  address : Address;
  cart : list CartItem;
  amount : number;
  o_status : OrderStatus;
  razorpayOrderId : string;
  razorpayPaymentId : option string
}.

(** Assignments to single paths of a document. *)

Definition set_status (st : ProductStatus) (p : Product) : Product :=
  {| seller := seller p; article := article p; brand := brand p;
     category := category p; gender := gender p; size := size p;
     age := age p; wear_count := wear_count p; damage := damage p;
     images := images p; ai_analysis := ai_analysis p;
     status := st;
     admin_review := admin_review p; pickup_details := pickup_details p;
     payment_details := payment_details p;
     listed_product := listed_product p; mainCategory := mainCategory p |}.

Definition set_admin_review (ar : option AdminReview) (p : Product) : Product :=
  {| seller := seller p; article := article p; brand := brand p;
     category := category p; gender := gender p; size := size p;
     age := age p; wear_count := wear_count p; damage := damage p;
     images := images p; ai_analysis := ai_analysis p;
     status := status p;
     admin_review := ar; pickup_details := pickup_details p;
     payment_details := payment_details p;
     listed_product := listed_product p; mainCategory := mainCategory p |}.

Definition set_listed_product (lp : option ListedProduct) (p : Product) : Product :=
  {| seller := seller p; article := article p; brand := brand p;
     category := category p; gender := gender p; size := size p;
     age := age p; wear_count := wear_count p; damage := damage p;
     images := images p; ai_analysis := ai_analysis p;
     status := status p;
     admin_review := admin_review p; pickup_details := pickup_details p;
     payment_details := payment_details p;
     listed_product := lp; mainCategory := mainCategory p |}.

Definition set_mainCategory (c : option string) (p : Product) : Product :=
  {| seller := seller p; article := article p; brand := brand p;
     category := category p; gender := gender p; size := size p;
     age := age p; wear_count := wear_count p; damage := damage p;
     images := images p; ai_analysis := ai_analysis p;
     status := status p;
     admin_review := admin_review p; pickup_details := pickup_details p;
     payment_details := payment_details p;
     listed_product := listed_product p; mainCategory := c |}.

Definition set_details (pk : option PickupDetails) (pay : option PaymentDetails)
    (p : Product) : Product :=
  {| seller := seller p; article := article p; brand := brand p;
     category := category p; gender := gender p; size := size p;
     age := age p; wear_count := wear_count p; damage := damage p;
     images := images p; ai_analysis := ai_analysis p;
     status := status p;
     admin_review := admin_review p; pickup_details := pk;
     payment_details := pay;
     listed_product := listed_product p; mainCategory := mainCategory p |}.

(** The update document [{ status: 'paid', razorpayPaymentId: pid }]. *)
Definition set_paid (pid : string) (o : Order) : Order :=
  {| o_id := o_id o; user := user o; address := address o; cart := cart o;
     amount := amount o; o_status := paid; razorpayOrderId := razorpayOrderId o;
     razorpayPaymentId := Some pid |}.

(** *** Schema validators *)

Definition in_range (lo hi : number) (x : option number) : bool :=
  match x with
  | Some v => PrimFloat.leb lo v && PrimFloat.leb v hi
  | None => true
  end.

Definition in_enum (allowed : list string) (x : option string) : bool :=
  match x with
  | Some v => bool_decide (v ∈ allowed)
  | None => true
  end.

Definition nonempty (s : string) : bool :=
  match s with EmptyString => false | _ => true end.

Definition category_enum : list string :=
  ["Tops"; "Bottoms"; "Dresses"; "Outerwear"; "Footwear"; "Accessories";
   "Bags"; "Jewelry"; "Activewear"; "Formal"; "Casual"; "Other"].

Definition validate_admin_review (ar : option AdminReview) : bool :=
  match ar with
  | Some r =>
      in_range 0%float 100%float (ar_discount_percentage r) &&
      in_enum ["fixed"; "percentage"] (pricing_type r)
  | None => true
  end.

Definition validate_listed_product (lp : option ListedProduct) : bool :=
  match lp with
  | Some l => in_range 0%float 100%float (lp_discount_percentage l)
  | None => true
  end.

Definition validate_ai_analysis (a : AiAnalysis) : bool :=
  nonempty (caption (image_analysis a)) &&
  nonempty (ia_category (image_analysis a)) &&
  in_range 1%float 10%float (Some (condition_score (image_analysis a))) &&
  nonempty (reasoning (price_suggestion a)) &&
  nonempty (market_comparison (price_suggestion a)) &&
  in_range 0%float 1%float (Some (confidence_score (price_suggestion a))) &&
  PrimFloat.eqb (suggested_price (price_suggestion a))
                (suggested_price (price_suggestion a)) &&
  nonempty (final_recommendation a).

(** The validators of [ProductSchema] that [save] and [create] run. *)
Definition validate (p : Product) : bool :=
  nonempty (article p) && nonempty (brand p) &&
  in_enum category_enum (Some (category p)) &&
  in_enum ["male"; "female"; "kids"; "unisex"] (gender p) &&
  in_enum ["<1"; "1-2"; "2-3"; ">3"] (age p) &&
  in_range 0%float infinity (wear_count p) &&
  validate_ai_analysis (ai_analysis p) &&
  validate_admin_review (admin_review p) &&
  validate_listed_product (listed_product p).

(** ** The store and the handlers' effects *)

Record Store := {
  products : gmap string Product;
  orders : list Order
}.

Definition empty_store : Store := {| products := ∅; orders := [] |}.

Definition with_products (m : gmap string Product) (s : Store) : Store :=
  {| products := m; orders := orders s |}.

Definition with_orders (l : list Order) (s : Store) : Store :=
  {| products := products s; orders := l |}.

(** The awaited database calls of the handlers. *)
Inductive DbCall :=
| call_Product_create | call_Product_findOne | call_Product_findById
| call_Product_save | call_Product_updateMany | call_Product_find
| call_Order_create | call_Order_findOne | call_Order_find
| call_Order_findOneAndUpdate | call_Order_findById
| call_Order_findByIdAndUpdate.

#[global] Instance DbCall_eq_dec : EqDecision DbCall.
Proof. solve_decision. Defined.

(** Which database calls of one request throw.  [updateMany] is not
    atomic across documents: when it throws, [applied] tells which of the
    matched documents had been written before. *)
Record Faults := {
  throws : DbCall → bool;
  applied : string → bool
}.

Definition no_faults : Faults :=
  {| throws := λ _, false; applied := λ _, false |}.

Inductive Outcome (A : Type) :=
| Returned (a : A)
| Thrown.
Arguments Returned {A} a.
Arguments Thrown {A}.

(** An [async] computation over the store; what it wrote before it
    threw stays written. *)
Definition Handler (A : Type) : Type := Store → Outcome A * Store.

#[global] Instance Handler_ret : MRet Handler :=
  λ A a s, (Returned a, s).

#[global] Instance Handler_bind : MBind Handler :=
  λ A B k m s,
    match m s with
    | (Returned a, s') => k a s'
    | (Thrown, s') => (Thrown, s')
    end.

Definition throw {A} : Handler A := λ s, (Thrown, s).

Record Response := {
  code : nat;
  success : option bool;
  message : string
}.

Definition json (c : nat) (msg : string) : Response :=
  {| code := c; success := None; message := msg |}.

Definition json_success (c : nat) (ok : bool) (msg : string) : Response :=
  {| code := c; success := Some ok; message := msg |}.

(** [try { body } catch (error) { res.status(..).json(on_error) }]. *)
Definition try_catch (body : Handler Response) (on_error : Response)
  : Store → Response * Store :=
  λ s, match body s with
       | (Returned r, s') => (r, s')
       | (Thrown, s') => (on_error, s')
       end.

(** *** ObjectIds

    An [ObjectId] is kept in its canonical rendering, 24 lower-case
    hexadecimal digits.  A string of 24 hexadecimal digits casts to the
    ObjectId it spells; no other string of length 24 casts.  What the
    driver makes of strings of another length (the legacy 12-byte form) is
    left to [castLegacy]. *)

Definition is_hex (c : ascii) : bool :=
  let n := nat_of_ascii c in
  ((48 <=? n)%nat && (n <=? 57)%nat) ||
  ((65 <=? n)%nat && (n <=? 70)%nat) ||
  ((97 <=? n)%nat && (n <=? 102)%nat).

(** [/^[0-9a-fA-F]*$/.test(s)]. *)
Fixpoint all_hex (s : string) : bool :=
  match s with
  | EmptyString => true
  | String c t => is_hex c && all_hex t
  end.

(** The update of the first document that matches, as [findOneAndUpdate]
    and [findByIdAndUpdate] do; without a match nothing changes. *)
Fixpoint update_first {A} (P : A → bool) (upd : A → A) (l : list A) : list A :=
  match l with
  | [] => []
  | x :: t => if P x then upd x :: t else x :: update_first P upd t
  end.

(** [[..].filter(Boolean)] on strings. *)
Fixpoint filter_truthy (l : list (option string)) : list string :=
  match l with
  | [] => []
  | Some s :: t => if nonempty s then s :: filter_truthy t else filter_truthy t
  | None :: t => filter_truthy t
  end.

Record User := { u_id : ObjectId; email : string }.

Definition admin_email : string := "retagcontact00@gmail.com".

(** [(req.user as any)?.email !== 'retagcontact00@gmail.com'], negated. *)
Definition is_admin (caller : User) : bool :=
  bool_decide (email caller = admin_email).

(** What the handlers take from their surroundings:
    [process.env.RAZORPAY_KEY_SECRET], the keyed hash
    [crypto.createHmac('sha256', key).update(msg).digest('hex')] and the
    driver's cast of a string that is not 24 characters long. *)
Class Environment := {
  RAZORPAY_KEY_SECRET : string;
  hmac_sha256_hex : string → string → string;
  castLegacy : string → option ObjectId
}.

Section Backend.

Context {env : Environment}.

(** The cast of a string to an ObjectId that Mongoose applies to [_id] in
    a filter; [None] is a [CastError]. *)
Definition castObjectId (id : string) : option ObjectId :=
  if (String.length id =? 24)%nat
  then (if all_hex id then Some (toLowerCase id) else None)
  else castLegacy id.

(** [mongoose.Types.ObjectId.isValid(id)]. *)
Definition ObjectId_isValid (id : string) : bool :=
  bool_decide (is_Some (castObjectId id)).

(** *** Database calls *)

(** An awaited call: it rejects when the request's faults say so. *)
Definition db {A} (f : Faults) (c : DbCall) (op : Handler A) : Handler A :=
  if throws f c then throw else op.

(** [Product.findById(id)]: the document and its [_id]. *)
Definition Product_findById (f : Faults) (id : string)
  : Handler (option (ObjectId * Product)) :=
  db f call_Product_findById
     (λ s, match castObjectId id with
           | Some k => (Returned (pair k <$> products s !! k), s)
           | None => (Thrown, s)
           end).

(** [Product.findOne({ _id: id, seller: sellerId, status: st })]. *)
Definition Product_findOne (f : Faults) (id : string) (sellerId : ObjectId)
    (st : ProductStatus) : Handler (option (ObjectId * Product)) :=
  db f call_Product_findOne
     (λ s, match castObjectId id with
           | Some k =>
               (Returned
                  (p ← products s !! k;
                   if bool_decide (seller p = sellerId) &&
                      bool_decide (status p = st)
                   then Some (k, p) else None), s)
           | None => (Thrown, s)
           end).

(** [product.save()]: validation, then the write.  The whole document is
    validated; on documents that [create] and [save] wrote this is the
    validation of the modified paths. *)
Definition Product_save (f : Faults) (k : ObjectId) (p : Product) : Handler () :=
  db f call_Product_save
     (λ s, if validate p
           then (Returned (), with_products (<[k := p]> (products s)) s)
           else (Thrown, s)).

(** [Product.create(doc)]; [k] is the [_id] the new document receives. *)
Definition Product_create (f : Faults) (k : ObjectId) (p : Product) : Handler () :=
  db f call_Product_create
     (λ s, if validate p && bool_decide (products s !! k = None)
           then (Returned (), with_products (<[k := p]> (products s)) s)
           else (Thrown, s)).

(** The update of every document whose [_id] is selected. *)
Definition update_where (sel : ObjectId → bool) (upd : Product → Product)
    (m : gmap string Product) : gmap string Product :=
  map_imap (λ k p, Some (if sel k then upd p else p)) m.

(** [Product.updateMany({ _id: { $in: ids } }, { status: st })].  The filter
    is cast first: an id that does not cast throws before anything is
    written. *)
Definition Product_updateMany (f : Faults) (ids : list string)
    (st : ProductStatus) : Handler () :=
  λ s, match mapM castObjectId ids with
       | None => (Thrown, s)
       | Some ks =>
           if throws f call_Product_updateMany
           then (Thrown,
                 with_products
                   (update_where (λ k, bool_decide (k ∈ ks) && applied f k)
                                 (set_status st) (products s)) s)
           else (Returned (),
                 with_products
                   (update_where (λ k, bool_decide (k ∈ ks))
                                 (set_status st) (products s)) s)
       end.

(** [Product.find({ _id: { $in: ids } }).select('_id status')], read for
    the log only. *)
Definition Product_find (f : Faults) (ids : list string) : Handler () :=
  db f call_Product_find
     (λ s, match mapM castObjectId ids with
           | Some _ => (Returned (), s)
           | None => (Thrown, s)
           end).

(** [Order.findOne({ razorpayOrderId: rid })]: the first such order. *)
Definition Order_findOne (f : Faults) (rid : string) : Handler (option Order) :=
  db f call_Order_findOne
     (λ s, (Returned (List.find (λ o, bool_decide (razorpayOrderId o = rid))
                                (orders s)), s)).

(** [Order.find({}).select('razorpayOrderId').limit(5)], read for the
    debug payload only. *)
Definition Order_find (f : Faults) : Handler () :=
  db f call_Order_find (mret ()).

(** [Order.findOneAndUpdate({ razorpayOrderId: rid }, update)]. *)
Definition Order_findOneAndUpdate (f : Faults) (rid : string)
    (upd : Order → Order) : Handler () :=
  db f call_Order_findOneAndUpdate
     (λ s, (Returned (),
            with_orders
              (update_first (λ o, bool_decide (razorpayOrderId o = rid)) upd
                            (orders s)) s)).

(** [Order.findById(id)]. *)
Definition Order_findById (f : Faults) (id : string) : Handler (option Order) :=
  db f call_Order_findById
     (λ s, match castObjectId id with
           | Some k =>
               (Returned (List.find (λ o, bool_decide (o_id o = k)) (orders s)), s)
           | None => (Thrown, s)
           end).

(** [Order.findByIdAndUpdate(id, update)]. *)
Definition Order_findByIdAndUpdate (f : Faults) (id : string)
    (upd : Order → Order) : Handler () :=
  db f call_Order_findByIdAndUpdate
     (λ s, match castObjectId id with
           | Some k =>
               (Returned (),
                with_orders
                  (update_first (λ o, bool_decide (o_id o = k)) upd (orders s)) s)
           | None => (Thrown, s)
           end).

(** [Order.create(doc)] / [new Order(doc).save()]: a new order starts as
    ['created'] without a payment id. *)
Definition Order_create (f : Faults) (o : Order) : Handler () :=
  db f call_Order_create
     (λ s, if bool_decide (Forall (λ o', o_id o' ≠ o_id o) (orders s))
           then (Returned (),
                 with_orders
                   (orders s ++
                    [{| o_id := o_id o; user := user o; address := address o;
                        cart := cart o; amount := amount o; o_status := created;
                        razorpayOrderId := razorpayOrderId o;
                        razorpayPaymentId := None |}]) s)
           else (Thrown, s)).

(** ** routes/sell.ts *)

Record UploadedFile := { mimetype : string; stored_ref : string }.

Record SubmitBody := {
  sb_article : option string;
  sb_brand : option string;
  sb_category : option string;
  sb_gender : option string;
  sb_size : option string;
  sb_age : option string;
  sb_wear_count : option number;
  sb_damage : option string
}.

(** [POST /sell/submit].  [readable] tells whether [fs.readFileSync] of the
    first image succeeds, [analysis] is what [aiService.analyzeProduct]
    resolves to ([None] when it rejects) and [k] is the [_id] given to the
    new document. *)
Definition submit (f : Faults) (caller : User) (body : SubmitBody)
    (files : list UploadedFile) (readable : bool)
    (analysis : option AiAnalysis) (k : ObjectId)
  : Store → Response * Store :=
  try_catch
    (if bool_decide (files = [])
     then mret (json 400 "At least one image is required")
     else if existsb (λ file, negb (bool_decide
                 (mimetype file ∈ ["image/jpeg"; "image/png"; "image/jpg"]))) files
     then mret (json 400 "Images must be JPEG or PNG files")
     else if negb readable
     then mret (json 500 "Error processing image")
     else
       match analysis with
       | None => mret (json 500 "Failed to analyze product. Please try again.")
       | Some aiAnalysis =>
           match sb_article body, sb_brand body, sb_category body with
           | Some a, Some b, Some c =>
               _ ← Product_create f k
                     {| seller := u_id caller; article := a; brand := b;
                        category := c; gender := sb_gender body;
                        size := sb_size body; age := sb_age body;
                        wear_count := sb_wear_count body;
                        damage := sb_damage body;
                        images := stored_ref <$> files;
                        ai_analysis := aiAnalysis;
                        status := pending;
                        admin_review := None; pickup_details := None;
                        payment_details := None; listed_product := None;
                        mainCategory := None |};
               mret (json 201 "Product submitted successfully")
           | _, _, _ => throw
           end
       end)
    (json 500 "Server error").

Record OfferBody := {
  ob_pickup_details : option PickupDetails;
  ob_payment_details : option PaymentDetails
}.

(** [POST /sell/accept-offer/:id]. *)
Definition acceptOffer (f : Faults) (caller : User) (id : string)
    (body : OfferBody) : Store → Response * Store :=
  try_catch
    (match ob_pickup_details body, ob_payment_details body with
     | Some pk, Some pay =>
         found ← Product_findOne f id (u_id caller) pending;
         match found with
         | None => mret (json 404 "Submission not found or already processed")
         | Some (k, product) =>
             let product := set_details (Some pk) (Some pay) product in
             let product := set_status approved product in
             _ ← Product_save f k product;
             mret (json 200 "Offer accepted successfully. We will contact you soon for pickup.")
         end
     | _, _ => mret (json 400 "Pickup and payment details are required")
     end)
    (json 500 "Server error").

(** [{ ...product.admin_review, admin_notes: notes }]. *)
Definition spread_admin_notes (old : option AdminReview) (notes : string)
  : AdminReview :=
  match old with
  | Some r =>
      {| final_price := final_price r; ar_mrp := ar_mrp r;
         ar_discount_percentage := ar_discount_percentage r;
         pricing_type := pricing_type r; admin_notes := Some notes;
         reviewed_by := reviewed_by r; reviewed_at := reviewed_at r |}
  | None =>
      {| final_price := None; ar_mrp := None; ar_discount_percentage := None;
         pricing_type := None; admin_notes := Some notes;
         reviewed_by := None; reviewed_at := None |}
  end.

(** [POST /sell/reject-offer/:id]. *)
Definition rejectOffer (f : Faults) (caller : User) (id : string)
    (reason : option string) : Store → Response * Store :=
  try_catch
    (found ← Product_findOne f id (u_id caller) pending;
     match found with
     | None => mret (json 404 "Submission not found or already processed")
     | Some (k, product) =>
         let product := set_status rejected product in
         let product :=
           if truthy_str reason
           then set_admin_review
                  (Some (spread_admin_notes (admin_review product)
                           ("Rejected by seller: " +:+ default "" reason)))
                  product
           else product in
         _ ← Product_save f k product;
         mret (json 200 "Offer rejected successfully")
     end)
    (json 500 "Server error").

Record ReviewBody := {
  rb_final_price : option number;
  rb_mrp : option number;
  rb_discount_percentage : option number;
  rb_pricing_type : option string;
  rb_admin_notes : option string;
  action : option string
}.

(** The mapping from [product.gender] to [mainCategory]. *)
Definition mainCategory_of (g : option string) : string :=
  if bool_decide (g = Some "male") then "Men"
  else if bool_decide (g = Some "female") then "Women"
  else if bool_decide (g = Some "kids") then "Kids"
  else "Unisex".

(** The document the approve branch of the review builds before it saves:
    status, [admin_review], [mainCategory] and the [listed_product]
    snapshot, assigned in the order of the source. *)
Definition review_approve (now : nat) (caller : User) (body : ReviewBody)
    (final : number) (product : Product) : Product :=
  let product := set_status listed product in
  let product :=
    set_admin_review
      (Some {| final_price := Some final;
               ar_mrp := or_undefined (rb_mrp body);
               ar_discount_percentage :=
                 or_undefined (rb_discount_percentage body);
               pricing_type := Some (str_or (rb_pricing_type body) "fixed");
               admin_notes := rb_admin_notes body;
               reviewed_by := Some (u_id caller);
               reviewed_at := Some now |})
      product in
  let mainCategory := mainCategory_of (gender product) in
  let product := set_mainCategory (Some mainCategory) product in
  set_listed_product
    (Some {| title := brand product +:+ " " +:+ article product;
             description :=
               caption (image_analysis (ai_analysis product))
               +:+ ". " +:+
               reasoning (price_suggestion (ai_analysis product));
             price := final;
             lp_mrp := or_undefined (rb_mrp body);
             lp_discount_percentage :=
               or_undefined (rb_discount_percentage body);
             lp_category := category product;
             tags :=
               filter_truthy
                 ([Some (brand product);
                   Some (article product);
                   gender product;
                   Some (Quality_str
                           (quality (image_analysis (ai_analysis product))))]
                  ++ (Some <$> features
                        (image_analysis (ai_analysis product))));
             listed_at := now;
             lp_mainCategory := Some mainCategory |})
    product.

(** The document the reject branch of the review builds. *)
Definition review_reject (now : nat) (caller : User) (body : ReviewBody)
    (product : Product) : Product :=
  let product := set_status rejected product in
  set_admin_review
    (Some {| final_price := None; ar_mrp := None;
             ar_discount_percentage := None;
             pricing_type := None;
             admin_notes := rb_admin_notes body;
             reviewed_by := Some (u_id caller);
             reviewed_at := Some now |})
    product.

(** [POST /sell/admin/review/:id]; [now] is [new Date()]. *)
Definition adminReview (f : Faults) (now : nat) (caller : User) (id : string)
    (body : ReviewBody) : Store → Response * Store :=
  if negb (is_admin caller)
  then λ s, (json 403 "Forbidden: Admins only", s)
  else
    try_catch
      (if negb (truthy_str (action body)) ||
          negb (bool_decide (action body ∈ [Some "approve"; Some "reject"]))
       then mret (json 400 "Action must be approve or reject")
       else
         found ← Product_findById f id;
         match found with
         | None => mret (json 404 "Submission not found")
         | Some (k, product) =>
             if bool_decide (action body = Some "approve")
             then
               match rb_final_price body with
               | Some final =>
                   if negb (truthy_number final) || PrimFloat.leb final 0%float
                   then mret (json 400 "Final price is required for approval")
                   else
                     _ ← Product_save f k
                           (review_approve now caller body final product);
                     mret (json 200 "Submission approved successfully")
               | None => mret (json 400 "Final price is required for approval")
               end
             else
               _ ← Product_save f k (review_reject now caller body product);
               mret (json 200 "Submission rejectd successfully")
         end)
      (json 500 "Server error").

Record PriceBody := { pb_price : option number; pb_mrp : option number }.

(** The local [discountPercentage] of the edit-price handler. *)
Definition discountPercentage (price : number) (mrp : option number) : number :=
  match mrp with
  | Some m =>
      if truthy_number m && PrimFloat.ltb price m
      then Math_round (((m - price) / m) * 100)%float
      else 0%float
  | None => 0%float
  end.

Definition edit_admin_review (price : number) (mrp : option number)
    (r : AdminReview) : AdminReview :=
  {| final_price := Some price;
     ar_mrp := or_undefined mrp;
     ar_discount_percentage := or_undefined (Some (discountPercentage price mrp));
     pricing_type := pricing_type r; admin_notes := admin_notes r;
     reviewed_by := reviewed_by r; reviewed_at := reviewed_at r |}.

Definition edit_listed_product (price : number) (mrp : option number)
    (l : ListedProduct) : ListedProduct :=
  {| title := title l; description := description l;
     price := price;
     lp_mrp := or_undefined mrp;
     lp_discount_percentage := or_undefined (Some (discountPercentage price mrp));
     lp_category := lp_category l; tags := tags l; listed_at := listed_at l;
     lp_mainCategory := lp_mainCategory l |}.

(** The document the edit-price handler builds before it saves: both
    price blocks are rewritten, each one if it is there. *)
Definition edit_price (price : number) (mrp : option number)
    (product : Product) : Product :=
  let product :=
    set_admin_review (edit_admin_review price mrp <$> admin_review product)
                     product in
  set_listed_product (edit_listed_product price mrp <$> listed_product product)
                     product.

(** [PUT /sell/admin/products/:id/edit-price]. *)
Definition editPrice (f : Faults) (caller : User) (id : string)
    (body : PriceBody) : Store → Response * Store :=
  if negb (is_admin caller)
  then λ s, (json 403 "Forbidden: Admins only", s)
  else
    try_catch
      (match pb_price body with
       | Some price =>
           if negb (truthy_number price) || PrimFloat.leb price 0%float
           then mret (json 400 "Valid price is required")
           else
             found ← Product_findById f id;
             match found with
             | None => mret (json 404 "Product not found")
             | Some (k, product) =>
                 if negb (bool_decide (status product = listed))
                 then mret (json 400 "Can only edit prices for listed products")
                 else
                   _ ← Product_save f k
                         (edit_price price (pb_mrp body) product);
                   mret (json 200 "Product price updated successfully")
             end
       | None => mret (json 400 "Valid price is required")
       end)
      (json 500 "Server error").

(** ** routes/payments.ts *)

Record VerifyBody := {
  order_id : string;
  payment_id : string;
  signature : string
}.

(** [hmac.update(order_id + "|" + payment_id); hmac.digest('hex')]. *)
Definition generated_signature (body : VerifyBody) : string :=
  hmac_sha256_hex RAZORPAY_KEY_SECRET
                  (order_id body +:+ "|" +:+ payment_id body).

(** [ObjectId.isValid(id) && id.length === 24]: the test that tells a
    persisted product reference from a static one. *)
Definition persisted (id : string) : bool :=
  ObjectId_isValid id && (String.length id =? 24)%nat.

(** [productIds.filter(id => ObjectId.isValid(id) && id.length === 24)]. *)
Definition validObjectIds (productIds : list string) : list string :=
  List.filter persisted productIds.

Definition signature_mismatch : Response :=
  json_success 400 false "Payment verification failed - signature mismatch".

Definition order_not_found : Response :=
  json_success 404 false "Order not found".

Definition payment_verified : Response :=
  json_success 200 true "Payment has been verified".

Definition error_updating_order : Response :=
  json_success 500 false "Error updating order status".

(** [POST /payments/verify]. *)
Definition verify (f : Faults) (body : VerifyBody) : Store → Response * Store :=
  if bool_decide (generated_signature body = signature body)
  then
    try_catch
      (found ← Order_findOne f (order_id body);
       match found with
       | None =>
           _ ← Order_find f;
           mret order_not_found
       | Some order =>
           _ ← Order_findOneAndUpdate f (order_id body)
                 (set_paid (payment_id body));
           let productIds := productId <$> cart order in
           let validObjectIds := validObjectIds productIds in
           if (0 <? length validObjectIds)%nat
           then
             _ ← Product_updateMany f validObjectIds sold;
             _ ← Product_find f validObjectIds;
             mret payment_verified
           else mret payment_verified
       end)
      error_updating_order
  else λ s, (signature_mismatch, s).

(** [POST /payments/admin/complete-order/:orderId]. *)
Definition completeOrder (f : Faults) (caller : User) (orderId : string)
  : Store → Response * Store :=
  if negb (is_admin caller)
  then λ s, (json 403 "Forbidden: Admins only", s)
  else
    try_catch
      (found ← Order_findById f orderId;
       match found with
       | None => mret order_not_found
       | Some order =>
           if bool_decide (o_status order = paid)
           then mret (json_success 400 false "Order already completed")
           else
             _ ← Order_findByIdAndUpdate f orderId
                   (set_paid "manual_verification");
             let productIds := productId <$> cart order in
             _ ← Product_updateMany f productIds sold;
             mret (json_success 200 true "Order completed successfully")
       end)
      (json_success 500 false "Error completing order").

(** The write that ends [POST /payments/create-order] and
    [POST /payments/test-order]: the new order document is the argument,
    how its fields are computed is not part of the model. *)
Definition createOrder (f : Faults) (o : Order) : Store → Response * Store :=
  try_catch
    (_ ← Order_create f o;
     mret (json 200 "order created"))
    (json 500 "Error creating order").

(** The [_id]s a settlement of [order] forwards to the product update. *)
Definition sold_keys (order : Order) : list ObjectId :=
  toLowerCase <$> validObjectIds (productId <$> cart order).

(** The store after a settlement of [order] that ran to its end. *)
Definition settle (body : VerifyBody) (order : Order) (s : Store) : Store :=
  {| products :=
       update_where (λ k, bool_decide (k ∈ sold_keys order))
                    (set_status sold) (products s);
     orders :=
       update_first (λ o, bool_decide (razorpayOrderId o = order_id body))
                    (set_paid (payment_id body)) (orders s) |}.

(** ** The requests that change the store *)

(** The moves of one product document that the handlers make: the
    document before and after a request ([None]: no such document). *)
Inductive product_step : option Product → option Product → Prop :=
| step_none o :
    product_step o o
| step_submit p :
    status p = pending → admin_review p = None → listed_product p = None →
    product_step None (Some p)
| step_accept p pk pay :
    status p = pending →
    product_step (Some p) (Some (set_status approved (set_details pk pay p)))
| step_reject_offer p ar :
    status p = pending →
    product_step (Some p) (Some (set_admin_review ar (set_status rejected p)))
| step_review_approve now caller body final p :
    product_step (Some p) (Some (review_approve now caller body final p))
| step_review_reject now caller body p :
    product_step (Some p) (Some (review_reject now caller body p))
| step_edit_price price mrp p :
    status p = listed →
    product_step (Some p) (Some (edit_price price mrp p))
| step_sold p :
    product_step (Some p) (Some (set_status sold p)).

(** The part of "[listed_product] exists iff status is listed or sold"
    that every request keeps. *)
Definition listing_consistent (p : Product) : Prop :=
  (status p = listed → is_Some (listed_product p)) ∧
  (status p = pending ∨ status p = approved → listed_product p = None).

(** A listed product carries the admin's price block. *)
Definition priced (p : Product) : Prop :=
  status p = listed → is_Some (admin_review p).


Inductive Request :=
| Submit (caller : User) (body : SubmitBody) (files : list UploadedFile)
         (readable : bool) (analysis : option AiAnalysis) (k : ObjectId)
| AcceptOffer (caller : User) (id : string) (body : OfferBody)
| RejectOffer (caller : User) (id : string) (reason : option string)
| AdminReviewReq (now : nat) (caller : User) (id : string) (body : ReviewBody)
| EditPrice (caller : User) (id : string) (body : PriceBody)
| CreateOrder (o : Order)
| Verify (body : VerifyBody)
| CompleteOrder (caller : User) (orderId : string).

Definition handle (f : Faults) (r : Request) : Store → Response * Store :=
  match r with
  | Submit caller body files readable analysis k =>
      submit f caller body files readable analysis k
  | AcceptOffer caller id body => acceptOffer f caller id body
  | RejectOffer caller id reason => rejectOffer f caller id reason
  | AdminReviewReq now caller id body => adminReview f now caller id body
  | EditPrice caller id body => editPrice f caller id body
  | CreateOrder o => createOrder f o
  | Verify body => verify f body
  | CompleteOrder caller orderId => completeOrder f caller orderId
  end.

(** The stores the backend can be in: the empty database and whatever a
    request, with whatever database faults, makes of a reachable store. *)
Inductive reachable : Store → Prop :=
| reachable_empty : reachable empty_store
| reachable_step f r s :
    reachable s → reachable (handle f r s).2.

End Backend.

(** ** Example data

    A stand-in for the keyed hash (any function serves, the handlers only
    compare its result), a driver without the legacy ObjectId form, and a
    small history: a product is submitted, accepted by its seller, listed
    by the admin, put in a cart next to a static catalogue entry, and
    paid. *)

Definition ex_env : Environment :=
  {| RAZORPAY_KEY_SECRET := "secret";
     hmac_sha256_hex := λ key msg, key +:+ ":" +:+ msg;
     castLegacy := λ _, None |}.

Definition ex_handle : Request → Store → Response * Store :=
  handle (env := ex_env) no_faults.

Definition ex_analysis : AiAnalysis :=
  {| image_analysis :=
       {| caption := "Detected as: jersey"; quality := good;
          ia_category := "Tops"; brand_detected := None;
          colors_detected := None; condition_score := 7%float;
          features := ["jersey"] |};
     price_suggestion := fallbackPriceSuggestion empty_details None;
     final_recommendation :=
       "Low confidence recommendation. Requires admin review and manual pricing." |}.

Definition ex_seller : User :=
  {| u_id := "aaaaaaaaaaaaaaaaaaaaaaaa"; email := "seller@example.com" |}.

Definition ex_admin : User :=
  {| u_id := "bbbbbbbbbbbbbbbbbbbbbbbb"; email := admin_email |}.

Definition ex_pid : string := "68773d5ccb4a8235f64ebe23".

Definition ex_submit : Request :=
  Submit ex_seller
    {| sb_article := Some "T-shirt"; sb_brand := Some "Nike";
       sb_category := Some "Tops"; sb_gender := Some "male";
       sb_size := None; sb_age := None; sb_wear_count := None;
       sb_damage := None |}
    [{| mimetype := "image/png"; stored_ref := "uploads/1.png" |}]
    true (Some ex_analysis) ex_pid.

Definition ex_accept : Request :=
  AcceptOffer ex_seller ex_pid
    {| ob_pickup_details :=
         Some {| pk_address := "12 Park Road"; pk_phone := "9999999999";
                 preferred_date := "2025-01-01"; preferred_time := "10:00" |};
       ob_payment_details :=
         Some {| upi_id := Some "seller@upi"; bank_account := None |} |}.

Definition ex_approve_body : ReviewBody :=
  {| rb_final_price := Some 650%float; rb_mrp := Some 1000%float;
     rb_discount_percentage := None; rb_pricing_type := None;
     rb_admin_notes := None; action := Some "approve" |}.

Definition ex_approve : Request := AdminReviewReq 5 ex_admin ex_pid ex_approve_body.

Definition ex_order : Order :=
  {| o_id := "cccccccccccccccccccccccc"; user := "dddddddddddddddddddddddd";
     address := {| ad_name := "Buyer"; ad_phone := "8888888888";
                   pincode := "110001"; house := "4"; area := "Central" |};
     cart := [ {| productId := ex_pid; ci_name := "Nike T-shirt";
                  ci_price := "650"; quantity := 1%float; image := None |};
               {| productId := "test-product-1"; ci_name := "Test Product";
                  ci_price := "100"; quantity := 1%float; image := None |} ];
     amount := 779%float; o_status := created;
     razorpayOrderId := "order_1"; razorpayPaymentId := None |}.

Definition ex_confirmation : VerifyBody :=
  {| order_id := "order_1"; payment_id := "pay_1";
     signature := "secret:order_1|pay_1" |}.

Definition ex_forged : VerifyBody :=
  {| order_id := "order_1"; payment_id := "pay_1"; signature := "forged" |}.

Definition ex_submitted : Store := (ex_handle ex_submit empty_store).2.
Definition ex_accepted : Store := (ex_handle ex_accept ex_submitted).2.
Definition ex_listed : Store := (ex_handle ex_approve ex_accepted).2.
Definition ex_in_cart : Store := (ex_handle (CreateOrder ex_order) ex_listed).2.
Definition ex_sold : Store := (ex_handle (Verify ex_confirmation) ex_in_cart).2.

Definition ex_edit : PriceBody :=
  {| pb_price := Some 855%float; pb_mrp := Some 1000%float |}.

(** An order for the product alone, placed while it waits for the admin. *)
Definition ex_one_item_order : Order :=
  {| o_id := "cccccccccccccccccccccccc"; user := "dddddddddddddddddddddddd";
     address := address ex_order;
     cart := [ {| productId := ex_pid; ci_name := "Nike T-shirt";
                  ci_price := "650"; quantity := 1%float; image := None |} ];
     amount := 679%float; o_status := created;
     razorpayOrderId := "order_2"; razorpayPaymentId := None |}.

Definition ex_one_item_cart : Store :=
  (ex_handle (CreateOrder ex_one_item_order) ex_accepted).2.

(** A cart that refers to a product still waiting for its seller. *)
Definition ex_pending_in_cart : Store :=
  (ex_handle (CreateOrder ex_order) ex_submitted).2.

(** The database calls of one request fail at [c] only; [written] are the
    documents an interrupted [updateMany] had reached. *)
Definition ex_fault (c : DbCall) (written : list string) : Faults :=
  {| throws := λ c', bool_decide (c' = c);
     applied := λ k, bool_decide (k ∈ written) |}.

Definition ex_nike : ProductDetails :=
  {| pd_article := None; pd_brand := Some "Nike"; pd_category := None;
     pd_gender := None; pd_size := None; pd_age := None;
     pd_wear_count := None; pd_damage := None |}.

Definition ex_market : SerpPrices :=
  {| sp_min := 1000%float; sp_max := 2000%float; sp_avg := 1500%float |}.

(** ** aiService.ts: colours

    [Math.pow] and [Math.sqrt] are implementation-approximated in
    ECMAScript; the colour functions take them as they come. *)

Record ColorRange := {
  cr_name : string;
  cr_r : number * number;
  cr_g : number * number;
  cr_b : number * number
}.

Definition color_range (name : string) (r0 r1 g0 g1 b0 b1 : number)
  : ColorRange :=
  {| cr_name := name; cr_r := (r0, r1); cr_g := (g0, g1); cr_b := (b0, b1) |}.
Arguments color_range name%_string (r0 r1 g0 g1 b0 b1)%_float.

(** The table [colorRanges] of [rgbToColorName]. *)
Definition colorRanges : list ColorRange :=
  [ color_range "Black" 0 50 0 50 0 50;
    color_range "White" 200 255 200 255 200 255;
    color_range "Gray" 80 180 80 180 80 180;
    color_range "Red" 150 255 0 100 0 100;
    color_range "Blue" 0 100 0 150 150 255;
    color_range "Navy" 0 50 0 50 100 200;
    color_range "Green" 0 150 100 255 0 150;
    color_range "Yellow" 200 255 200 255 0 100;
    color_range "Orange" 200 255 100 200 0 100;
    color_range "Purple" 100 200 0 150 150 255;
    color_range "Pink" 200 255 150 220 150 220;
    color_range "Brown" 100 180 50 120 20 80;
    color_range "Beige" 200 255 180 230 140 200;
    color_range "Khaki" 150 200 140 190 100 150 ].

(** [x >= iv[0] && x <= iv[1]]. *)
Definition in_interval (x : number) (iv : number * number) : bool :=
  PrimFloat.leb iv.1 x && PrimFloat.leb x iv.2.

(** The test of the loop of [rgbToColorName]: the colour lies in the box
    of the range. *)
Definition in_color_range (r g b : number) (cr : ColorRange) : bool :=
  in_interval r (cr_r cr) && in_interval g (cr_g cr) && in_interval b (cr_b cr).

Record RGB := {
  red : option number;
  green : option number;
  blue : option number
}.

(** An entry of [imagePropertiesAnnotation.dominantColors.colors]. *)
Record DominantColor := {
  dc_score : option number;
  dc_color : option RGB
}.

Section Colours.

Variable Math_pow : number → number → number.
Variable Math_sqrt : number → number.

(** One turn of the loop of [rgbToColorName] over
    [(bestMatch, minDistance)]. *)
Definition closer_range (r g b : number) (best : string * number)
    (cr : ColorRange) : string * number :=
  if in_color_range r g b cr
  then
    let centerR := (((cr_r cr).1 + (cr_r cr).2) / 2)%float in
    let centerG := (((cr_g cr).1 + (cr_g cr).2) / 2)%float in
    let centerB := (((cr_b cr).1 + (cr_b cr).2) / 2)%float in
    let distance :=
      Math_sqrt (Math_pow (r - centerR) 2 + Math_pow (g - centerG) 2
                 + Math_pow (b - centerB) 2)%float in
    if PrimFloat.ltb distance best.2 then (cr_name cr, distance) else best
  else best.

(** [rgbToColorName]. *)
Definition rgbToColorName (r g b : number) : string :=
  (fold_left (closer_range r g b) colorRanges ("Gray", infinity)).1.

(** One turn of the loop of [detectColorsWithVision] over
    [detectedColors]. *)
Definition detect_color (detectedColors : list string) (color : DominantColor)
  : list string :=
  match dc_color color with
  | Some c =>
      match red c, green c, blue c with
      | Some r, Some g, Some b =>
          let colorName :=
            rgbToColorName (Math_round (num_or (Some r) 0%float))
                           (Math_round (num_or (Some g) 0%float))
                           (Math_round (num_or (Some b) 0%float)) in
          if nonempty colorName && negb (bool_decide (colorName ∈ detectedColors))
          then (detectedColors ++ [colorName])%list
          else detectedColors
      | _, _, _ => detectedColors
      end
  | None => detectedColors
  end.

(** [detectColorsWithVision] after the call to the vision client: [colors]
    is [result.imagePropertiesAnnotation?.dominantColors?.colors]. *)
Definition detectColorsWithVision (colors : option (list DominantColor))
  : list string :=
  match colors with
  | None | Some [] => []
  | Some colors =>
      let topColors :=
        List.filter (λ color,
                       PrimFloat.ltb 0.1%float (num_or (dc_score color) 0%float))
                    (take 3 colors) in
      take 2 (fold_left detect_color topColors [])
  end.

End Colours.

(** ** aiService.ts: brand detection *)

(** The list [brands] of [detectBrandWithOCR]. *)
Definition brands : list string :=
  ["Nike"; "Adidas"; "Puma"; "Levi"; "French Connection"; "Zara"; "H&M";
   "Gucci"; "Louis Vuitton"; "Reebok"; "Under Armour"; "Fila";
   "Tommy Hilfiger"; "Calvin Klein"; "Superdry"; "Jack & Jones"; "UCB";
   "United Colors of Benetton"; "Wrangler"; "Pepe Jeans"; "Lee";
   "Allen Solly"; "Van Heusen"; "Arrow"; "Peter England"; "Raymond"; "Biba";
   "W"; "Global Desi"; "Forever 21"; "Gap"; "Marks & Spencer"; "Mango";
   "Boss"; "Diesel"; "Celio"; "Roadster"; "HRX"; "Mufti"; "Spykar";
   "Flying Machine"; "S Oliver"; "S.Oliver"; "French Connection"; "FCUK"].

(** The loop of [detectBrandWithOCR]: the first brand of the list that the
    text holds, letter case apart. *)
Fixpoint first_brand (text : string) (candidates : list string)
  : option string :=
  match candidates with
  | [] => None
  | brand :: rest =>
      if includes (toLowerCase text) (toLowerCase brand)
      then Some brand
      else first_brand text rest
  end.

(** [toLowerCase] maps the ASCII letters, as JavaScript does on a text of
    ASCII characters.  Outside ASCII two characters (U+0130 and U+212A) have
    a lower case that holds an ASCII letter; what is shown of the brand
    search is shown for texts of ASCII characters. *)
Definition ascii_text (text : string) : bool :=
  forallb (λ c, (nat_of_ascii c <? 128)%nat) (list_ascii_of_string text).

(** [detectBrandWithOCR] after the call to the vision client: [description]
    is [detections[0].description] when the client answered with a text,
    [None] when it answered without one or threw. *)
Definition detectBrandWithOCR (description : option string) : option string :=
  match description with
  | Some text => if nonempty text then first_brand text brands else None
  | None => None
  end.

(** [brandForPricing = detectedBrand || productDetails.brand]. *)
Definition brandForPricing (detectedBrand : option string) (declared : string)
  : string :=
  str_or detectedBrand declared.

(** ** models/User.ts and routes/user.ts

    Of a user document the handlers of [routes/user.ts] read and write
    [addresses] and [paymentAccount] only; the other paths are left out.  A
    field of an address is optional here so that an assignment of [undefined]
    can be written down; the schema asks for all of them. *)

Record UserAddress := {
  a_id : ObjectId;
  a_name : option string;
  a_phone : option string;
  a_pincode : option string;
  a_house : option string;
  a_area : option string;
  isDefault : bool
}.

Record UserDoc := {
  addresses : list UserAddress;
  paymentAccount : option BankAccount
}.

Definition set_isDefault (b : bool) (a : UserAddress) : UserAddress :=
  {| a_id := a_id a; a_name := a_name a; a_phone := a_phone a;
     a_pincode := a_pincode a; a_house := a_house a; a_area := a_area a;
     isDefault := b |}.

Definition set_addresses (l : list UserAddress) (u : UserDoc) : UserDoc :=
  {| addresses := l; paymentAccount := paymentAccount u |}.

Definition set_paymentAccount (a : option BankAccount) (u : UserDoc) : UserDoc :=
  {| addresses := addresses u; paymentAccount := a |}.

(** [required: true] on a string path. *)
Definition required (x : option string) : bool := truthy_str x.

(** The validators of [AddressSchema]. *)
Definition validate_address (a : UserAddress) : bool :=
  required (a_name a) && required (a_phone a) && required (a_pincode a) &&
  required (a_house a) && required (a_area a).

(** [addresses.filter(addr => addr.isDefault).length]. *)
Definition defaultCount (l : list UserAddress) : nat :=
  length (List.filter isDefault l).

(** The validators of [PaymentAccountSchema]. *)
Definition validate_account (a : BankAccount) : bool :=
  nonempty (account_number a) && nonempty (ifsc_code a) &&
  nonempty (account_holder a).

(** The validators of [UserSchema] on the paths modelled; the one on
    [addresses] is "Only one address can be set as default". *)
Definition validate_user (u : UserDoc) : bool :=
  forallb validate_address (addresses u) &&
  (defaultCount (addresses u) <=? 1)%nat &&
  from_option validate_account true (paymentAccount u).

(** Which database calls of one request on the [User] collection throw. *)
Record UserFaults := {
  findById_throws : bool;
  save_throws : bool
}.

Definition no_user_faults : UserFaults :=
  {| findById_throws := false; save_throws := false |}.

Inductive UserPayload :=
| Message (message : string)
| AddressList (l : list UserAddress)
| AccountOrNull (a : option BankAccount)
| AccountUpdated (message : string) (a : option BankAccount).

Record UserResponse := {
  ur_code : nat;
  ur_body : UserPayload
}.

Definition Users := gmap string UserDoc.

(** [await user.save()] inside the [try] of a handler: the response on
    success, the catch-all response when validation or the write fails. *)
Definition save_user (f : UserFaults) (uid : ObjectId) (u : UserDoc)
    (ok : UserResponse) (failed : string) (users : gmap string UserDoc)
  : UserResponse * gmap string UserDoc :=
  if save_throws f || negb (validate_user u)
  then ({| ur_code := 500; ur_body := Message failed |}, users)
  else (ok, <[uid := u]> users).

(** [const user = await User.findById(req.user._id); if (!user) return 404]
    inside the [try] of a handler. *)
Definition with_user (f : UserFaults) (uid : ObjectId) (failed : string)
    (k : UserDoc → gmap string UserDoc → UserResponse * gmap string UserDoc)
    (users : gmap string UserDoc) : UserResponse * gmap string UserDoc :=
  if findById_throws f
  then ({| ur_code := 500; ur_body := Message failed |}, users)
  else
    match users !! uid with
    | None => ({| ur_code := 404; ur_body := Message "User not found" |}, users)
    | Some user => k user users
    end.

(** [GET /api/user/addresses]. *)
Definition getAddresses (f : UserFaults) (uid : ObjectId)
  : gmap string UserDoc → UserResponse * gmap string UserDoc :=
  with_user f uid "Failed to fetch addresses"
    (λ user users,
       ({| ur_code := 200; ur_body := AddressList (addresses user) |}, users)).

Record AddressBody := {
  ab_name : option string;
  ab_phone : option string;
  ab_pincode : option string;
  ab_house : option string;
  ab_area : option string;
  ab_isDefault : option bool
}.

(** [POST /api/user/addresses]; [newId] is the [_id] the pushed
    subdocument receives. *)
Definition addAddress (f : UserFaults) (uid : ObjectId) (body : AddressBody)
    (newId : ObjectId)
  : gmap string UserDoc → UserResponse * gmap string UserDoc :=
  with_user f uid "Failed to add address"
    (λ user,
       let cleared : list UserAddress :=
         if default false (ab_isDefault body)
         then set_isDefault false <$> addresses user
         else addresses user in
       let pushed : list UserAddress :=
         (cleared ++
          [{| a_id := newId; a_name := ab_name body; a_phone := ab_phone body;
              a_pincode := ab_pincode body; a_house := ab_house body;
              a_area := ab_area body;
              isDefault := default false (ab_isDefault body) |}])%list in
       save_user f uid (set_addresses pushed user)
         {| ur_code := 201; ur_body := AddressList pushed |}
         "Failed to add address").

(** The assignments [addr.name = name; ...; addr.area = area]. *)
Definition assign_address (body : AddressBody) (a : UserAddress) : UserAddress :=
  {| a_id := a_id a; a_name := ab_name body; a_phone := ab_phone body;
     a_pincode := ab_pincode body; a_house := ab_house body;
     a_area := ab_area body; isDefault := isDefault a |}.

(** [PUT /api/user/addresses/:addressId].  [addr] is the first address with
    the id; it is one of the elements of [user.addresses], so that clearing
    all the flags clears its flag too before it is set. *)
Definition updateAddress (f : UserFaults) (uid : ObjectId) (addressId : string)
    (body : AddressBody)
  : gmap string UserDoc → UserResponse * gmap string UserDoc :=
  with_user f uid "Failed to update address"
    (λ user users,
       match List.find (λ addr, bool_decide (a_id addr = addressId))
                       (addresses user) with
       | None =>
           ({| ur_code := 404; ur_body := Message "Address not found" |}, users)
       | Some _ =>
           let assigned : list UserAddress :=
             update_first (λ addr, bool_decide (a_id addr = addressId))
                          (assign_address body) (addresses user) in
           let flagged : list UserAddress :=
             if default false (ab_isDefault body)
             then update_first (λ addr, bool_decide (a_id addr = addressId))
                               (set_isDefault true)
                               (set_isDefault false <$> assigned)
             else assigned in
           save_user f uid (set_addresses flagged user)
             {| ur_code := 200; ur_body := AddressList flagged |}
             "Failed to update address" users
       end).

(** [DELETE /api/user/addresses/:addressId]. *)
Definition deleteAddress (f : UserFaults) (uid : ObjectId) (addressId : string)
  : gmap string UserDoc → UserResponse * gmap string UserDoc :=
  with_user f uid "Failed to delete address"
    (λ user,
       let kept : list UserAddress :=
         List.filter (λ addr, negb (bool_decide (a_id addr = addressId)))
                     (addresses user) in
       save_user f uid (set_addresses kept user)
         {| ur_code := 200; ur_body := AddressList kept |}
         "Failed to delete address").

(** [POST /api/user/addresses/:addressId/default]. *)
Definition setDefaultAddress (f : UserFaults) (uid : ObjectId)
    (addressId : string)
  : gmap string UserDoc → UserResponse * gmap string UserDoc :=
  with_user f uid "Failed to set default address"
    (λ user,
       let flagged : list UserAddress :=
         (λ addr, set_isDefault (bool_decide (a_id addr = addressId)) addr)
           <$> addresses user in
       save_user f uid (set_addresses flagged user)
         {| ur_code := 200; ur_body := AddressList flagged |}
         "Failed to set default address").

(** [GET /api/user/payment-account]. *)
Definition getPaymentAccount (f : UserFaults) (uid : ObjectId)
  : gmap string UserDoc → UserResponse * gmap string UserDoc :=
  with_user f uid "Failed to fetch payment account"
    (λ user users,
       ({| ur_code := 200; ur_body := AccountOrNull (paymentAccount user) |},
        users)).

Record AccountBody := {
  acb_account_number : option string;
  acb_ifsc_code : option string;
  acb_account_holder : option string
}.

(** [POST /api/user/payment-account]. *)
Definition setPaymentAccount (f : UserFaults) (uid : ObjectId)
    (body : AccountBody)
  : gmap string UserDoc → UserResponse * gmap string UserDoc :=
  match acb_account_number body, acb_ifsc_code body, acb_account_holder body with
  | Some number, Some ifsc, Some holder =>
      if nonempty number && nonempty ifsc && nonempty holder
      then
        with_user f uid "Failed to update payment account"
          (λ user,
             let account :=
               {| account_number := number; ifsc_code := ifsc;
                  account_holder := holder |} in
             save_user f uid (set_paymentAccount (Some account) user)
               {| ur_code := 200;
                  ur_body := AccountUpdated "Payment account updated successfully"
                                            (Some account) |}
               "Failed to update payment account")
      else λ users,
        ({| ur_code := 400;
            ur_body := Message "All payment account fields are required" |},
         users)
  | _, _, _ =>
      λ users,
        ({| ur_code := 400;
            ur_body := Message "All payment account fields are required" |},
         users)
  end.

(** [DELETE /api/user/payment-account]. *)
Definition deletePaymentAccount (f : UserFaults) (uid : ObjectId)
  : gmap string UserDoc → UserResponse * gmap string UserDoc :=
  with_user f uid "Failed to delete payment account"
    (λ user,
       save_user f uid (set_paymentAccount None user)
         {| ur_code := 200;
            ur_body := Message "Payment account deleted successfully" |}
         "Failed to delete payment account").

(** The requests on addresses. *)
Inductive AddressRequest :=
| AddAddress (body : AddressBody) (newId : ObjectId)
| UpdateAddress (addressId : string) (body : AddressBody)
| DeleteAddress (addressId : string)
| SetDefaultAddress (addressId : string).

Definition handle_address (f : UserFaults) (uid : ObjectId) (r : AddressRequest)
  : gmap string UserDoc → UserResponse * gmap string UserDoc :=
  match r with
  | AddAddress body newId => addAddress f uid body newId
  | UpdateAddress addressId body => updateAddress f uid addressId body
  | DeleteAddress addressId => deleteAddress f uid addressId
  | SetDefaultAddress addressId => setDefaultAddress f uid addressId
  end.

(** What a stored list of addresses keeps: the ids of the subdocuments
    differ and at most one address is the default. *)
Definition addresses_ok (l : list UserAddress) : Prop :=
  NoDup (a_id <$> l) ∧ (defaultCount l ≤ 1)%nat.

(** ** routes/sell.ts: the listing queries

    A query answers with the documents of one status; the order that
    [sort] gives them by time stamp is outside the model, and so is the
    [populate] of the seller. *)

Inductive ProductList :=
| Refused (r : Response)
| Products (found : gmap string Product).

(** [Product.find({ status: st })], inside the [try] of a query. *)
Definition find_by_status (f : Faults) (st : ProductStatus) (s : Store)
  : ProductList :=
  if throws f call_Product_find
  then Refused (json 500 "Server error")
  else Products (filter (λ kp, status kp.2 = st) (products s)).

(** [GET /sell/admin/pending]: the submissions that wait for the admin are
    those with status ['approved']. *)
Definition adminPending (f : Faults) (caller : User) (s : Store) : ProductList :=
  if negb (is_admin caller)
  then Refused (json 403 "Forbidden: Admins only")
  else find_by_status f approved s.

(** [GET /sell/admin/listed]. *)
Definition adminListed (f : Faults) (caller : User) (s : Store) : ProductList :=
  if negb (is_admin caller)
  then Refused (json 403 "Forbidden: Admins only")
  else find_by_status f listed s.

(** [GET /sell/listed-public]. *)
Definition listedPublic (f : Faults) (s : Store) : ProductList :=
  find_by_status f listed s.

(** [GET /sell/admin/sold]. *)
Definition adminSold (f : Faults) (caller : User) (s : Store) : ProductList :=
  if negb (is_admin caller)
  then Refused (json 403 "Forbidden: Admins only")
  else find_by_status f sold s.

(** ** What the requests keep of an order *)


(** [o'] is [o] after a request: the same order, paid if it was. *)
Definition order_kept (o o' : Order) : Prop :=
  o_id o' = o_id o ∧ user o' = user o ∧ address o' = address o ∧
  cart o' = cart o ∧ amount o' = amount o ∧
  razorpayOrderId o' = razorpayOrderId o ∧
  (o_status o = paid → o_status o' = paid).

(** What no request changes of a product document. *)
Definition same_submission (p p' : Product) : Prop :=
  seller p' = seller p ∧ article p' = article p ∧ brand p' = brand p ∧
  category p' = category p ∧ gender p' = gender p ∧ size p' = size p ∧
  age p' = age p ∧ wear_count p' = wear_count p ∧ damage p' = damage p ∧
  images p' = images p ∧ ai_analysis p' = ai_analysis p.

(** The requests of the sell routes. *)
Definition sell_request (r : Request) : bool :=
  match r with
  | Submit _ _ _ _ _ _ | AcceptOffer _ _ _ | RejectOffer _ _ _
  | AdminReviewReq _ _ _ _ | EditPrice _ _ _ => true
  | CreateOrder _ | Verify _ | CompleteOrder _ _ => false
  end.

(** The admin's review, the one request that reads no status. *)
Definition is_review (r : Request) : bool :=
  match r with AdminReviewReq _ _ _ _ => true | _ => false end.

(** The moves of a product document under the requests other than the
    admin's review. *)
Inductive guarded_step : option Product → option Product → Prop :=
| guarded_none o :
    guarded_step o o
| guarded_submit p :
    status p = pending → admin_review p = None → listed_product p = None →
    guarded_step None (Some p)
| guarded_accept p pk pay :
    status p = pending →
    guarded_step (Some p) (Some (set_status approved (set_details pk pay p)))
| guarded_reject_offer p ar :
    status p = pending →
    guarded_step (Some p) (Some (set_admin_review ar (set_status rejected p)))
| guarded_edit_price price mrp p :
    status p = listed →
    guarded_step (Some p) (Some (edit_price price mrp p))
| guarded_sold p :
    guarded_step (Some p) (Some (set_status sold p)).

(** The effect of a request that writes at most one product document, and
    that only when it answers 200 or 201. *)
Definition one_document_written (s : Store) (x : Response * Store) : Prop :=
  orders x.2 = orders s ∧
  (code x.1 ≠ 200 → code x.1 ≠ 201 → x.2 = s) ∧
  ∃ k, ∀ j, j ≠ k → products x.2 !! j = products s !! j.

(** ** Example data for the colour functions and the user routes *)

(** [Math.pow] and [Math.sqrt] as an engine with correctly rounded
    operations gives them for the exponent 2. *)
Definition ex_pow (x y : number) : number := (x * x)%float.

Definition ex_colors : list DominantColor :=
  [ {| dc_score := Some 0.5%float;
       dc_color := Some {| red := Some 10%float; green := Some 12.4%float;
                           blue := Some 9%float |} |};
    {| dc_score := Some 0.3%float;
       dc_color := Some {| red := Some 20%float; green := Some 20%float;
                           blue := Some 30%float |} |};
    {| dc_score := Some 0.15%float;
       dc_color := Some {| red := Some 250%float; green := Some 250%float;
                           blue := Some 250%float |} |};
    {| dc_score := Some 0.9%float;
       dc_color := Some {| red := Some 220%float; green := Some 30%float;
                           blue := Some 30%float |} |} ].

Definition ex_uid : ObjectId := "eeeeeeeeeeeeeeeeeeeeeeee".

Definition ex_home : AddressBody :=
  {| ab_name := Some "Buyer"; ab_phone := Some "8888888888";
     ab_pincode := Some "110001"; ab_house := Some "4";
     ab_area := Some "Central"; ab_isDefault := Some true |}.

Definition ex_office : AddressBody :=
  {| ab_name := Some "Buyer"; ab_phone := Some "8888888888";
     ab_pincode := Some "110002"; ab_house := Some "9";
     ab_area := Some "North"; ab_isDefault := Some true |}.

Definition ex_users0 : gmap string UserDoc :=
  {[ ex_uid := {| addresses := []; paymentAccount := None |} ]}.

Definition ex_users1 : gmap string UserDoc :=
  (addAddress no_user_faults ex_uid ex_home "a1" ex_users0).2.

Definition ex_users2 : gmap string UserDoc :=
  (addAddress no_user_faults ex_uid ex_office "a2" ex_users1).2.

Definition ex_account : AccountBody :=
  {| acb_account_number := Some "000123456789";
     acb_ifsc_code := Some "HDFC0000001";
     acb_account_holder := Some "Seller One" |}.

(** ** Example data for the further properties *)

(** A confirmation, correctly signed, for an order that was never
    created. *)
Definition ex_unknown_confirmation : VerifyBody :=
  {| order_id := "order_9"; payment_id := "pay_1";
     signature := "secret:order_9|pay_1" |}.

(** The static catalogue entry in the cart of [ex_order]. *)
Definition ex_static_item : CartItem :=
  {| productId := "test-product-1"; ci_name := "Test Product";
     ci_price := "100"; quantity := 1%float; image := None |}.



(** The document that [ex_submit] creates. *)
Definition ex_pending_doc : Product :=
  {| seller := u_id ex_seller; article := "T-shirt"; brand := "Nike";
     category := "Tops"; gender := Some "male"; size := None; age := None;
     wear_count := None; damage := None; images := ["uploads/1.png"];
     ai_analysis := ex_analysis; status := pending; admin_review := None;
     pickup_details := None; payment_details := None;
     listed_product := None; mainCategory := None |}.

Definition ex_offer : OfferBody :=
  {| ob_pickup_details :=
       Some {| pk_address := "12 Park Road"; pk_phone := "9999999999";
               preferred_date := "2025-01-01"; preferred_time := "10:00" |};
     ob_payment_details :=
       Some {| upi_id := Some "seller@upi"; bank_account := None |} |}.

(** The user of [ex_users0] and of [ex_users2]. *)
Definition ex_user0 : UserDoc := {| addresses := []; paymentAccount := None |}.

Definition ex_home_address : UserAddress :=
  {| a_id := "a1"; a_name := Some "Buyer"; a_phone := Some "8888888888";
     a_pincode := Some "110001"; a_house := Some "4";
     a_area := Some "Central"; isDefault := false |}.

Definition ex_office_address : UserAddress :=
  {| a_id := "a2"; a_name := Some "Buyer"; a_phone := Some "8888888888";
     a_pincode := Some "110002"; a_house := Some "9";
     a_area := Some "North"; isDefault := true |}.

Definition ex_user2 : UserDoc :=
  {| addresses := [ex_home_address; ex_office_address];
     paymentAccount := None |}.

(** ** routes/payments.ts: the amount of an order

    The first part of [POST /create-order], before any database call: the
    cart of the request is priced and the amount to charge is chosen between
    the one the client sent and the one computed.  The numbers of the
    request are JSON numbers. *)

(** [item.price] of a cart line of the request: absent or falsy, a string,
    or a truthy value that has no [replace] (a number). *)
Inductive LinePrice :=
| price_absent
| price_text (s : string)
| price_other.

Record CartLine := {
  cl_price : LinePrice;
  cl_quantity : option number
}.


Section Amount.

(** [parseFloat(s.replace('₹', ''))]. *)
Variable parse_price : string → number.

(** [parseFloat((item.price || '0').replace('₹', ''))]; [None] when the
    call of [replace] throws. *)
Definition line_price (item : CartLine) : option number :=
  match cl_price item with
  | price_absent | price_text "" => Some (parse_price "0")
  | price_text s => Some (parse_price s)
  | price_other => None
  end.




End Amount.




(** * Properties *)

(** ** Numbers *)

(** A truthy number that is not [<= 0] is [> 0]. *)
Lemma truthy_not_le_gt (x : number) :
  truthy_number x = true → PrimFloat.leb x 0%float = false →
  PrimFloat.ltb 0%float x = true.
Proof.
  unfold truthy_number.
  rewrite andb_true_iff. intros [_ Hnan].
  rewrite leb_spec, ltb_spec. rewrite FloatAxioms.eqb_spec in Hnan.
  replace (Prim2SF 0%float) with (S754_zero false) by reflexivity.
  revert Hnan. unfold SFeqb, SFleb, SFltb.
  destruct (Prim2SF x) as [ [] | [] | | [] ? ? ]; simpl; try congruence.
  all: rewrite ?Pos.compare_refl, ?Z.compare_refl; simpl; congruence.
Qed.

Lemma or_undefined_Some (x : option number) (v : number) :
  or_undefined x = Some v → x = Some v ∧ truthy_number v = true.
Proof.
  unfold or_undefined, truthy_num. destruct x as [w|]; [|done].
  destruct (truthy_number w) eqn:E; [|done]. intros [= ->]. done.
Qed.

(** ** Fallback pricing *)

(** The fallback is a function of the brand and the market reference
    alone; its confidence is always 0.6. *)
Lemma fallback_confidence (d : ProductDetails) (m : option SerpPrices) :
  confidence_score (fallbackPriceSuggestion d m) = 0.6%float.
Proof. reflexivity. Qed.

Lemma fallback_nike_no_market :
  suggested_price (fallbackPriceSuggestion ex_nike None) = 800%float.
Proof. reflexivity. Qed.

Lemma fallback_with_market (d : ProductDetails) :
  suggested_price (fallbackPriceSuggestion d (Some ex_market)) = 750%float.
Proof. reflexivity. Qed.

(** When the reasoning signal is unavailable (no API key, or the call
    fails) the fallback sees the product details and the market
    reference. *)
Lemma suggestPrice_unavailable (apiKey : string) (ia : ImageAnalysis)
    (d : ProductDetails) (m : option SerpPrices) (call : ApiOutcome) :
  apiKey = "" ∨ call = ApiFailure →
  suggestPriceWithSerp apiKey ia d m call = fallbackPriceSuggestion d m.
Proof.
  intros [-> | ->]; [reflexivity|].
  unfold suggestPriceWithSerp. by destruct (negb _).
Qed.

(** When the reply is unparsable the fallback is run on [{}] without the
    market reference: the price is 500 whatever the brand and the
    reference. *)
Lemma suggestPrice_unparsable (apiKey : string) (ia : ImageAnalysis)
    (d : ProductDetails) (m : option SerpPrices) (r : GeminiReply) :
  apiKey ≠ "" → r = NoJsonObject ∨ r = MalformedJson →
  suggested_price (suggestPriceWithSerp apiKey ia d m (ApiResponse r))
  = 500%float.
Proof.
  intros Hk Hr. unfold suggestPriceWithSerp.
  destruct apiKey; [done|]. simpl. by destruct Hr as [-> | ->].
Qed.

(** C7 (the code at the failing input): the reasoning signal answers with
    a text that holds no JSON object, for a Nike item with the market
    reference {min 1000, max 2000, avg 1500}.  The claim gives
    round(1500 x 0.5) = 750 for this case, as the sibling path for an
    unavailable signal does; the code suggests 500, with confidence 0.6. *)
Theorem C7_unparsable_reply_ignores_market_reference :
  let unparsable :=
    suggestPriceWithSerp "api-key" (image_analysis ex_analysis) ex_nike
                         (Some ex_market) (ApiResponse NoJsonObject) in
  let unavailable :=
    suggestPriceWithSerp "api-key" (image_analysis ex_analysis) ex_nike
                         (Some ex_market) ApiFailure in
  suggested_price unparsable = 500%float ∧
  confidence_score unparsable = 0.6%float ∧
  suggested_price unavailable = 750%float ∧
  suggested_price unparsable ≠ suggested_price unavailable.
Proof.
  repeat split; try reflexivity.
  intros H. vm_compute in H. discriminate H.
Qed.

Section Properties.

Context {env : Environment}.

(** ** Lists and maps *)

Lemma update_where_lookup (sel : ObjectId → bool) (upd : Product → Product)
    (m : gmap string Product) (k : string) :
  update_where sel upd m !! k = (λ p, if sel k then upd p else p) <$> m !! k.
Proof.
  unfold update_where. rewrite map_lookup_imap. by destruct (m !! k).
Qed.

Lemma update_where_twice (sel : ObjectId → bool) (upd : Product → Product)
    (m : gmap string Product) :
  (∀ p, upd (upd p) = upd p) →
  update_where sel upd (update_where sel upd m) = update_where sel upd m.
Proof.
  intros Hupd. apply map_eq. intros k. rewrite !update_where_lookup.
  destruct (m !! k) as [p|]; simpl; [|done].
  destruct (sel k); by rewrite ?Hupd.
Qed.

Lemma update_where_nowhere (sel : ObjectId → bool) (upd : Product → Product)
    (m : gmap string Product) :
  (∀ k, sel k = false) → update_where sel upd m = m.
Proof.
  intros Hsel. apply map_eq. intros k. rewrite update_where_lookup, Hsel.
  by destruct (m !! k).
Qed.

Lemma find_update_first {A} (P : A → bool) (upd : A → A) (l : list A) :
  (∀ x, P (upd x) = P x) →
  List.find P (update_first P upd l) = upd <$> List.find P l.
Proof.
  intros HP. induction l as [|x l IH]; simpl; [done|].
  destruct (P x) eqn:E; simpl.
  - by rewrite HP, E.
  - by rewrite E.
Qed.

Lemma update_first_twice {A} (P : A → bool) (upd : A → A) (l : list A) :
  (∀ x, P (upd x) = P x) → (∀ x, upd (upd x) = upd x) →
  update_first P upd (update_first P upd l) = update_first P upd l.
Proof.
  intros HP Hupd. induction l as [|x l IH]; simpl; [done|].
  destruct (P x) eqn:E; simpl.
  - by rewrite HP, E, Hupd.
  - by rewrite E, IH.
Qed.

Lemma update_first_no_match {A} (P : A → bool) (upd : A → A) (l : list A) :
  List.find P l = None → update_first P upd l = l.
Proof.
  induction l as [|x l IH]; simpl; [done|].
  destruct (P x); [done|]. intros H. by rewrite IH.
Qed.

(** ** Product documents *)

Lemma set_status_twice (st : ProductStatus) (p : Product) :
  set_status st (set_status st p) = set_status st p.
Proof. reflexivity. Qed.

Lemma set_status_same (p : Product) :
  set_status (status p) p = p.
Proof. by destruct p. Qed.

Lemma set_paid_twice (pid : string) (o : Order) :
  set_paid pid (set_paid pid o) = set_paid pid o.
Proof. reflexivity. Qed.

(** ** ObjectIds *)

Lemma persisted_spec (id : string) :
  persisted id = (String.length id =? 24)%nat && all_hex id.
Proof.
  unfold persisted, ObjectId_isValid, castObjectId.
  destruct (String.length id =? 24)%nat; [|apply andb_false_r].
  rewrite andb_true_r. destruct (all_hex id).
  - by rewrite bool_decide_eq_true_2.
  - rewrite bool_decide_eq_false_2; [done|]. by intros [? ?].
Qed.

Lemma persisted_cast (id : string) :
  persisted id = true → castObjectId id = Some (toLowerCase id).
Proof.
  rewrite persisted_spec, andb_true_iff. intros [Hlen Hhex].
  unfold castObjectId. by rewrite Hlen, Hhex.
Qed.

Lemma validObjectIds_cast (ids : list string) :
  mapM castObjectId (validObjectIds ids)
  = Some (toLowerCase <$> validObjectIds ids).
Proof.
  unfold validObjectIds. induction ids as [|id ids IH]; simpl; [done|].
  destruct (persisted id) eqn:E; [|done].
  simpl. rewrite (persisted_cast _ E). simpl. by rewrite IH.
Qed.

Lemma sold_keys_elem (order : Order) (item : CartItem) :
  item ∈ cart order → persisted (productId item) = true →
  toLowerCase (productId item) ∈ sold_keys order.
Proof.
  intros Hin Hp. unfold sold_keys, validObjectIds.
  apply list_elem_of_fmap. exists (productId item). split; [done|].
  apply list_elem_of_In, filter_In. split; [|done].
  apply list_elem_of_In, list_elem_of_fmap. eauto.
Qed.


(** ** Settlement *)

Lemma settle_no_persisted (body : VerifyBody) (order : Order) (s : Store) :
  validObjectIds (productId <$> cart order) = [] →
  settle body order s
  = with_orders
      (update_first (λ o, bool_decide (razorpayOrderId o = order_id body))
                    (set_paid (payment_id body)) (orders s)) s.
Proof.
  intros Hnone. unfold settle, with_orders. f_equal.
  apply update_where_nowhere. intros k. unfold sold_keys. rewrite Hnone.
  apply bool_decide_eq_false_2. apply not_elem_of_nil.
Qed.

(** A settlement that meets no database fault. *)
Lemma verify_runs (body : VerifyBody) (order : Order) (s : Store) :
  generated_signature body = signature body →
  List.find (λ o, bool_decide (razorpayOrderId o = order_id body)) (orders s)
  = Some order →
  verify no_faults body s = (payment_verified, settle body order s).
Proof.
  intros Hsig Hfind. unfold verify. rewrite bool_decide_eq_true_2 by done.
  unfold try_catch, mbind, Handler_bind, Order_findOne, db. simpl.
  rewrite Hfind. simpl.
  destruct (validObjectIds (productId <$> cart order)) as [|id ids] eqn:Hv.
  - simpl. by rewrite settle_no_persisted.
  - rewrite <- Hv. replace (0 <? length _)%nat with true
      by (by rewrite Hv).
    unfold Product_updateMany, Product_find, db. simpl.
    by rewrite validObjectIds_cast.
Qed.

(** A settlement that answers 200, whatever the faults of the request. *)
Lemma verify_success_inv (f : Faults) (body : VerifyBody) (s s' : Store)
    (r : Response) :
  verify f body s = (r, s') → code r = 200 →
  generated_signature body = signature body ∧
  ∃ order,
    List.find (λ o, bool_decide (razorpayOrderId o = order_id body)) (orders s)
    = Some order ∧
    r = payment_verified ∧ s' = settle body order s.
Proof.
  unfold verify. case_bool_decide as Hsig; [|by intros [= <- <-]].
  unfold try_catch, mbind, Handler_bind, Order_findOne, Order_find,
    Order_findOneAndUpdate, db. simpl.
  destruct (throws f call_Order_findOne); simpl; [by intros [= <- <-]|].
  destruct (List.find _ (orders s)) as [order|] eqn:Hfind; simpl.
  2:{ destruct (throws f call_Order_find); simpl; by intros [= <- <-]. }
  destruct (throws f call_Order_findOneAndUpdate); simpl;
    [by intros [= <- <-]|].
  destruct (validObjectIds (productId <$> cart order)) as [|id ids] eqn:Hv.
  - simpl. intros [= <- <-] _. split; [done|]. exists order.
    by rewrite settle_no_persisted.
  - rewrite <- Hv. replace (0 <? length _)%nat with true by (by rewrite Hv).
    unfold Product_updateMany, Product_find, db. simpl.
    rewrite validObjectIds_cast.
    destruct (throws f call_Product_updateMany); simpl; [by intros [= <- <-]|].
    destruct (throws f call_Product_find); simpl; [by intros [= <- <-]|].
    intros [= <- <-] _. split; [done|].
    by exists order.
Qed.


Lemma settle_order (body : VerifyBody) (order : Order) (s : Store) :
  List.find (λ o, bool_decide (razorpayOrderId o = order_id body)) (orders s)
  = Some order →
  List.find (λ o, bool_decide (razorpayOrderId o = order_id body))
            (orders (settle body order s))
  = Some (set_paid (payment_id body) order).
Proof.
  intros Hfind. unfold settle. simpl.
  rewrite find_update_first by done. by rewrite Hfind.
Qed.

Lemma settle_twice (body : VerifyBody) (order : Order) (s : Store) :
  settle body (set_paid (payment_id body) order) (settle body order s)
  = settle body order s.
Proof.
  unfold settle. simpl. f_equal.
  - apply (update_where_twice _ _ _ (set_status_twice sold)).
  - apply update_first_twice; done.
Qed.

(** C2: when the signature of the request is not the keyed hash of
    [order_id|payment_id] under the shared secret, the verification
    answers 400 "signature mismatch" (success = false) and the store, orders
    and products alike, is what it was, whatever the database would have
    done. *)
Theorem C2_signature_mismatch_mutates_nothing (f : Faults) (body : VerifyBody)
    (s : Store) :
  signature body
  ≠ hmac_sha256_hex RAZORPAY_KEY_SECRET
      (order_id body +:+ "|" +:+ payment_id body) →
  verify f body s = (signature_mismatch, s) ∧
  code signature_mismatch = 400 ∧
  success signature_mismatch = Some false.
Proof.
  intros Hsig. unfold verify, generated_signature.
  by rewrite bool_decide_eq_false_2.
Qed.

(** C3: re-delivery of a payment confirmation that was verified.  The
    second verification returns the same success and leaves the store as
    the first one left it: the order stays paid with the same payment id
    and the products stay sold.  At the level of one product, marking it
    sold twice is marking it sold once, and marking a sold product sold
    changes nothing. *)
Theorem C3_settlement_idempotent (body : VerifyBody) (s s' : Store)
    (r : Response) :
  verify no_faults body s = (r, s') → code r = 200 →
  verify no_faults body s' = (r, s') ∧
  r = payment_verified ∧
  (∀ p, set_status sold (set_status sold p) = set_status sold p) ∧
  (∀ p, status p = sold → set_status sold p = p).
Proof.
  intros Hrun Hok.
  destruct (verify_success_inv _ _ _ _ _ Hrun Hok)
    as (Hsig & order & Hfind & -> & ->).
  split; [|split; [done|split]].
  - rewrite (verify_runs body (set_paid (payment_id body) order)); [|done|].
    + by rewrite settle_twice.
    + by apply settle_order.
  - done.
  - intros p <-. apply set_status_same.
Qed.


(** A database fault on the order lookup: nothing is written and the
    verification answers with the catch-all 500. *)
Lemma verify_lookup_fault (f : Faults) (body : VerifyBody) (s : Store) :
  generated_signature body = signature body →
  throws f call_Order_findOne = true →
  verify f body s = (error_updating_order, s).
Proof.
  intros Hsig Hf. unfold verify. rewrite bool_decide_eq_true_2 by done.
  unfold try_catch, mbind, Handler_bind, Order_findOne, db. by rewrite Hf.
Qed.

(** The store after a settlement whose product update threw: the order is
    paid, the products written before the fault are sold. *)
Lemma verify_update_fault (f : Faults) (body : VerifyBody) (order : Order)
    (s : Store) :
  generated_signature body = signature body →
  List.find (λ o, bool_decide (razorpayOrderId o = order_id body)) (orders s)
  = Some order →
  throws f call_Order_findOne = false →
  throws f call_Order_findOneAndUpdate = false →
  validObjectIds (productId <$> cart order) ≠ [] →
  throws f call_Product_updateMany = true →
  verify f body s
  = (error_updating_order,
     {| products :=
          update_where
            (λ k, bool_decide (k ∈ sold_keys order) && applied f k)
            (set_status sold) (products s);
        orders :=
          update_first (λ o, bool_decide (razorpayOrderId o = order_id body))
                       (set_paid (payment_id body)) (orders s) |}).
Proof.
  intros Hsig Hfind Hf1 Hf2 Hne Hf3.
  unfold verify. rewrite bool_decide_eq_true_2 by done.
  unfold try_catch, mbind, Handler_bind, Order_findOne,
    Order_findOneAndUpdate, db. rewrite Hf1, Hf2. simpl. rewrite Hfind. simpl.
  replace (0 <? length _)%nat with true
    by (by destruct (validObjectIds (productId <$> cart order))).
  unfold Product_updateMany. by rewrite validObjectIds_cast, Hf3.
Qed.

(** C6 (as amended): the signature matched, the order was found and
    marked paid, and then the product update throws.  The verification
    answers with the catch-all 500 "Error updating order status"
    (success = false), the very response a fault of the order lookup
    gets, and the response names no product; the order stays paid with its
    payment id, and the products written before the fault stay sold. *)
Theorem C6_product_update_fault_keeps_order_paid (f : Faults)
    (body : VerifyBody) (order : Order) (s : Store) :
  generated_signature body = signature body →
  List.find (λ o, bool_decide (razorpayOrderId o = order_id body)) (orders s)
  = Some order →
  throws f call_Order_findOne = false →
  throws f call_Order_findOneAndUpdate = false →
  validObjectIds (productId <$> cart order) ≠ [] →
  throws f call_Product_updateMany = true →
  ∃ s',
    verify f body s = (error_updating_order, s') ∧
    error_updating_order
    = {| code := 500; success := Some false;
         message := "Error updating order status" |} ∧
    (∀ f0, throws f0 call_Order_findOne = true →
           verify f0 body s = (error_updating_order, s)) ∧
    List.find (λ o, bool_decide (razorpayOrderId o = order_id body)) (orders s')
    = Some (set_paid (payment_id body) order) ∧
    (∀ k, products s' !! k
          = (λ p, if bool_decide (k ∈ sold_keys order) && applied f k
                  then set_status sold p else p) <$> products s !! k).
Proof.
  intros Hsig Hfind Hf1 Hf2 Hne Hf3.
  eexists. split; [by apply (verify_update_fault f body order)|].
  split; [done|]. split; [|split].
  - intros f0 Hf0. by apply verify_lookup_fault.
  - simpl. rewrite find_update_first by done. by rewrite Hfind.
  - intros k. simpl. apply update_where_lookup.
Qed.

(** ** The manual completion of an order *)

Lemma completeOrder_success_inv (f : Faults) (caller : User)
    (orderId : string) (s s' : Store) (r : Response) :
  completeOrder f caller orderId s = (r, s') → code r = 200 →
  is_admin caller = true ∧
  ∃ ok order ks,
    castObjectId orderId = Some ok ∧
    List.find (λ o, bool_decide (o_id o = ok)) (orders s) = Some order ∧
    o_status order ≠ paid ∧
    mapM castObjectId (productId <$> cart order) = Some ks ∧
    products s'
    = update_where (λ k, bool_decide (k ∈ ks)) (set_status sold) (products s) ∧
    orders s'
    = update_first (λ o, bool_decide (o_id o = ok))
                   (set_paid "manual_verification") (orders s).
Proof.
  unfold completeOrder. destruct (is_admin caller); simpl;
    [|by intros [= <- <-]].
  unfold try_catch, mbind, Handler_bind, Order_findById,
    Order_findByIdAndUpdate, Product_updateMany, db.
  destruct (throws f call_Order_findById); simpl; [by intros [= <- <-]|].
  destruct (castObjectId orderId) as [ok|] eqn:Hcast; simpl;
    [|by intros [= <- <-]].
  destruct (List.find _ (orders s)) as [order|] eqn:Hfind; simpl;
    [|by intros [= <- <-]].
  case_bool_decide as Hpaid; simpl; [by intros [= <- <-]|].
  destruct (throws f call_Order_findByIdAndUpdate); simpl;
    [by intros [= <- <-]|].
  destruct (mapM castObjectId (productId <$> cart order)) as [ks|] eqn:Hks;
    simpl; [|by intros [= <- <-]].
  destruct (throws f call_Product_updateMany); simpl; [by intros [= <- <-]|].
  intros [= <- <-] _. split; [done|]. by exists ok, order, ks.
Qed.

Lemma mapM_cast_elem (ids : list string) (ks : list string) (id : string) :
  mapM castObjectId ids = Some ks → id ∈ ids →
  ∃ k, castObjectId id = Some k ∧ k ∈ ks.
Proof.
  intros Hks Hin. apply mapM_Some in Hks.
  induction Hks as [|x y l k Hxy _ IH]; [by apply elem_of_nil in Hin|].
  apply elem_of_cons in Hin as [-> | Hin].
  - exists y. split; [done|]. apply elem_of_cons. by left.
  - destruct (IH Hin) as (k' & ? & ?). exists k'. split; [done|].
    apply elem_of_cons. by right.
Qed.


(** ** The product state machine *)

Lemma insert_step (m : gmap string Product) (k j : string) (p p' : Product) :
  m !! k = Some p → product_step (Some p) (Some p') →
  product_step (m !! j) (<[k := p']> m !! j).
Proof.
  intros Hk Hstep. destruct (decide (k = j)) as [<- | Hne].
  - by rewrite lookup_insert_eq, Hk.
  - rewrite lookup_insert_ne by done. constructor.
Qed.

Lemma update_where_step (sel : ObjectId → bool) (m : gmap string Product)
    (j : string) :
  product_step (m !! j) (update_where sel (set_status sold) m !! j).
Proof.
  rewrite update_where_lookup. destruct (m !! j) as [p|]; simpl; [|constructor].
  destruct (sel j); constructor.
Qed.

Lemma Product_findOne_Some (k : string) (sellerId : ObjectId)
    (st : ProductStatus) (m : gmap string Product) (k' : string) (p : Product) :
  (p ← m !! k;
   if bool_decide (seller p = sellerId) && bool_decide (status p = st)
   then Some (k, p) else None) = Some (k', p) →
  k' = k ∧ m !! k = Some p ∧ status p = st.
Proof.
  destruct (m !! k) as [q|]; simpl; [|done].
  destruct (bool_decide (seller q = sellerId)); simpl; [|done].
  case_bool_decide; [|done]. by intros [= <- <-].
Qed.

Ltac hsimpl :=
  cbv beta iota zeta delta
    [try_catch mbind mret Handler_bind Handler_ret throw db];
  simpl.

Lemma submit_step (f : Faults) (caller : User) (body : SubmitBody)
    (files : list UploadedFile) (readable : bool)
    (analysis : option AiAnalysis) (k : ObjectId) (s : Store) (j : string) :
  product_step (products s !! j)
    (products (submit f caller body files readable analysis k s).2 !! j).
Proof.
  unfold submit, Product_create.
  case_bool_decide; [hsimpl; constructor|].
  destruct (existsb _ files); [hsimpl; constructor|].
  destruct readable; [|hsimpl; constructor].
  destruct analysis as [a|]; [|hsimpl; constructor].
  destruct (sb_article body), (sb_brand body), (sb_category body);
    try (hsimpl; constructor).
  hsimpl. destruct (throws f call_Product_create); [constructor|].
  match goal with |- context [validate ?p && ?b] =>
    destruct (validate p && b) eqn:Hnew end; simpl; [|constructor].
  apply andb_true_iff in Hnew as [_ Hnew%bool_decide_eq_true].
  destruct (decide (k = j)) as [<- | Hne].
  - rewrite lookup_insert_eq, Hnew. by constructor.
  - rewrite lookup_insert_ne by done. constructor.
Qed.

Lemma acceptOffer_step (f : Faults) (caller : User) (id : string)
    (body : OfferBody) (s : Store) (j : string) :
  product_step (products s !! j)
    (products (acceptOffer f caller id body s).2 !! j).
Proof.
  unfold acceptOffer, Product_findOne, Product_save.
  destruct (ob_pickup_details body) as [pk|], (ob_payment_details body)
    as [pay|]; try (hsimpl; constructor).
  hsimpl. destruct (throws f call_Product_findOne); [constructor|].
  destruct (castObjectId id) as [k|]; [|constructor].
  match goal with |- context [option_bind _ _ ?g ?o] =>
    destruct (option_bind _ _ g o) as [[k' p]|] eqn:Hfound end;
    [|constructor].
  apply Product_findOne_Some in Hfound as (-> & Hk & Hst).
  destruct (throws f call_Product_save); [constructor|].
  destruct (validate _); simpl; [|constructor].
  apply (insert_step _ _ _ _ _ Hk). by constructor.
Qed.

Lemma rejectOffer_step (f : Faults) (caller : User) (id : string)
    (reason : option string) (s : Store) (j : string) :
  product_step (products s !! j)
    (products (rejectOffer f caller id reason s).2 !! j).
Proof.
  unfold rejectOffer, Product_findOne, Product_save.
  hsimpl. destruct (throws f call_Product_findOne); [constructor|].
  destruct (castObjectId id) as [k|]; [|constructor].
  match goal with |- context [option_bind _ _ ?g ?o] =>
    destruct (option_bind _ _ g o) as [[k' p]|] eqn:Hfound end;
    [|constructor].
  apply Product_findOne_Some in Hfound as (-> & Hk & Hst).
  destruct (throws f call_Product_save); [constructor|].
  destruct (validate _); simpl; [|constructor].
  apply (insert_step _ _ _ _ _ Hk).
  destruct (truthy_str reason).
  - by apply (step_reject_offer _ (Some _)).
  - replace (set_status rejected p) with
      (set_admin_review (admin_review p) (set_status rejected p))
      by (by destruct p).
    by apply step_reject_offer.
Qed.

Lemma adminReview_step (f : Faults) (now : nat) (caller : User) (id : string)
    (body : ReviewBody) (s : Store) (j : string) :
  product_step (products s !! j)
    (products (adminReview f now caller id body s).2 !! j).
Proof.
  unfold adminReview, Product_findById, Product_save.
  destruct (is_admin caller); simpl; [|constructor].
  destruct (_ || _); [hsimpl; constructor|].
  hsimpl. destruct (throws f call_Product_findById); [constructor|].
  destruct (castObjectId id) as [k|]; [|constructor].
  destruct (products s !! k) as [p|] eqn:Hk; simpl; [|constructor].
  case_bool_decide.
  - destruct (rb_final_price body) as [final|]; [|constructor].
    destruct (_ || _); [constructor|].
    destruct (throws f call_Product_save); [constructor|].
    destruct (validate _); simpl; [|constructor].
    apply (insert_step _ _ _ _ _ Hk). apply step_review_approve.
  - destruct (throws f call_Product_save); [constructor|].
    destruct (validate _); simpl; [|constructor].
    apply (insert_step _ _ _ _ _ Hk). apply step_review_reject.
Qed.

Lemma editPrice_step (f : Faults) (caller : User) (id : string)
    (body : PriceBody) (s : Store) (j : string) :
  product_step (products s !! j)
    (products (editPrice f caller id body s).2 !! j).
Proof.
  unfold editPrice, Product_findById, Product_save.
  destruct (is_admin caller); simpl; [|constructor].
  destruct (pb_price body) as [price|]; [|hsimpl; constructor].
  destruct (_ || _); [hsimpl; constructor|].
  hsimpl. destruct (throws f call_Product_findById); [constructor|].
  destruct (castObjectId id) as [k|]; [|constructor].
  destruct (products s !! k) as [p|] eqn:Hk; simpl; [|constructor].
  case_bool_decide as Hst; simpl; [|constructor].
  destruct (throws f call_Product_save); [constructor|].
  destruct (validate _); simpl; [|constructor].
  apply (insert_step _ _ _ _ _ Hk). by constructor.
Qed.

Lemma createOrder_products (f : Faults) (o : Order) (s : Store) :
  products (createOrder f o s).2 = products s.
Proof.
  unfold createOrder, Order_create. hsimpl.
  destruct (throws f call_Order_create); [done|].
  by case_bool_decide.
Qed.

Lemma verify_step (f : Faults) (body : VerifyBody) (s : Store) (j : string) :
  product_step (products s !! j) (products (verify f body s).2 !! j).
Proof.
  unfold verify, Order_findOne, Order_find, Order_findOneAndUpdate,
    Product_updateMany, Product_find.
  case_bool_decide; [|constructor].
  hsimpl. destruct (throws f call_Order_findOne); [constructor|].
  destruct (List.find _ (orders s)) as [order|].
  2:{ destruct (throws f call_Order_find); constructor. }
  destruct (throws f call_Order_findOneAndUpdate); [constructor|].
  destruct (0 <? _)%nat; [|constructor].
  destruct (mapM _ _) as [ks|]; [|constructor].
  destruct (throws f call_Product_updateMany); simpl;
    [apply update_where_step|].
  destruct (throws f call_Product_find); simpl; apply update_where_step.
Qed.

Lemma completeOrder_step (f : Faults) (caller : User) (orderId : string)
    (s : Store) (j : string) :
  product_step (products s !! j)
    (products (completeOrder f caller orderId s).2 !! j).
Proof.
  unfold completeOrder, Order_findById, Order_findByIdAndUpdate,
    Product_updateMany.
  destruct (is_admin caller); simpl; [|constructor].
  hsimpl. destruct (throws f call_Order_findById); [constructor|].
  destruct (castObjectId orderId) as [ok|]; [|constructor].
  destruct (List.find _ (orders s)) as [order|]; [|constructor].
  case_bool_decide; [constructor|].
  destruct (throws f call_Order_findByIdAndUpdate); [constructor|].
  destruct (mapM _ _) as [ks|]; [|constructor].
  destruct (throws f call_Product_updateMany); simpl; apply update_where_step.
Qed.

(** Every request moves every product document along [product_step]. *)
Lemma handle_step (f : Faults) (r : Request) (s : Store) (j : string) :
  product_step (products s !! j) (products (handle f r s).2 !! j).
Proof.
  destruct r; simpl.
  - apply submit_step.
  - apply acceptOffer_step.
  - apply rejectOffer_step.
  - apply adminReview_step.
  - apply editPrice_step.
  - rewrite createOrder_products. constructor.
  - apply verify_step.
  - apply completeOrder_step.
Qed.

Lemma product_step_consistent (o o' : option Product) :
  product_step o o' →
  (∀ p, o = Some p → listing_consistent p) →
  ∀ p', o' = Some p' → listing_consistent p'.
Proof.
  unfold listing_consistent.
  destruct 1 as [o|p Hst Har Hlp|p pk pay Hst|p ar Hst| | |price mrp p Hst|p];
    intros Hinv p' Heq; [by apply Hinv|..]; injection Heq as <-; simpl.
  - by rewrite Hst.
  - destruct (Hinv p eq_refl) as [_ Hnone]. split; [done|].
    intros _. apply Hnone. by left.
  - split; [done|]. by intros [|].
  - split; [eauto|]. by intros [|].
  - split; [done|]. by intros [|].
  - destruct (Hinv p eq_refl) as [Hsome _]. rewrite Hst. split.
    + intros _. by apply fmap_is_Some, Hsome.
    + by intros [|].
  - split; [done|]. by intros [|].
Qed.

Lemma product_step_priced (o o' : option Product) :
  product_step o o' →
  (∀ p, o = Some p → priced p) → ∀ p', o' = Some p' → priced p'.
Proof.
  unfold priced.
  destruct 1 as [o|p Hst Har Hlp|p pk pay Hst|p ar Hst| | |price mrp p Hst|p];
    intros Hinv p' Heq; [by apply Hinv|..]; injection Heq as <-; simpl;
    try done.
  - intros Hl. rewrite Hst in Hl. discriminate Hl.
  - intros _. apply fmap_is_Some. by apply Hinv.
Qed.


Lemma reachable_invariants (s : Store) :
  reachable s →
  ∀ k p, products s !! k = Some p → listing_consistent p ∧ priced p.
Proof.
  induction 1 as [|f r s Hs IH]; intros k p Hk.
  - simpl in Hk. by rewrite lookup_empty in Hk.
  - pose proof (handle_step f r s k) as Hstep. split.
    + apply (product_step_consistent _ _ Hstep); [|done].
      intros q Hq. by apply (IH k).
    + apply (product_step_priced _ _ Hstep); [|done].
      intros q Hq. by apply (IH k).
Qed.


(** ** Admin review and price edits *)

Lemma adminReview_success_inv (f : Faults) (now : nat) (caller : User)
    (id : string) (body : ReviewBody) (s s' : Store) (r : Response) :
  adminReview f now caller id body s = (r, s') → code r = 200 →
  is_admin caller = true ∧
  ∃ k p p',
    castObjectId id = Some k ∧ products s !! k = Some p ∧
    s' = with_products (<[k := p']> (products s)) s ∧
    validate p' = true ∧
    ((action body = Some "approve" ∧
      ∃ final, rb_final_price body = Some final ∧
               truthy_number final = true ∧
               PrimFloat.leb final 0%float = false ∧
               p' = review_approve now caller body final p) ∨
     (action body = Some "reject" ∧ p' = review_reject now caller body p)).
Proof.
  unfold adminReview, Product_findById, Product_save.
  destruct (is_admin caller); simpl; [|by intros [= <- <-]].
  destruct (negb (truthy_str (action body)) || _) eqn:Hact;
    [hsimpl; by intros [= <- <-]|].
  apply orb_false_iff in Hact as [_ Hact%negb_false_iff%bool_decide_eq_true].
  hsimpl. destruct (throws f call_Product_findById); [by intros [= <- <-]|].
  destruct (castObjectId id) as [k|]; [|by intros [= <- <-]].
  destruct (products s !! k) as [p|] eqn:Hk; simpl; [|by intros [= <- <-]].
  case_bool_decide as Happ.
  - destruct (rb_final_price body) as [final|] eqn:Hfinal;
      [|by intros [= <- <-]].
    destruct (negb (truthy_number final) || _) eqn:Hpos;
      [by intros [= <- <-]|].
    apply orb_false_iff in Hpos as [Htr%negb_false_iff Hle].
    destruct (throws f call_Product_save); [by intros [= <- <-]|].
    destruct (validate _) eqn:Hval; simpl; [|by intros [= <- <-]].
    intros [= <- <-] _. split; [done|].
    eexists k, p, _. repeat (split; [done|]). left. split; [done|].
    by exists final.
  - destruct (throws f call_Product_save); [by intros [= <- <-]|].
    destruct (validate _) eqn:Hval; simpl; [|by intros [= <- <-]].
    intros [= <- <-] _. split; [done|].
    eexists k, p, _. repeat (split; [done|]). right. split; [|done].
    apply elem_of_cons in Hact as [|Hact]; [done|].
    apply elem_of_cons in Hact as [|Hact]; [done|].
    by apply elem_of_nil in Hact.
Qed.

(** The review looks at no status: for a product in any status, an approval
    with a positive price that passes the schema is saved and lists it. *)
Lemma adminReview_any_status (now : nat) (caller : User) (id : string)
    (body : ReviewBody) (s : Store) (k : string) (p : Product)
    (final : number) :
  is_admin caller = true → castObjectId id = Some k →
  products s !! k = Some p →
  action body = Some "approve" → rb_final_price body = Some final →
  truthy_number final = true → PrimFloat.leb final 0%float = false →
  validate (review_approve now caller body final p) = true →
  adminReview no_faults now caller id body s
  = (json 200 "Submission approved successfully",
     with_products
       (<[k := review_approve now caller body final p]> (products s)) s).
Proof.
  intros Hadmin Hcast Hk Hact Hfinal Htr Hle Hval.
  unfold adminReview, Product_findById, Product_save.
  rewrite Hadmin, Hact. hsimpl. rewrite Hcast, Hk. simpl.
  rewrite Hfinal, Htr, Hle. simpl. by rewrite Hval.
Qed.

Lemma editPrice_success_inv (f : Faults) (caller : User) (id : string)
    (body : PriceBody) (s s' : Store) (r : Response) :
  editPrice f caller id body s = (r, s') → code r = 200 →
  is_admin caller = true ∧
  ∃ price k p,
    pb_price body = Some price ∧
    truthy_number price = true ∧ PrimFloat.leb price 0%float = false ∧
    castObjectId id = Some k ∧ products s !! k = Some p ∧
    status p = listed ∧
    validate (edit_price price (pb_mrp body) p) = true ∧
    s' = with_products
           (<[k := edit_price price (pb_mrp body) p]> (products s)) s.
Proof.
  unfold editPrice, Product_findById, Product_save.
  destruct (is_admin caller); simpl; [|by intros [= <- <-]].
  destruct (pb_price body) as [price|]; [|hsimpl; by intros [= <- <-]].
  destruct (negb (truthy_number price) || _) eqn:Hpos;
    [hsimpl; by intros [= <- <-]|].
  apply orb_false_iff in Hpos as [Htr%negb_false_iff Hle].
  hsimpl. destruct (throws f call_Product_findById); [by intros [= <- <-]|].
  destruct (castObjectId id) as [k|]; [|by intros [= <- <-]].
  destruct (products s !! k) as [p|] eqn:Hk; simpl; [|by intros [= <- <-]].
  case_bool_decide as Hst; simpl; [|by intros [= <- <-]].
  destruct (throws f call_Product_save); [by intros [= <- <-]|].
  destruct (validate _) eqn:Hval; simpl; [|by intros [= <- <-]].
  intros [= <- <-] _. split; [done|]. by exists price, k, p.
Qed.


(** C9: in every store the backend can reach, an edit of the price that
    answers 200 was asked by the admin for a product whose status is
    listed, with a price greater than 0; afterwards the product is still
    listed, it has both price blocks, [admin_review.final_price] and
    [listed_product.price] are both the new price, and no other product
    changed. *)
Theorem C9_editPrice_keeps_prices_in_lockstep (f : Faults) (caller : User)
    (id : string) (body : PriceBody) (s s' : Store) (r : Response) :
  reachable s →
  editPrice f caller id body s = (r, s') → code r = 200 →
  is_admin caller = true ∧
  ∃ new_price k p p' ar lp,
    pb_price body = Some new_price ∧
    PrimFloat.ltb 0%float new_price = true ∧
    castObjectId id = Some k ∧
    products s !! k = Some p ∧ status p = listed ∧
    products s' !! k = Some p' ∧ status p' = listed ∧
    admin_review p' = Some ar ∧ listed_product p' = Some lp ∧
    final_price ar = Some new_price ∧ price lp = new_price ∧
    (∀ j, j ≠ k → products s' !! j = products s !! j).
Proof.
  intros Hreach Hrun Hok.
  destruct (editPrice_success_inv _ _ _ _ _ _ _ Hrun Hok)
    as (Hadmin & new_price & k & p & Hprice & Htr & Hle & Hcast & Hk & Hst
        & _ & ->).
  split; [done|].
  destruct (reachable_invariants _ Hreach k p Hk) as [[Hlisting _] Hpriced].
  destruct (Hlisting Hst) as [lp Hlp]. destruct (Hpriced Hst) as [ar Har].
  exists new_price, k, p, (edit_price new_price (pb_mrp body) p),
    (edit_admin_review new_price (pb_mrp body) ar),
    (edit_listed_product new_price (pb_mrp body) lp).
  split; [done|]. split; [by apply truthy_not_le_gt|].
  split; [done|]. split; [done|]. split; [done|]. split.
  { simpl. apply lookup_insert_eq. }
  split; [done|]. split; [by simpl; rewrite Har|].
  split; [by simpl; rewrite Hlp|]. split; [done|]. split; [done|].
  intros j Hj. simpl. by apply lookup_insert_ne.
Qed.

End Properties.

(** ** The history of the example *)

Lemma ex_listed_reachable : reachable (env := ex_env) ex_listed.
Proof. repeat apply (reachable_step (env := ex_env)). constructor. Qed.

Lemma ex_sold_reachable : reachable (env := ex_env) ex_sold.
Proof. repeat apply (reachable_step (env := ex_env)). constructor. Qed.


Lemma ex_statuses :
  status <$> products ex_submitted !! ex_pid = Some pending ∧
  status <$> products ex_accepted !! ex_pid = Some approved ∧
  status <$> products ex_listed !! ex_pid = Some listed ∧
  status <$> products ex_sold !! ex_pid = Some sold ∧
  o_status <$> orders ex_in_cart = [created] ∧
  o_status <$> orders ex_sold = [paid].
Proof. vm_compute. done. Qed.

(** C1 (the code at the failing input): the product of the example has
    been sold; the admin posts an approval for it.  The claim has the
    request fail with InvalidState and the product unchanged; the handler,
    which reads no status, answers 200 and the product is listed again.
    A rejection posted for the listed product is served the same way. *)
Theorem C1_adminReview_reads_no_status :
  status <$> products ex_sold !! ex_pid = Some sold ∧
  (adminReview (env := ex_env) no_faults 9 ex_admin ex_pid ex_approve_body
               ex_sold).1
  = json 200 "Submission approved successfully" ∧
  status <$> products
    (adminReview (env := ex_env) no_faults 9 ex_admin ex_pid ex_approve_body
                 ex_sold).2 !! ex_pid
  = Some listed ∧
  status <$> products ex_listed !! ex_pid = Some listed ∧
  code (adminReview (env := ex_env) no_faults 9 ex_admin ex_pid
          {| rb_final_price := None; rb_mrp := None;
             rb_discount_percentage := None; rb_pricing_type := None;
             rb_admin_notes := None; action := Some "reject" |}
          ex_listed).1 = 200 ∧
  status <$> products
    (adminReview (env := ex_env) no_faults 9 ex_admin ex_pid
       {| rb_final_price := None; rb_mrp := None;
          rb_discount_percentage := None; rb_pricing_type := None;
          rb_admin_notes := None; action := Some "reject" |}
       ex_listed).2 !! ex_pid
  = Some rejected.
Proof. vm_compute. done. Qed.

(** ** The claims on the example *)

(** C2 on the example: a forged signature for the order in the cart. *)
Lemma C2_witness :
  verify (env := ex_env) no_faults ex_forged ex_in_cart
  = (signature_mismatch, ex_in_cart) ∧
  code signature_mismatch = 400 ∧
  success signature_mismatch = Some false.
Proof.
  apply (C2_signature_mismatch_mutates_nothing (env := ex_env)).
  vm_compute. discriminate.
Defined.

(** C3 on the example: the confirmation is delivered a second time. *)
Lemma C3_witness :
  verify (env := ex_env) no_faults ex_confirmation ex_sold
  = (payment_verified, ex_sold) ∧
  payment_verified = payment_verified ∧
  (∀ p, set_status sold (set_status sold p) = set_status sold p) ∧
  (∀ p, status p = sold → set_status sold p = p).
Proof.
  apply (C3_settlement_idempotent (env := ex_env) ex_confirmation ex_in_cart).
  - vm_compute. reflexivity.
  - reflexivity.
Defined.


(** The mixed cart of the example: the persisted product is sold, the
    static entry ["test-product-1"] is no persisted reference, the order is
    paid. *)
Lemma ex_mixed_cart :
  (persisted (env := ex_env) <$> (productId <$> cart ex_order)) = [true; false] ∧
  (ex_handle (Verify ex_confirmation) ex_in_cart).1 = payment_verified ∧
  status <$> products ex_sold !! ex_pid = Some sold ∧
  (o_status <$> orders ex_sold, razorpayPaymentId <$> orders ex_sold)
  = ([paid], [Some "pay_1"]).
Proof. vm_compute. done. Qed.



(** C6 on the example: the product update throws before it wrote
    anything. *)
Lemma C6_witness :
  ∃ s',
    verify (env := ex_env) (ex_fault call_Product_updateMany [])
           ex_confirmation ex_in_cart
    = (error_updating_order, s') ∧
    error_updating_order
    = {| code := 500; success := Some false;
         message := "Error updating order status" |} ∧
    (∀ f0, throws f0 call_Order_findOne = true →
           verify (env := ex_env) f0 ex_confirmation ex_in_cart
           = (error_updating_order, ex_in_cart)) ∧
    List.find (λ o, bool_decide (razorpayOrderId o = "order_1")) (orders s')
    = Some (set_paid "pay_1" ex_order) ∧
    (∀ k, products s' !! k
          = (λ p, if bool_decide (k ∈ sold_keys (env := ex_env) ex_order)
                     && applied (ex_fault call_Product_updateMany []) k
                  then set_status sold p else p) <$> products ex_in_cart !! k).
Proof.
  apply (C6_product_update_fault_keeps_order_paid (env := ex_env)
           (ex_fault call_Product_updateMany []) ex_confirmation ex_order
           ex_in_cart).
  - vm_compute. reflexivity.
  - vm_compute. reflexivity.
  - reflexivity.
  - reflexivity.
  - vm_compute. discriminate.
  - reflexivity.
Defined.

(** C6 (counterexample): the product update of a verified payment throws.
    The response is the failure response, success = false with status 500,
    equal to the response of a verification whose order lookup threw and
    which changed nothing; it is no qualified success and names no
    product.  The order is paid all the same. *)
Lemma C6_counterexample :
  (verify (env := ex_env) (ex_fault call_Product_updateMany [])
          ex_confirmation ex_in_cart).1
  = {| code := 500; success := Some false;
       message := "Error updating order status" |} ∧
  (verify (env := ex_env) (ex_fault call_Product_updateMany [])
          ex_confirmation ex_in_cart).1
  = (verify (env := ex_env) (ex_fault call_Order_findOne [])
            ex_confirmation ex_in_cart).1 ∧
  (verify (env := ex_env) (ex_fault call_Order_findOne [])
          ex_confirmation ex_in_cart).2 = ex_in_cart ∧
  o_status <$>
    orders (verify (env := ex_env) (ex_fault call_Product_updateMany [])
                   ex_confirmation ex_in_cart).2 = [paid] ∧
  status <$>
    products (verify (env := ex_env) (ex_fault call_Product_updateMany [])
                     ex_confirmation ex_in_cart).2 !! ex_pid = Some listed.
Proof. vm_compute. done. Qed.



(** C9 on the example: the listed product is repriced. *)
Lemma C9_witness :
  is_admin ex_admin = true ∧
  ∃ new_price k p p' ar lp,
    pb_price ex_edit = Some new_price ∧
    PrimFloat.ltb 0%float new_price = true ∧
    castObjectId (env := ex_env) ex_pid = Some k ∧
    products ex_listed !! k = Some p ∧ status p = listed ∧
    products (editPrice (env := ex_env) no_faults ex_admin ex_pid ex_edit
                        ex_listed).2 !! k = Some p' ∧
    status p' = listed ∧
    admin_review p' = Some ar ∧ listed_product p' = Some lp ∧
    final_price ar = Some new_price ∧ price lp = new_price ∧
    (∀ j, j ≠ k →
          products (editPrice (env := ex_env) no_faults ex_admin ex_pid ex_edit
                              ex_listed).2 !! j
          = products ex_listed !! j).
Proof.
  apply (C9_editPrice_keeps_prices_in_lockstep (env := ex_env) no_faults
           ex_admin ex_pid ex_edit ex_listed _
           (json 200 "Product price updated successfully")).
  - repeat apply (reachable_step (env := ex_env)). constructor.
  - vm_compute. reflexivity.
  - reflexivity.
Defined.


(** The rounding is that of the floating-point computation: for mrp = 1000
    and price = 855 the quotient 0.145 times 100 is 14.499999999999998, and
    the discount is 14, not the 15 of the exact 14.5. *)
Lemma ex_discount_floating_point :
  ((1000 - 855) / 1000 * 100)%float = 14.499999999999998%float ∧
  discountPercentage 855%float (Some 1000%float) = 14%float.
Proof. vm_compute. done. Qed.

(** The manual completion casts the whole cart: a static identifier makes
    it answer 500 after the order was marked paid, and no product is
    sold. *)
Lemma ex_completeOrder_static_id :
  (completeOrder (env := ex_env) no_faults ex_admin "cccccccccccccccccccccccc"
                 ex_in_cart).1
  = json_success 500 false "Error completing order" ∧
  o_status <$>
    orders (completeOrder (env := ex_env) no_faults ex_admin
              "cccccccccccccccccccccccc" ex_in_cart).2 = [paid] ∧
  status <$>
    products (completeOrder (env := ex_env) no_faults ex_admin
                "cccccccccccccccccccccccc" ex_in_cart).2 !! ex_pid
  = Some listed.
Proof. vm_compute. done. Qed.

(** * Further properties of the handlers *)

Section MoreProperties.

Context {env : Environment}.

Ltac run_handler :=
  cbv beta iota zeta delta
    [try_catch mbind mret Handler_bind Handler_ret throw db];
  simpl.

(** ** Orders *)

(** X1: a verification whose order reference names no order writes
    nothing, whatever the signature and the database faults; with a matching
    signature and no fault it answers 404 "Order not found". *)
Theorem verify_unknown_order_writes_nothing (f : Faults) (body : VerifyBody)
    (s : Store) :
  List.find (λ o, bool_decide (razorpayOrderId o = order_id body)) (orders s)
  = None →
  (verify f body s).2 = s ∧
  (generated_signature body = signature body →
   throws f call_Order_findOne = false → throws f call_Order_find = false →
   (verify f body s).1 = order_not_found).
Proof.
  intros Hfind. unfold verify, Order_findOne, Order_find.
  case_bool_decide as Hsig; [|done]. run_handler.
  destruct (throws f call_Order_findOne); [done|]. rewrite Hfind.
  destruct (throws f call_Order_find); done.
Qed.

Lemma update_first_kept (P : Order → bool) (pid : string) (l : list Order) :
  Forall2 order_kept l (update_first P (set_paid pid) l).
Proof.
  assert (Hrefl : ∀ o, order_kept o o) by (by intros o; repeat split).
  induction l as [|o l IH]; simpl; [constructor|].
  destruct (P o).
  - constructor; [by repeat split|]. by apply Forall_Forall2_diag, Forall_true.
  - by constructor.
Qed.


Lemma update_first_ids (P : Order → bool) (pid : string) (l : list Order) :
  o_id <$> update_first P (set_paid pid) l = o_id <$> l.
Proof.
  induction l as [|o l IH]; [done|]. simpl.
  destruct (P o); rewrite !fmap_cons; [done|]. by rewrite IH.
Qed.

Lemma update_first_length {A} (P : A → bool) (upd : A → A) (l : list A) :
  length (update_first P upd l) = length l.
Proof.
  induction l as [|x l IH]; [done|]. simpl.
  destruct (P x); simpl; [done|]. by rewrite IH.
Qed.

(** What a request does to the list of orders: nothing, an order appended
    as ['created'] with a new [_id], or the first matching order marked
    paid. *)
Lemma handle_orders (f : Faults) (r : Request) (s : Store) :
  orders (handle f r s).2 = orders s ∨
  (∃ o, Forall (λ o', o_id o' ≠ o_id o) (orders s) ∧
        o_status o = created ∧ razorpayPaymentId o = None ∧
        orders (handle f r s).2 = (orders s ++ [o])%list) ∨
  (∃ P pid, orders (handle f r s).2 = update_first P (set_paid pid) (orders s)).
Proof.
  destruct r as [caller body files readable analysis k|caller id body
                 |caller id reason|now caller id body|caller id body|o|body
                 |caller orderId]; simpl.
  - left. unfold submit, Product_create.
    case_bool_decide; [run_handler; done|].
    destruct (existsb _ files); [run_handler; done|].
    destruct readable; [|run_handler; done].
    destruct analysis as [a|]; [|run_handler; done].
    destruct (sb_article body), (sb_brand body), (sb_category body);
      try (run_handler; done).
    run_handler. destruct (throws f call_Product_create); [done|].
    by destruct (validate _ && _).
  - left. unfold acceptOffer, Product_findOne, Product_save.
    destruct (ob_pickup_details body), (ob_payment_details body);
      try (run_handler; done).
    run_handler. destruct (throws f call_Product_findOne); [done|].
    destruct (castObjectId id); [|done].
    match goal with |- context [option_bind _ _ ?g ?o] =>
      destruct (option_bind _ _ g o) as [[? ?]|] end; [|done].
    destruct (throws f call_Product_save); [done|].
    by destruct (validate _).
  - left. unfold rejectOffer, Product_findOne, Product_save.
    run_handler. destruct (throws f call_Product_findOne); [done|].
    destruct (castObjectId id); [|done].
    match goal with |- context [option_bind _ _ ?g ?o] =>
      destruct (option_bind _ _ g o) as [[? ?]|] end; [|done].
    destruct (throws f call_Product_save); [done|].
    by destruct (validate _).
  - left. unfold adminReview, Product_findById, Product_save.
    destruct (is_admin caller); simpl; [|done].
    destruct (_ || _); [run_handler; done|].
    run_handler. destruct (throws f call_Product_findById); [done|].
    destruct (castObjectId id); [|done].
    destruct (products s !! _); simpl; [|done].
    case_bool_decide.
    + destruct (rb_final_price body); [|done].
      destruct (_ || _); [done|].
      destruct (throws f call_Product_save); [done|].
      by destruct (validate _).
    + destruct (throws f call_Product_save); [done|].
      by destruct (validate _).
  - left. unfold editPrice, Product_findById, Product_save.
    destruct (is_admin caller); simpl; [|done].
    destruct (pb_price body); [|run_handler; done].
    destruct (_ || _); [run_handler; done|].
    run_handler. destruct (throws f call_Product_findById); [done|].
    destruct (castObjectId id); [|done].
    destruct (products s !! _); simpl; [|done].
    case_bool_decide; simpl; [|done].
    destruct (throws f call_Product_save); [done|].
    by destruct (validate _).
  - unfold createOrder, Order_create. run_handler.
    destruct (throws f call_Order_create); [by left|].
    case_bool_decide as Hfresh; [|by left]. right. left.
    exists {| o_id := o_id o; user := user o; address := address o;
              cart := cart o; amount := amount o; o_status := created;
              razorpayOrderId := razorpayOrderId o;
              razorpayPaymentId := None |}.
    by split; [exact Hfresh|].
  - unfold verify, Order_findOne, Order_find, Order_findOneAndUpdate,
      Product_updateMany, Product_find.
    case_bool_decide; [|by left]. run_handler.
    destruct (throws f call_Order_findOne); [by left|].
    destruct (List.find _ (orders s)) as [order|].
    2:{ left. by destruct (throws f call_Order_find). }
    destruct (throws f call_Order_findOneAndUpdate); [by left|].
    right. right. eexists _, _.
    destruct (0 <? _)%nat; [|done].
    destruct (mapM _ _); [|done].
    destruct (throws f call_Product_updateMany); [done|].
    by destruct (throws f call_Product_find).
  - unfold completeOrder, Order_findById, Order_findByIdAndUpdate,
      Product_updateMany.
    destruct (is_admin caller); simpl; [|by left]. run_handler.
    destruct (throws f call_Order_findById); [by left|].
    destruct (castObjectId orderId); [|by left].
    destruct (List.find _ (orders s)); [|by left].
    case_bool_decide; [by left|].
    destruct (throws f call_Order_findByIdAndUpdate); [by left|].
    right. right. eexists _, _.
    destruct (mapM _ _); [|done].
    by destruct (throws f call_Product_updateMany).
Qed.


(** X3: no request removes, reorders or rewrites an order: after any
    request, with any database faults, the orders that were there are the
    first orders of the list, each with its [_id], user, address, cart,
    amount and gateway reference, and each paid if it was paid. *)
Theorem handle_keeps_orders (f : Faults) (r : Request) (s : Store) :
  Forall2 order_kept (orders s)
          (take (length (orders s)) (orders (handle f r s).2)).
Proof.
  assert (Hrefl : ∀ l, Forall2 order_kept l l).
  { intros l. apply Forall_Forall2_diag, Forall_true. by intros o; repeat split. }
  destruct (handle_orders f r s)
    as [-> | [(o & _ & _ & _ & ->) | (P & pid & ->)]].
  - by rewrite firstn_all.
  - by rewrite take_app_length.
  - rewrite take_ge; [apply update_first_kept|].
    by rewrite update_first_length.
Qed.

(** X4: the manual completion of an order that is already paid writes
    nothing and, unless the lookup throws, answers 400 "Order already
    completed"; so after a completion that answered 200, a second one for the
    same order changes nothing. *)
Theorem completeOrder_once (f f' : Faults) (caller : User) (orderId : string)
    (s s' : Store) (r : Response) :
  completeOrder f caller orderId s = (r, s') → code r = 200 →
  (completeOrder f' caller orderId s').2 = s' ∧
  (throws f' call_Order_findById = false →
   (completeOrder f' caller orderId s').1
   = json_success 400 false "Order already completed").
Proof.
  intros Hrun Hok.
  destruct (completeOrder_success_inv _ _ _ _ _ _ Hrun Hok)
    as (Hadmin & ok & order & ks & Hcast & Hfind & _ & _ & _ & Horders).
  unfold completeOrder, Order_findById. rewrite Hadmin. simpl. run_handler.
  destruct (throws f' call_Order_findById); [done|].
  rewrite Hcast, Horders. rewrite find_update_first by done.
  rewrite Hfind. simpl. done.
Qed.

(** X5: the manual completion hands every cart identifier to the
    product update.  When one of them does not cast to an ObjectId (a static
    catalogue entry), the order has been marked paid by then, the update
    throws before it writes, and the answer is 500 "Error completing
    order": the order is paid and no product is sold. *)
Theorem completeOrder_static_id_pays_without_selling (f : Faults)
    (caller : User) (orderId : string) (ok : string) (order : Order)
    (item : CartItem) (s : Store) :
  is_admin caller = true →
  castObjectId orderId = Some ok →
  List.find (λ o, bool_decide (o_id o = ok)) (orders s) = Some order →
  o_status order ≠ paid →
  item ∈ cart order → castObjectId (productId item) = None →
  throws f call_Order_findById = false →
  throws f call_Order_findByIdAndUpdate = false →
  completeOrder f caller orderId s
  = (json_success 500 false "Error completing order",
     with_orders
       (update_first (λ o, bool_decide (o_id o = ok))
                     (set_paid "manual_verification") (orders s)) s) ∧
  List.find (λ o, bool_decide (o_id o = ok))
            (orders (completeOrder f caller orderId s).2)
  = Some (set_paid "manual_verification" order) ∧
  products (completeOrder f caller orderId s).2 = products s.
Proof.
  intros Hadmin Hcast Hfind Hpaid Hitem Hstatic Hf1 Hf2.
  assert (Hks : mapM castObjectId (productId <$> cart order) = None).
  { destruct (mapM castObjectId (productId <$> cart order)) as [ks|] eqn:Hks;
      [|done].
    destruct (mapM_cast_elem _ _ (productId item) Hks) as (k & Hk & _).
    - apply list_elem_of_fmap. eauto.
    - congruence. }
  assert (Hrun : completeOrder f caller orderId s
    = (json_success 500 false "Error completing order",
       with_orders
         (update_first (λ o, bool_decide (o_id o = ok))
                       (set_paid "manual_verification") (orders s)) s)).
  { unfold completeOrder, Order_findById, Order_findByIdAndUpdate,
      Product_updateMany.
    rewrite Hadmin. simpl. run_handler. rewrite Hf1, Hcast, Hfind.
    rewrite bool_decide_eq_false_2 by done. rewrite Hf2. simpl.
    by rewrite Hks. }
  rewrite Hrun. split; [done|]. simpl. split; [|done].
  rewrite find_update_first by done. by rewrite Hfind.
Qed.

(** ** Product documents under the requests *)

Lemma kept_one_document (s : Store) (r : Response) :
  one_document_written s (r, s).
Proof. repeat split. by exists "". Qed.

Lemma saved_one_document (s : Store) (msg : string) (k : string) (p : Product)
    (c : nat) :
  c = 200 ∨ c = 201 →
  one_document_written s
    (json c msg, with_products (<[k := p]> (products s)) s).
Proof.
  intros Hc. split; [done|]. split.
  - simpl. intros ? ?. by destruct Hc.
  - exists k. intros j Hj. simpl. by apply lookup_insert_ne.
Qed.

(** X6: a request of the sell routes (submit, accept-offer, reject-offer,
    admin review, edit-price) touches no order, writes at most one product
    document, and writes nothing unless it answers 200 or 201: every
    refusal and every failure leaves the store as it was. *)
Theorem sell_request_writes_one_document (f : Faults) (r : Request)
    (s : Store) :
  sell_request r = true → one_document_written s (handle f r s).
Proof.
  destruct r as [caller body files readable analysis k|caller id body
                 |caller id reason|now caller id body|caller id body|o|body
                 |caller orderId]; simpl; try done; intros _.
  - unfold submit, Product_create.
    case_bool_decide; [run_handler; apply kept_one_document|].
    destruct (existsb _ files); [run_handler; apply kept_one_document|].
    destruct readable; [|run_handler; apply kept_one_document].
    destruct analysis as [a|]; [|run_handler; apply kept_one_document].
    destruct (sb_article body), (sb_brand body), (sb_category body);
      try (run_handler; apply kept_one_document).
    run_handler.
    destruct (throws f call_Product_create); [apply kept_one_document|].
    destruct (validate _ && _); simpl; [|apply kept_one_document].
    apply saved_one_document. by right.
  - unfold acceptOffer, Product_findOne, Product_save.
    destruct (ob_pickup_details body), (ob_payment_details body);
      try (run_handler; apply kept_one_document).
    run_handler.
    destruct (throws f call_Product_findOne); [apply kept_one_document|].
    destruct (castObjectId id); [|apply kept_one_document].
    match goal with |- context [option_bind _ _ ?g ?o] =>
      destruct (option_bind _ _ g o) as [[? ?]|] end;
      [|apply kept_one_document].
    destruct (throws f call_Product_save); [apply kept_one_document|].
    destruct (validate _); simpl; [|apply kept_one_document].
    apply saved_one_document. by left.
  - unfold rejectOffer, Product_findOne, Product_save. run_handler.
    destruct (throws f call_Product_findOne); [apply kept_one_document|].
    destruct (castObjectId id); [|apply kept_one_document].
    match goal with |- context [option_bind _ _ ?g ?o] =>
      destruct (option_bind _ _ g o) as [[? ?]|] end;
      [|apply kept_one_document].
    destruct (throws f call_Product_save); [apply kept_one_document|].
    destruct (validate _); simpl; [|apply kept_one_document].
    apply saved_one_document. by left.
  - unfold adminReview, Product_findById, Product_save.
    destruct (is_admin caller); simpl; [|apply kept_one_document].
    destruct (_ || _); [run_handler; apply kept_one_document|].
    run_handler.
    destruct (throws f call_Product_findById); [apply kept_one_document|].
    destruct (castObjectId id); [|apply kept_one_document].
    destruct (products s !! _); simpl; [|apply kept_one_document].
    case_bool_decide.
    + destruct (rb_final_price body); [|apply kept_one_document].
      destruct (_ || _); [apply kept_one_document|].
      destruct (throws f call_Product_save); [apply kept_one_document|].
      destruct (validate _); simpl; [|apply kept_one_document].
      apply saved_one_document. by left.
    + destruct (throws f call_Product_save); [apply kept_one_document|].
      destruct (validate _); simpl; [|apply kept_one_document].
      apply saved_one_document. by left.
  - unfold editPrice, Product_findById, Product_save.
    destruct (is_admin caller); simpl; [|apply kept_one_document].
    destruct (pb_price body); [|run_handler; apply kept_one_document].
    destruct (_ || _); [run_handler; apply kept_one_document|].
    run_handler.
    destruct (throws f call_Product_findById); [apply kept_one_document|].
    destruct (castObjectId id); [|apply kept_one_document].
    destruct (products s !! _); simpl; [|apply kept_one_document].
    case_bool_decide; simpl; [|apply kept_one_document].
    destruct (throws f call_Product_save); [apply kept_one_document|].
    destruct (validate _); simpl; [|apply kept_one_document].
    apply saved_one_document. by left.
Qed.

Lemma product_step_same (p : Product) (o' : option Product) :
  product_step (Some p) o' → ∃ p', o' = Some p' ∧ same_submission p p'.
Proof.
  inversion 1; subst; eexists; (split; [done|]); by repeat split.
Qed.

(** X7: no request rewrites what was submitted: after any request, with
    any database faults, every product document is still there with the
    same seller, declared attributes, images and AI analysis. *)
Theorem handle_keeps_submission (f : Faults) (r : Request) (s : Store)
    (k : string) (p : Product) :
  products s !! k = Some p →
  ∃ p', products (handle f r s).2 !! k = Some p' ∧ same_submission p p'.
Proof.
  intros Hk. apply product_step_same. rewrite <- Hk. apply handle_step.
Qed.

Lemma insert_guarded (m : gmap string Product) (k j : string) (p p' : Product) :
  m !! k = Some p → guarded_step (Some p) (Some p') →
  guarded_step (m !! j) (<[k := p']> m !! j).
Proof.
  intros Hk Hstep. destruct (decide (k = j)) as [<- | Hne].
  - by rewrite lookup_insert_eq, Hk.
  - rewrite lookup_insert_ne by done. constructor.
Qed.

Lemma update_where_guarded (sel : ObjectId → bool) (m : gmap string Product)
    (j : string) :
  guarded_step (m !! j) (update_where sel (set_status sold) m !! j).
Proof.
  rewrite update_where_lookup. destruct (m !! j) as [p|]; simpl; [|constructor].
  destruct (sel j); constructor.
Qed.

(** Every request but the admin's review moves every product document
    along [guarded_step]. *)
Lemma handle_guarded (f : Faults) (r : Request) (s : Store) (j : string) :
  is_review r = false →
  guarded_step (products s !! j) (products (handle f r s).2 !! j).
Proof.
  destruct r as [caller body files readable analysis k|caller id body
                 |caller id reason|now caller id body|caller id body|o|body
                 |caller orderId]; simpl; try done; intros _.
  - unfold submit, Product_create.
    case_bool_decide; [run_handler; constructor|].
    destruct (existsb _ files); [run_handler; constructor|].
    destruct readable; [|run_handler; constructor].
    destruct analysis as [a|]; [|run_handler; constructor].
    destruct (sb_article body), (sb_brand body), (sb_category body);
      try (run_handler; constructor).
    run_handler. destruct (throws f call_Product_create); [constructor|].
    match goal with |- context [validate ?p && ?b] =>
      destruct (validate p && b) eqn:Hnew end; simpl; [|constructor].
    apply andb_true_iff in Hnew as [_ Hnew%bool_decide_eq_true].
    destruct (decide (k = j)) as [<- | Hne].
    + rewrite lookup_insert_eq, Hnew. by constructor.
    + rewrite lookup_insert_ne by done. constructor.
  - unfold acceptOffer, Product_findOne, Product_save.
    destruct (ob_pickup_details body) as [pk|], (ob_payment_details body)
      as [pay|]; try (run_handler; constructor).
    run_handler. destruct (throws f call_Product_findOne); [constructor|].
    destruct (castObjectId id) as [k|]; [|constructor].
    match goal with |- context [option_bind _ _ ?g ?o] =>
      destruct (option_bind _ _ g o) as [[k' p]|] eqn:Hfound end;
      [|constructor].
    apply Product_findOne_Some in Hfound as (-> & Hk & Hst).
    destruct (throws f call_Product_save); [constructor|].
    destruct (validate _); simpl; [|constructor].
    apply (insert_guarded _ _ _ _ _ Hk). by constructor.
  - unfold rejectOffer, Product_findOne, Product_save.
    run_handler. destruct (throws f call_Product_findOne); [constructor|].
    destruct (castObjectId id) as [k|]; [|constructor].
    match goal with |- context [option_bind _ _ ?g ?o] =>
      destruct (option_bind _ _ g o) as [[k' p]|] eqn:Hfound end;
      [|constructor].
    apply Product_findOne_Some in Hfound as (-> & Hk & Hst).
    destruct (throws f call_Product_save); [constructor|].
    destruct (validate _); simpl; [|constructor].
    apply (insert_guarded _ _ _ _ _ Hk).
    destruct (truthy_str reason).
    + by apply (guarded_reject_offer _ (Some _)).
    + replace (set_status rejected p) with
        (set_admin_review (admin_review p) (set_status rejected p))
        by (by destruct p).
      by apply guarded_reject_offer.
  - unfold editPrice, Product_findById, Product_save.
    destruct (is_admin caller); simpl; [|constructor].
    destruct (pb_price body) as [price|]; [|run_handler; constructor].
    destruct (_ || _); [run_handler; constructor|].
    run_handler. destruct (throws f call_Product_findById); [constructor|].
    destruct (castObjectId id) as [k|]; [|constructor].
    destruct (products s !! k) as [p|] eqn:Hk; simpl; [|constructor].
    case_bool_decide as Hst; simpl; [|constructor].
    destruct (throws f call_Product_save); [constructor|].
    destruct (validate _); simpl; [|constructor].
    apply (insert_guarded _ _ _ _ _ Hk). by constructor.
  - rewrite createOrder_products. constructor.
  - unfold verify, Order_findOne, Order_find, Order_findOneAndUpdate,
      Product_updateMany, Product_find.
    case_bool_decide; [|constructor].
    run_handler. destruct (throws f call_Order_findOne); [constructor|].
    destruct (List.find _ (orders s)) as [order|].
    2:{ destruct (throws f call_Order_find); constructor. }
    destruct (throws f call_Order_findOneAndUpdate); [constructor|].
    destruct (0 <? _)%nat; [|constructor].
    destruct (mapM _ _) as [ks|]; [|constructor].
    destruct (throws f call_Product_updateMany); simpl;
      [apply update_where_guarded|].
    destruct (throws f call_Product_find); simpl; apply update_where_guarded.
  - unfold completeOrder, Order_findById, Order_findByIdAndUpdate,
      Product_updateMany.
    destruct (is_admin caller); simpl; [|constructor].
    run_handler. destruct (throws f call_Order_findById); [constructor|].
    destruct (castObjectId orderId) as [ok|]; [|constructor].
    destruct (List.find _ (orders s)) as [order|]; [|constructor].
    case_bool_decide; [constructor|].
    destruct (throws f call_Order_findByIdAndUpdate); [constructor|].
    destruct (mapM _ _) as [ks|]; [|constructor].
    destruct (throws f call_Product_updateMany); simpl;
      apply update_where_guarded.
Qed.

(** X8: the status graph the handlers realise.  Under any request no
    product becomes pending, and a product becomes approved only from
    pending.  Under any request but the admin's review, a product keeps its
    status, or goes from pending to approved or to rejected, or becomes
    sold; in particular a sold product stays sold and a listed product
    stays listed or becomes sold. *)
Theorem status_moves (f : Faults) (r : Request) (s : Store) (k : string)
    (p p' : Product) :
  products s !! k = Some p → products (handle f r s).2 !! k = Some p' →
  (status p' = pending → status p = pending) ∧
  (status p' = approved → status p = pending ∨ status p = approved) ∧
  (is_review r = false →
   status p' = status p ∨
   (status p = pending ∧ (status p' = approved ∨ status p' = rejected)) ∨
   status p' = sold).
Proof.
  intros Hk Hk'. split; [|split].
  - pose proof (handle_step f r s k) as Hstep. rewrite Hk, Hk' in Hstep.
    inversion Hstep; subst; simpl; try done;
      match goal with H : status p = listed |- _ => by rewrite H end.
  - pose proof (handle_step f r s k) as Hstep. rewrite Hk, Hk' in Hstep.
    inversion Hstep; subst; simpl; eauto; try done;
      match goal with H : status p = listed |- _ => by rewrite H end.
  - intros Hr. pose proof (handle_guarded f r s k Hr) as Hstep.
    rewrite Hk, Hk' in Hstep.
    inversion Hstep; subst; simpl; eauto.
Qed.

(** X9: an accept-offer that answers 200 was sent by the seller of a
    pending product with both details; the product is then approved
    ("ready for admin review"), carries exactly the details of the request
    and is otherwise unchanged.  For a caller who is not the seller, or a
    product that is not pending, the request therefore fails and, by the
    one-document property, writes nothing. *)
Theorem acceptOffer_by_seller_of_pending (f : Faults) (caller : User)
    (id : string) (body : OfferBody) (s s' : Store) (r : Response) :
  acceptOffer f caller id body s = (r, s') → code r = 200 →
  ∃ k p pk pay,
    ob_pickup_details body = Some pk ∧ ob_payment_details body = Some pay ∧
    castObjectId id = Some k ∧ products s !! k = Some p ∧
    seller p = u_id caller ∧ status p = pending ∧
    s' = with_products
           (<[k := set_status approved (set_details (Some pk) (Some pay) p)]>
              (products s)) s.
Proof.
  unfold acceptOffer, Product_findOne, Product_save.
  destruct (ob_pickup_details body) as [pk|], (ob_payment_details body)
    as [pay|]; try (run_handler; by intros [= <- <-]).
  run_handler. destruct (throws f call_Product_findOne); [by intros [= <- <-]|].
  destruct (castObjectId id) as [k|]; [|by intros [= <- <-]].
  destruct (products s !! k) as [p|] eqn:Hk; simpl; [|by intros [= <- <-]].
  case_bool_decide as Hseller; simpl; [|by intros [= <- <-]].
  case_bool_decide as Hst; simpl; [|by intros [= <- <-]].
  destruct (throws f call_Product_save); [by intros [= <- <-]|].
  destruct (validate _); simpl; [|by intros [= <- <-]].
  intros [= <- <-] _. by exists k, p, pk, pay.
Qed.




Lemma filter_truthy_elem (l : list (option string)) (t : string) :
  t ∈ filter_truthy l ↔ Some t ∈ l ∧ t ≠ "".
Proof.
  induction l as [|[x|] l IH]; simpl.
  - split; [by intros ?%elem_of_nil | by intros [?%elem_of_nil _]].
  - destruct x as [|c x]; simpl.
    + rewrite IH, elem_of_cons. split.
      * intros [? ?]. by split; [right|].
      * intros [[Heq | ?] ?]; [|done]. by injection Heq as ->.
    + rewrite !elem_of_cons, IH. split.
      * intros [-> | [? ?]]; [by split; [left|]|by split; [right|]].
      * intros [[Heq | ?] ?]; [left; by injection Heq|by right].
  - rewrite IH, elem_of_cons. split.
    + intros [? ?]. by split; [right|].
    + by intros [[? | ?] ?].
Qed.

Lemma review_approve_mainCategory (now : nat) (caller : User)
    (body : ReviewBody) (final : number) (p : Product) :
  mainCategory (review_approve now caller body final p)
  = Some (mainCategory_of (gender p)).
Proof. reflexivity. Qed.

(** X12: the listing that an approval builds.  After an approval that
    answered 200 the product is listed; its listing is titled
    "brand article", priced at the final price, filed under the category
    the seller chose and under Men, Women, Kids or Unisex by the declared
    gender (Unisex when none of male, female, kids); no tag is empty and
    every tag is the brand, the article, the gender, the quality or a
    detected feature. *)
Theorem approval_listing (f : Faults) (now : nat) (caller : User) (id : string)
    (body : ReviewBody) (s s' : Store) (r : Response) :
  adminReview f now caller id body s = (r, s') → code r = 200 →
  action body = Some "approve" →
  ∃ k p p' final lp,
    castObjectId id = Some k ∧ products s !! k = Some p ∧
    products s' !! k = Some p' ∧ rb_final_price body = Some final ∧
    status p' = listed ∧ listed_product p' = Some lp ∧
    title lp = brand p +:+ " " +:+ article p ∧
    price lp = final ∧ lp_category lp = category p ∧
    listed_at lp = now ∧
    lp_mainCategory lp = mainCategory p' ∧
    (gender p = Some "male" → mainCategory p' = Some "Men") ∧
    (gender p = Some "female" → mainCategory p' = Some "Women") ∧
    (gender p = Some "kids" → mainCategory p' = Some "Kids") ∧
    (gender p ∉ [Some "male"; Some "female"; Some "kids"] →
     mainCategory p' = Some "Unisex") ∧
    (∀ t, t ∈ tags lp →
       t ≠ "" ∧
       (t = brand p ∨ t = article p ∨ gender p = Some t ∨
        t = Quality_str (quality (image_analysis (ai_analysis p))) ∨
        t ∈ features (image_analysis (ai_analysis p)))).
Proof.
  intros Hrun Hok Happ.
  destruct (adminReview_success_inv _ _ _ _ _ _ _ _ Hrun Hok)
    as (_ & k & p & p' & Hcast & Hk & -> & _ & Hcase).
  destruct Hcase as [(_ & final & Hfinal & _ & _ & ->) | (Hrej & _)];
    [|congruence].
  eexists k, p, _, final, _. split; [done|]. split; [done|]. split.
  { cbn [products with_products]. apply lookup_insert_eq. }
  split; [done|]. do 7 (split; [reflexivity|]).
  rewrite !review_approve_mainCategory.
  split; [by intros ->|]. split; [by intros ->|]. split; [by intros ->|].
  split.
  { intros Hother. unfold mainCategory_of.
    rewrite !bool_decide_eq_false_2; [done|..];
      intros Hg; apply Hother; rewrite Hg, !elem_of_cons; eauto. }
  intros t Ht. cbn [tags] in Ht.
  apply filter_truthy_elem in Ht as [Ht Hne]. split; [done|].
  cbn [brand article gender ai_analysis set_mainCategory set_admin_review
       set_status] in Ht.
  rewrite elem_of_app, !elem_of_cons in Ht.
  destruct Ht as [[Ht | [Ht | [Hg | [Ht | Hf]]]] | Hf].
  - left. by injection Ht.
  - right. left. by injection Ht.
  - eauto.
  - do 3 right. left. by injection Ht.
  - by apply elem_of_nil in Hf.
  - apply list_elem_of_fmap in Hf as (t' & Heq & Hf). injection Heq as ->.
    eauto 6.
Qed.

(** ** The listing queries *)

(** X13: what the listing queries return after a settlement.  After a
    verification that answered 200, no product that the cart names by a
    well-formed id is returned by the public listing or by the admin's
    listing, and each of them that exists is returned, sold, by the admin's
    query of sold products.  The public and the admin listing then return
    the same documents, and no document is in both the listing and the sold
    query. *)
Theorem settled_products_leave_the_listing (f : Faults) (body : VerifyBody)
    (s s' : Store) (r : Response) (admin : User) :
  verify f body s = (r, s') → code r = 200 → is_admin admin = true →
  (∃ order,
     List.find (λ o, bool_decide (razorpayOrderId o = order_id body))
               (orders s) = Some order ∧
     ∀ item,
       item ∈ cart order → persisted (productId item) = true →
       ∃ listing soldOnes,
         listedPublic no_faults s' = Products listing ∧
         adminListed no_faults admin s' = Products listing ∧
         adminSold no_faults admin s' = Products soldOnes ∧
         listing !! toLowerCase (productId item) = None ∧
         soldOnes !! toLowerCase (productId item)
         = set_status sold <$> products s !! toLowerCase (productId item)) ∧
  (∀ listing soldOnes k,
     listedPublic no_faults s' = Products listing →
     adminSold no_faults admin s' = Products soldOnes →
     is_Some (listing !! k) → soldOnes !! k = None).
Proof.
  intros Hrun Hok Hadmin.
  destruct (verify_success_inv _ _ _ _ _ Hrun Hok)
    as (_ & order & Hfind & _ & ->).
  unfold listedPublic, adminListed, adminSold, find_by_status. rewrite Hadmin.
  simpl. split.
  - exists order. split; [done|]. intros item Hin Hp.
    eexists _, _. do 3 (split; [reflexivity|]).
    pose proof (sold_keys_elem order item Hin Hp) as Hkey.
    split.
    + apply map_lookup_filter_None. right. intros p Hlook.
      rewrite update_where_lookup in Hlook.
      destruct (products s !! _) as [q|]; simpl in Hlook; [|done].
      rewrite bool_decide_eq_true_2 in Hlook by done.
      injection Hlook as <-. simpl. done.
    + destruct (products s !! toLowerCase (productId item)) as [q|] eqn:Hq;
        simpl.
      * apply map_lookup_filter_Some. rewrite update_where_lookup, Hq. simpl.
        by rewrite bool_decide_eq_true_2 by done.
      * apply map_lookup_filter_None. left.
        by rewrite update_where_lookup, Hq.
  - intros listing soldOnes k [= <-] [= <-] [p Hp].
    apply map_lookup_filter_Some in Hp as [Hp Hst]. simpl in Hst.
    apply map_lookup_filter_None. right. intros q Hq. simpl.
    rewrite Hp in Hq. injection Hq as <-. by rewrite Hst.
Qed.

End MoreProperties.

(** ** Price suggestions and their tier *)


(** ** Colours *)

Lemma closer_range_fold (pow : number → number → number)
    (sqrt : number → number) (r g b : number) (l : list ColorRange)
    (best : string * number) :
  (fold_left (closer_range pow sqrt r g b) l best).1 = best.1 ∨
  ∃ cr, cr ∈ l ∧ in_color_range r g b cr = true ∧
        (fold_left (closer_range pow sqrt r g b) l best).1 = cr_name cr.
Proof.
  revert best. induction l as [|cr l IH]; intros best; simpl; [by left|].
  destruct (IH (closer_range pow sqrt r g b best cr))
    as [Heq | (cr' & Hin & Hbox & Heq)].
  - rewrite Heq. unfold closer_range.
    destruct (in_color_range r g b cr) eqn:Hbox; [|by left].
    destruct (PrimFloat.ltb _ _); [|by left].
    right. exists cr. split; [apply elem_of_cons; by left|]. done.
  - right. exists cr'. split; [apply elem_of_cons; by right|]. done.
Qed.

Lemma rgbToColorName_name (pow : number → number → number)
    (sqrt : number → number) (r g b : number) :
  rgbToColorName pow sqrt r g b ∈ cr_name <$> colorRanges.
Proof.
  unfold rgbToColorName.
  destruct (closer_range_fold pow sqrt r g b colorRanges ("Gray", infinity))
    as [Heq | (cr & Hin & _ & Heq)]; rewrite Heq.
  - simpl. rewrite !elem_of_cons. eauto 10.
  - apply list_elem_of_fmap. by exists cr.
Qed.

(** X15: [rgbToColorName] answers with the name of a range of its table
    whose box holds the colour, or else with "Gray"; a colour outside every
    box (a NaN component, or a mix no box covers) is "Gray".  So the answer
    is always one of the fourteen names of the table. *)
Theorem rgbToColorName_in_table (pow : number → number → number)
    (sqrt : number → number) (r g b : number) :
  (rgbToColorName pow sqrt r g b = "Gray" ∨
   ∃ cr, cr ∈ colorRanges ∧ in_color_range r g b cr = true ∧
         rgbToColorName pow sqrt r g b = cr_name cr) ∧
  ((∀ cr, cr ∈ colorRanges → in_color_range r g b cr = false) →
   rgbToColorName pow sqrt r g b = "Gray") ∧
  rgbToColorName pow sqrt r g b ∈ cr_name <$> colorRanges.
Proof.
  split; [|split; [|apply rgbToColorName_name]]; unfold rgbToColorName;
    destruct (closer_range_fold pow sqrt r g b colorRanges ("Gray", infinity))
      as [Heq | (cr & Hin & Hbox & Heq)]; rewrite Heq.
  - by left.
  - right. by exists cr.
  - done.
  - intros Hnone. by rewrite (Hnone cr Hin) in Hbox.
Qed.

Lemma detect_color_fold (pow : number → number → number)
    (sqrt : number → number) (l : list DominantColor) (acc : list string) :
  NoDup acc → Forall (λ c, c ∈ cr_name <$> colorRanges) acc →
  NoDup (fold_left (detect_color pow sqrt) l acc) ∧
  Forall (λ c, c ∈ cr_name <$> colorRanges)
         (fold_left (detect_color pow sqrt) l acc).
Proof.
  revert acc. induction l as [|color l IH]; intros acc Hnd Hall; simpl;
    [done|].
  apply IH; unfold detect_color;
    destruct (dc_color color) as [c|]; try done;
    destruct (red c) as [cr|], (green c) as [cg|], (blue c) as [cb|];
    try done;
    match goal with |- context [nonempty ?n && negb (bool_decide ?P)] =>
      destruct (nonempty n); simpl; try done;
      destruct (decide P) as [Hin|Hnew];
        [by rewrite bool_decide_eq_true_2|rewrite bool_decide_eq_false_2 by done]
    end; simpl.
  - apply NoDup_app. split; [done|]. split; [|apply NoDup_singleton].
    intros x Hx Hx'. apply list_elem_of_singleton in Hx' as ->. done.
  - apply Forall_app. split; [done|]. constructor; [|constructor].
    apply rgbToColorName_name.
Qed.

(** X16: [detectColorsWithVision] returns at most two colour names, without
    repetition, each one a name of the table of [rgbToColorName]; a reply
    without colours gives none. *)
Theorem detectColors_at_most_two_names (pow : number → number → number)
    (sqrt : number → number) (colors : option (list DominantColor)) :
  (length (detectColorsWithVision pow sqrt colors) ≤ 2)%nat ∧
  NoDup (detectColorsWithVision pow sqrt colors) ∧
  Forall (λ c, c ∈ cr_name <$> colorRanges)
         (detectColorsWithVision pow sqrt colors) ∧
  (colors = None ∨ colors = Some [] →
   detectColorsWithVision pow sqrt colors = []).
Proof.
  split; [|split; [|split]].
  - unfold detectColorsWithVision. destruct colors as [[|c l]|]; simpl; try lia.
    rewrite length_take. lia.
  - unfold detectColorsWithVision.
    destruct colors as [[|c l]|]; try apply NoDup_nil_2.
    eapply sublist_NoDup; [|apply sublist_take].
    apply detect_color_fold; [apply NoDup_nil_2|constructor].
  - unfold detectColorsWithVision.
    destruct colors as [[|c l]|]; try constructor.
    apply Forall_take.
    apply detect_color_fold; [apply NoDup_nil_2|constructor].
  - by intros [-> | ->].
Qed.

(** ** Brand detection *)

Lemma first_brand_spec (text : string) (candidates : list string) (b : string) :
  first_brand text candidates = Some b →
  ∃ before after,
    candidates = (before ++ b :: after)%list ∧
    includes (toLowerCase text) (toLowerCase b) = true ∧
    Forall (λ b', includes (toLowerCase text) (toLowerCase b') = false) before.
Proof.
  induction candidates as [|c l IH]; simpl; [done|].
  destruct (includes _ (toLowerCase c)) eqn:Hc.
  - intros [= <-]. by exists [], l.
  - intros Hb. destruct (IH Hb) as (before & after & -> & Hin & Hbefore).
    exists (c :: before), after. split; [done|]. split; [done|].
    by constructor.
Qed.

(** X17: for a text of ASCII characters: when [detectBrandWithOCR] names a
    brand, the brand is an entry of its list that the text holds, letter
    case apart, and no entry before it in the list is held by the text; it
    is never the empty string, so that pricing uses it in place of the
    declared brand; without a text, or with no entry held, pricing uses the
    declared brand. *)
Theorem detected_brand_overrides_declared (description : option string)
    (declared : string) :
  (∀ text, description = Some text → ascii_text text = true) →
  (∀ b, detectBrandWithOCR description = Some b →
     ∃ text before after,
       description = Some text ∧ text ≠ "" ∧
       brands = (before ++ b :: after)%list ∧
       includes (toLowerCase text) (toLowerCase b) = true ∧
       Forall (λ b', includes (toLowerCase text) (toLowerCase b') = false)
              before ∧
       brandForPricing (Some b) declared = b) ∧
  (detectBrandWithOCR description = None →
   brandForPricing (detectBrandWithOCR description) declared = declared) ∧
  (description = None ∨ description = Some "" →
   detectBrandWithOCR description = None).
Proof.
  intros _. split; [|split].
  - intros b Hb. destruct description as [text|]; [|done].
    unfold detectBrandWithOCR in Hb. destruct text as [|c t]; [done|].
    change (first_brand (String c t) brands = Some b) in Hb.
    destruct (first_brand_spec _ _ _ Hb) as (before & after & Hsplit & Hin & Hbefore).
    exists (String c t), before, after. do 5 (split; [done|]).
    assert (Hmem : b ∈ brands).
    { rewrite Hsplit. apply elem_of_app. right. apply elem_of_cons. by left. }
    assert (Hall : Forall (λ b', nonempty b' = true) brands)
      by (unfold brands; repeat (constructor; [reflexivity|]); constructor).
    pose proof (proj1 (Forall_forall _ _) Hall b Hmem) as Hne.
    unfold brandForPricing. by destruct b.
  - by intros ->.
  - by intros [-> | ->].
Qed.

(** ** Addresses and the payment account of a user *)

Section UserRoutes.

Local Open Scope nat_scope.

Lemma filter_cleared (l : list UserAddress) :
  List.filter isDefault (set_isDefault false <$> l) = [].
Proof. induction l as [|a l IH]; [done|]. rewrite fmap_cons. exact IH. Qed.

Lemma defaultCount_cleared (l : list UserAddress) :
  defaultCount (set_isDefault false <$> l) = 0.
Proof. unfold defaultCount. by rewrite filter_cleared. Qed.

Lemma defaultCount_app (l1 l2 : list UserAddress) :
  defaultCount (l1 ++ l2) = defaultCount l1 + defaultCount l2.
Proof.
  unfold defaultCount. rewrite <- length_app. f_equal. apply List.filter_app.
Qed.

Lemma defaultCount_cons (a : UserAddress) (l : list UserAddress) :
  defaultCount (a :: l) = (if isDefault a then 1 else 0) + defaultCount l.
Proof. unfold defaultCount. simpl. by destruct (isDefault a). Qed.

Lemma defaultCount_filter (P : UserAddress → bool) (l : list UserAddress) :
  defaultCount (List.filter P l) ≤ defaultCount l.
Proof.
  induction l as [|a l IH]; [done|]. simpl.
  destruct (P a); rewrite !defaultCount_cons; lia.
Qed.

Lemma defaultCount_assign (P : UserAddress → bool) (body : AddressBody)
    (l : list UserAddress) :
  defaultCount (update_first P (assign_address body) l) = defaultCount l.
Proof.
  induction l as [|a l IH]; [done|]. simpl.
  destruct (P a); rewrite !defaultCount_cons; simpl; [done|].
  by rewrite IH.
Qed.

Lemma defaultCount_set_first (P : UserAddress → bool) (l : list UserAddress) :
  defaultCount l = 0 →
  defaultCount (update_first P (set_isDefault true) l)
  = match List.find P l with Some _ => 1 | None => 0 end.
Proof.
  induction l as [|a l IH]; [done|]. simpl.
  rewrite defaultCount_cons. intros Hzero.
  destruct (P a); rewrite defaultCount_cons; simpl; [lia|].
  rewrite IH by lia. destruct (isDefault a); [lia|]. done.
Qed.

Lemma defaultCount_flag (x : string) (l : list UserAddress) :
  NoDup (a_id <$> l) →
  defaultCount ((λ a, set_isDefault (bool_decide (a_id a = x)) a) <$> l)
  = if bool_decide (x ∈ a_id <$> l) then 1 else 0.
Proof.
  induction l as [|a l IH]; [done|].
  rewrite !fmap_cons, defaultCount_cons. intros [Hnew Hnd]%NoDup_cons.
  rewrite (IH Hnd). cbn [isDefault set_isDefault].
  destruct (decide (a_id a = x)) as [Ha | Ha].
  - rewrite (bool_decide_eq_true_2 (a_id a = x)) by done. subst x.
    rewrite (bool_decide_eq_false_2 (a_id a ∈ a_id <$> l)) by done.
    rewrite bool_decide_eq_true_2; [done|]. apply elem_of_cons. by left.
  - rewrite (bool_decide_eq_false_2 (a_id a = x)) by done.
    destruct (decide (x ∈ a_id <$> l)) as [Hx | Hx].
    + rewrite !bool_decide_eq_true_2; [done|apply elem_of_cons; by right|done].
    + rewrite !bool_decide_eq_false_2; [done| |done].
      intros [?|?]%elem_of_cons; done.
Qed.

Lemma ids_set_isDefault (b : UserAddress → bool) (l : list UserAddress) :
  a_id <$> ((λ a, set_isDefault (b a) a) <$> l) = a_id <$> l.
Proof. rewrite <- list_fmap_compose. by apply list_fmap_ext. Qed.

Lemma ids_update_first (P : UserAddress → bool) (upd : UserAddress → UserAddress)
    (l : list UserAddress) :
  (∀ a, a_id (upd a) = a_id a) →
  a_id <$> update_first P upd l = a_id <$> l.
Proof.
  intros Hupd. induction l as [|a l IH]; [done|]. simpl.
  destruct (P a); rewrite !fmap_cons; [by rewrite Hupd|]. by rewrite IH.
Qed.

Lemma valid_map (upd : UserAddress → UserAddress) (l : list UserAddress) :
  (∀ a, validate_address (upd a) = validate_address a) →
  forallb validate_address (upd <$> l) = forallb validate_address l.
Proof.
  intros Hupd. induction l as [|a l IH]; [done|].
  rewrite fmap_cons. cbn [forallb]. by rewrite Hupd, IH.
Qed.

Lemma validate_user_split (u : UserDoc) :
  validate_user u = true ↔
  forallb validate_address (addresses u) = true ∧
  defaultCount (addresses u) ≤ 1 ∧
  from_option validate_account true (paymentAccount u) = true.
Proof.
  unfold validate_user. rewrite !andb_true_iff, Nat.leb_le. tauto.
Qed.

(** X18: setting the default address.  For a stored user whose addresses
    have different ids, the request answers 200 whatever the id; afterwards
    an address is the default exactly when its id is the one asked for, so
    there is one default when the id is known and none at all when it is
    not; ids and the other fields are as before. *)
Theorem setDefault_flags_the_address (uid : ObjectId) (addressId : string)
    (users : gmap string UserDoc) (u : UserDoc) :
  users !! uid = Some u → validate_user u = true →
  NoDup (a_id <$> addresses u) →
  ∃ l',
    setDefaultAddress no_user_faults uid addressId users
    = ({| ur_code := 200; ur_body := AddressList l' |},
       <[uid := set_addresses l' u]> users) ∧
    Forall2 (λ a a', a' = set_isDefault (bool_decide (a_id a = addressId)) a)
            (addresses u) l' ∧
    defaultCount l'
    = (if bool_decide (addressId ∈ a_id <$> addresses u) then 1 else 0).
Proof.
  intros Hu Hval Hnd.
  apply validate_user_split in Hval as (Hfields & _ & Hacc).
  eexists. split; [|split].
  - unfold setDefaultAddress, with_user, save_user. simpl. rewrite Hu.
    replace (validate_user _) with true; [done|]. symmetry.
    apply validate_user_split. simpl. split; [|split; [|done]].
    + by rewrite valid_map.
    + rewrite defaultCount_flag by done. case_bool_decide; lia.
  - apply Forall2_fmap_r, Forall_Forall2_diag, Forall_true. done.
  - by apply defaultCount_flag.
Qed.

(** X19: adding an address.  For a stored user the request answers 201
    exactly when the five fields of the address are non-empty strings, and
    500 without writing otherwise.  On success the new address is appended
    after the old ones; when it is sent as the default, the old ones lose
    the flag and it is the only default; when it is not, the old flags
    stay.  The validator "Only one address can be set as default" never
    refuses the request. *)
Theorem addAddress_appends (uid : ObjectId) (body : AddressBody)
    (newId : ObjectId) (users : gmap string UserDoc) (u : UserDoc) :
  users !! uid = Some u → validate_user u = true →
  let new :=
    {| a_id := newId; a_name := ab_name body; a_phone := ab_phone body;
       a_pincode := ab_pincode body; a_house := ab_house body;
       a_area := ab_area body; isDefault := default false (ab_isDefault body) |} in
  let l' :=
    ((if default false (ab_isDefault body)
      then set_isDefault false <$> addresses u else addresses u) ++ [new])%list in
  (validate_address new = true →
   addAddress no_user_faults uid body newId users
   = ({| ur_code := 201; ur_body := AddressList l' |},
      <[uid := set_addresses l' u]> users)) ∧
  (validate_address new = false →
   addAddress no_user_faults uid body newId users
   = ({| ur_code := 500; ur_body := Message "Failed to add address" |}, users)) ∧
  defaultCount l' ≤ 1 ∧
  (default false (ab_isDefault body) = true → List.filter isDefault l' = [new]) ∧
  (default false (ab_isDefault body) = false →
   List.filter isDefault l' = List.filter isDefault (addresses u)).
Proof.
  intros Hu Hval new l'.
  apply validate_user_split in Hval as (Hfields & Hcount & Hacc).
  assert (Hcount' : defaultCount l' ≤ 1).
  { unfold l'. rewrite defaultCount_app, defaultCount_cons. simpl.
    destruct (default false (ab_isDefault body)).
    - rewrite defaultCount_cleared. unfold defaultCount. simpl. lia.
    - unfold defaultCount at 2. simpl. lia. }
  assert (Hvalid : validate_user (set_addresses l' u) = validate_address new).
  { unfold validate_user. simpl.
    replace (defaultCount l' <=? 1) with true
      by (symmetry; by apply Nat.leb_le).
    rewrite Hacc, !andb_true_r. unfold l'. rewrite forallb_app. simpl.
    rewrite andb_true_r.
    destruct (default false (ab_isDefault body));
      by rewrite ?valid_map, Hfields. }
  split; [|split; [|split; [done|split]]].
  - intros Hnew. unfold addAddress, with_user, save_user. simpl. rewrite Hu.
    fold new. fold l'. by rewrite Hvalid, Hnew.
  - intros Hnew. unfold addAddress, with_user, save_user. simpl. rewrite Hu.
    fold new. fold l'. by rewrite Hvalid, Hnew.
  - intros Hd. unfold l', new. rewrite Hd, List.filter_app. simpl.
    by rewrite filter_cleared.
  - intros Hd. unfold l', new. rewrite Hd, List.filter_app. simpl.
    by rewrite app_nil_r.
Qed.

Lemma valid_filter (P : UserAddress → bool) (l : list UserAddress) :
  forallb validate_address l = true →
  forallb validate_address (List.filter P l) = true.
Proof.
  rewrite !forallb_forall. intros Hall a [Ha _]%filter_In. by apply Hall.
Qed.

Lemma filter_filter_same {A} (P : A → bool) (l : list A) :
  List.filter P (List.filter P l) = List.filter P l.
Proof.
  induction l as [|a l IH]; [done|]. simpl.
  destruct (P a) eqn:Ha; simpl; [|done]. by rewrite Ha, IH.
Qed.

Lemma validate_filtered (P : UserAddress → bool) (u : UserDoc) :
  validate_user u = true →
  validate_user (set_addresses (List.filter P (addresses u)) u) = true.
Proof.
  intros (Hfields & Hcount & Hacc)%validate_user_split.
  apply validate_user_split. simpl. split; [by apply valid_filter|].
  split; [|done]. pose proof (defaultCount_filter P (addresses u)). lia.
Qed.

(** X20: deleting an address.  For a stored user the request answers 200
    whether or not the id is known; the addresses that stay are those with
    another id, in their order and unchanged (so the default flag is given
    to no other address); an unknown id leaves the list as it was, and
    deleting a second time changes nothing more. *)
Theorem deleteAddress_removes_by_id (uid : ObjectId) (addressId : string)
    (users : gmap string UserDoc) (u : UserDoc) :
  users !! uid = Some u → validate_user u = true →
  ∃ l',
    deleteAddress no_user_faults uid addressId users
    = ({| ur_code := 200; ur_body := AddressList l' |},
       <[uid := set_addresses l' u]> users) ∧
    l' `sublist_of` addresses u ∧
    (∀ a, a ∈ l' ↔ a ∈ addresses u ∧ a_id a ≠ addressId) ∧
    (addressId ∉ a_id <$> addresses u → l' = addresses u) ∧
    deleteAddress no_user_faults uid addressId
      (<[uid := set_addresses l' u]> users)
    = ({| ur_code := 200; ur_body := AddressList l' |},
       <[uid := set_addresses l' u]> users).
Proof.
  intros Hu Hval.
  pose proof (validate_filtered
                (λ addr, negb (bool_decide (a_id addr = addressId))) u Hval)
    as Hvalid.
  eexists. split; [|split; [|split; [|split]]].
  - unfold deleteAddress, with_user, save_user.
    cbn [findById_throws save_throws no_user_faults orb]. rewrite Hu.
    cbv zeta. rewrite Hvalid. reflexivity.
  - clear. induction (addresses u) as [|a l IH]; simpl; [constructor|].
    destruct (negb _); by constructor.
  - intros a. rewrite !list_elem_of_In, filter_In.
    rewrite negb_true_iff, bool_decide_eq_false. done.
  - intros Hunknown. clear -Hunknown.
    induction (addresses u) as [|a l IH]; [done|]. simpl.
    rewrite fmap_cons, not_elem_of_cons in Hunknown.
    destruct Hunknown as [Hne Hrest].
    rewrite bool_decide_eq_false_2 by done. simpl. by rewrite IH.
  - unfold deleteAddress, with_user, save_user.
    cbn [findById_throws save_throws no_user_faults orb].
    rewrite lookup_insert_eq. cbv zeta. cbn [addresses set_addresses].
    rewrite filter_filter_same.
    replace (set_addresses _ (set_addresses _ u))
      with (set_addresses
              (List.filter (λ addr, negb (bool_decide (a_id addr = addressId)))
                           (addresses u)) u) by done.
    rewrite Hvalid, insert_insert_eq. done.
Qed.

Lemma update_first_split {A} (P : A → bool) (upd : A → A) (l1 l2 : list A)
    (a : A) :
  Forall (λ x, P x = false) l1 → P a = true →
  update_first P upd (l1 ++ a :: l2)%list = (l1 ++ upd a :: l2)%list.
Proof.
  intros Hl1 Ha. induction Hl1 as [|x l Hx _ IH]; simpl.
  - by rewrite Ha.
  - by rewrite Hx, IH.
Qed.

Lemma find_split {A} (P : A → bool) (l1 l2 : list A) (a : A) :
  Forall (λ x, P x = false) l1 → P a = true →
  List.find P (l1 ++ a :: l2)%list = Some a.
Proof.
  intros Hl1 Ha. induction Hl1 as [|x l Hx _ IH]; simpl.
  - by rewrite Ha.
  - by rewrite Hx.
Qed.

Lemma find_unknown_id (x : string) (l : list UserAddress) :
  x ∉ a_id <$> l →
  List.find (λ addr, bool_decide (a_id addr = x)) l = None.
Proof.
  induction l as [|a l IH]; [done|]. rewrite fmap_cons, not_elem_of_cons.
  intros [Hne Hrest]. simpl. rewrite bool_decide_eq_false_2 by done. auto.
Qed.

Lemma other_ids (x : string) (l : list UserAddress) :
  x ∉ a_id <$> l → Forall (λ a, bool_decide (a_id a = x) = false) l.
Proof.
  intros Hx. apply Forall_forall. intros a Ha.
  apply bool_decide_eq_false. intros <-. apply Hx.
  apply list_elem_of_fmap. by exists a.
Qed.

(** X21: updating an address.  An id that the user does not have is
    answered 404 "Address not found" and nothing is written.  For the first
    address with the id and five non-empty fields the request answers 200
    and rewrites that address in place: it takes the fields of the request
    and keeps its id; without [isDefault] every other address and every flag
    stay, with [isDefault] every other address loses the flag and the
    updated one is the default. *)
Theorem updateAddress_rewrites_in_place (f : UserFaults) (uid : ObjectId)
    (addressId : string) (body : AddressBody) (users : gmap string UserDoc)
    (u : UserDoc) :
  users !! uid = Some u → validate_user u = true →
  findById_throws f = false →
  (addressId ∉ a_id <$> addresses u →
   updateAddress f uid addressId body users
   = ({| ur_code := 404; ur_body := Message "Address not found" |}, users)) ∧
  (∀ l1 a l2,
     addresses u = (l1 ++ a :: l2)%list → addressId ∉ a_id <$> l1 →
     a_id a = addressId → save_throws f = false →
     required (ab_name body) && required (ab_phone body) &&
     required (ab_pincode body) && required (ab_house body) &&
     required (ab_area body) = true →
     let l' :=
       if default false (ab_isDefault body)
       then ((set_isDefault false <$> l1) ++
             set_isDefault true (assign_address body a) ::
             (set_isDefault false <$> l2))%list
       else (l1 ++ assign_address body a :: l2)%list in
     updateAddress f uid addressId body users
     = ({| ur_code := 200; ur_body := AddressList l' |},
        <[uid := set_addresses l' u]> users)).
Proof.
  intros Hu Hval Hf. split.
  - intros Hunknown. unfold updateAddress, with_user. rewrite Hf, Hu.
    by rewrite find_unknown_id.
  - intros l1 a l2 Hl Hl1 Ha Hs Hbody l'.
    apply other_ids in Hl1 as Hother.
    assert (HPa : bool_decide (a_id a = addressId) = true)
      by (by apply bool_decide_eq_true).
    apply validate_user_split in Hval as (Hfields & Hcount & Hacc).
    rewrite Hl in Hfields, Hcount.
    rewrite forallb_app in Hfields. cbn [forallb] in Hfields.
    apply andb_true_iff in Hfields as [Hv1 [_ Hv2]%andb_true_iff].
    rewrite defaultCount_app, defaultCount_cons in Hcount.
    assert (Hflagged :
      (if default false (ab_isDefault body)
       then update_first (λ addr, bool_decide (a_id addr = addressId))
              (set_isDefault true)
              (set_isDefault false <$>
                 update_first (λ addr, bool_decide (a_id addr = addressId))
                   (assign_address body) (addresses u))
       else update_first (λ addr, bool_decide (a_id addr = addressId))
              (assign_address body) (addresses u)) = l').
    { rewrite Hl, update_first_split by done. unfold l'.
      destruct (default false (ab_isDefault body)); [|done].
      rewrite fmap_app, fmap_cons. rewrite update_first_split; [done| |done].
      apply Forall_fmap. by eapply Forall_impl. }
    assert (Hvalid : validate_user (set_addresses l' u) = true).
    { apply validate_user_split. simpl. split; [|split; [|done]].
      - unfold l'. destruct (default false (ab_isDefault body)).
        + rewrite forallb_app. cbn [forallb].
          rewrite !(valid_map (set_isDefault false)) by done.
          rewrite Hv1, Hv2, andb_true_r. simpl. exact Hbody.
        + rewrite forallb_app. cbn [forallb].
          rewrite Hv1, Hv2, andb_true_r. simpl. exact Hbody.
      - unfold l'. destruct (default false (ab_isDefault body)).
        + rewrite defaultCount_app, defaultCount_cons, !defaultCount_cleared.
          simpl. lia.
        + rewrite defaultCount_app, defaultCount_cons. simpl. lia. }
    unfold updateAddress, with_user, save_user. rewrite Hf, Hu.
    rewrite Hflagged. rewrite Hl at 1. rewrite find_split by done.
    by rewrite Hs, Hvalid.
Qed.

Lemma save_user_users (f : UserFaults) (uid : ObjectId) (u : UserDoc)
    (ok : UserResponse) (failed : string) (users : gmap string UserDoc) :
  (save_user f uid u ok failed users).2 = users ∨
  (save_user f uid u ok failed users).2 = <[uid := u]> users ∧
  validate_user u = true.
Proof.
  unfold save_user. destruct (save_throws f); simpl; [by left|].
  destruct (validate_user u); simpl; [by right | by left].
Qed.

Lemma NoDup_filter_ids (P : UserAddress → bool) (l : list UserAddress) :
  NoDup (a_id <$> l) → NoDup (a_id <$> List.filter P l).
Proof.
  induction l as [|a l IH]; [done|]. rewrite fmap_cons.
  intros [Hnew Hnd]%NoDup_cons. simpl. destruct (P a); [|by apply IH].
  rewrite fmap_cons. apply NoDup_cons. split; [|by apply IH].
  intros (b & Hb & [Hin _]%list_elem_of_In%filter_In)%list_elem_of_fmap.
  apply Hnew, list_elem_of_fmap. exists b. by rewrite list_elem_of_In.
Qed.

(** X22: whatever fails, a request on addresses keeps what the stored
    lists have: the ids of a user's addresses differ and at most one of
    them is the default, provided the id given to an added address is new
    for that user; and it writes to no other user. *)
Theorem handle_address_keeps_addresses_ok (f : UserFaults) (uid : ObjectId)
    (r : AddressRequest) (users : gmap string UserDoc) :
  (∀ k u, users !! k = Some u → addresses_ok (addresses u)) →
  (∀ body newId u, r = AddAddress body newId → users !! uid = Some u →
                   newId ∉ a_id <$> addresses u) →
  (∀ k u, (handle_address f uid r users).2 !! k = Some u →
          addresses_ok (addresses u)) ∧
  (∀ k, k ≠ uid → (handle_address f uid r users).2 !! k = users !! k).
Proof.
  intros Hok Hfresh.
  assert (Hsave : ∀ l u ok failed,
            users !! uid = Some u → NoDup (a_id <$> l) →
            (∀ k u', (save_user f uid (set_addresses l u) ok failed users).2
                     !! k = Some u' → addresses_ok (addresses u')) ∧
            (∀ k, k ≠ uid →
                  (save_user f uid (set_addresses l u) ok failed users).2 !! k
                  = users !! k)).
  { intros l u ok failed Hu Hnd.
    destruct (save_user_users f uid (set_addresses l u) ok failed users)
      as [-> | [-> Hvalid]]; [by split; [apply Hok|]|].
    split.
    - intros k u' Hk. destruct (decide (k = uid)) as [->|Hne].
      + rewrite lookup_insert_eq in Hk. injection Hk as <-.
        apply validate_user_split in Hvalid as (_ & Hcount & _).
        by split.
      + rewrite lookup_insert_ne in Hk by done. by eapply Hok.
    - intros k Hne. by rewrite lookup_insert_ne. }
  assert (Hsame : ∀ k : UserDoc → gmap string UserDoc
                        → UserResponse * gmap string UserDoc,
            ∀ failed,
            (∀ u, users !! uid = Some u →
               (∀ j u', (k u users).2 !! j = Some u' →
                        addresses_ok (addresses u')) ∧
               (∀ j, j ≠ uid → (k u users).2 !! j = users !! j)) →
            (∀ j u', (with_user f uid failed k users).2 !! j = Some u' →
                     addresses_ok (addresses u')) ∧
            (∀ j, j ≠ uid → (with_user f uid failed k users).2 !! j
                            = users !! j)).
  { intros k failed Hk. unfold with_user.
    destruct (findById_throws f); [by split; [apply Hok|]|].
    destruct (users !! uid) as [u|] eqn:Hu; [by apply Hk|].
    by split; [apply Hok|]. }
  destruct r as [body newId | addressId body | addressId | addressId];
    unfold handle_address.
  - apply Hsame. intros u Hu. cbv zeta. apply Hsave; [done|].
    destruct (Hok _ _ Hu) as [Hnd _].
    rewrite fmap_app. cbn [fmap list_fmap a_id].
    assert (Hids : a_id <$> (if default false (ab_isDefault body)
                             then set_isDefault false <$> addresses u
                             else addresses u) = a_id <$> addresses u).
    { destruct (default false (ab_isDefault body)); [|done].
      apply (ids_set_isDefault (λ _, false)). }
    rewrite Hids. apply NoDup_app. split; [done|].
    split; [|apply NoDup_singleton].
    intros x Hx ->%list_elem_of_singleton. by eapply Hfresh.
  - apply Hsame. intros u Hu. destruct (Hok _ _ Hu) as [Hnd _].
    destruct (List.find _ (addresses u)); [|by split; [apply Hok|]].
    cbv zeta. apply Hsave; [done|].
    destruct (default false (ab_isDefault body)).
    + rewrite ids_update_first by done.
      rewrite (ids_set_isDefault (λ _, false)).
      by rewrite ids_update_first.
    + by rewrite ids_update_first.
  - apply Hsame. intros u Hu. destruct (Hok _ _ Hu) as [Hnd _].
    cbv zeta. apply Hsave; [done|]. by apply NoDup_filter_ids.
  - apply Hsame. intros u Hu. destruct (Hok _ _ Hu) as [Hnd _].
    cbv zeta. apply Hsave; [done|].
    by rewrite (ids_set_isDefault (λ a, bool_decide (a_id a = addressId))).
Qed.

(** X23: the payment account.  With the three fields given and not empty
    the account is stored as sent, the answer carries it, and the next read
    returns it; after its deletion the read returns null; neither request
    touches the addresses. *)
Theorem payment_account_round_trip (uid : ObjectId) (number ifsc holder : string)
    (users : gmap string UserDoc) (u : UserDoc) :
  users !! uid = Some u → validate_user u = true →
  nonempty number = true → nonempty ifsc = true → nonempty holder = true →
  let account :=
    {| account_number := number; ifsc_code := ifsc;
       account_holder := holder |} in
  let body :=
    {| acb_account_number := Some number; acb_ifsc_code := Some ifsc;
       acb_account_holder := Some holder |} in
  let stored := setPaymentAccount no_user_faults uid body users in
  let deleted := deletePaymentAccount no_user_faults uid stored.2 in
  stored.1 = {| ur_code := 200;
                ur_body := AccountUpdated "Payment account updated successfully"
                                          (Some account) |} ∧
  getPaymentAccount no_user_faults uid stored.2
  = ({| ur_code := 200; ur_body := AccountOrNull (Some account) |}, stored.2) ∧
  deleted.1 = {| ur_code := 200;
                 ur_body := Message "Payment account deleted successfully" |} ∧
  getPaymentAccount no_user_faults uid deleted.2
  = ({| ur_code := 200; ur_body := AccountOrNull None |}, deleted.2) ∧
  getAddresses no_user_faults uid deleted.2
  = ({| ur_code := 200; ur_body := AddressList (addresses u) |}, deleted.2).
Proof.
  intros Hu Hval Hn Hi Hh account body stored deleted.
  apply validate_user_split in Hval as (Hfields & Hcount & Hacc).
  assert (Hv1 : validate_user (set_paymentAccount (Some account) u) = true).
  { apply validate_user_split. simpl. repeat split; try done.
    unfold validate_account. simpl. by rewrite Hn, Hi, Hh. }
  assert (Hv2 : validate_user
                  (set_paymentAccount None (set_paymentAccount (Some account) u))
                = true).
  { apply validate_user_split. by simpl. }
  assert (Hstored : stored
            = ({| ur_code := 200;
                  ur_body := AccountUpdated "Payment account updated successfully"
                                            (Some account) |},
               <[uid := set_paymentAccount (Some account) u]> users)).
  { unfold stored, setPaymentAccount, with_user, save_user.
    cbn [acb_account_number acb_ifsc_code acb_account_holder body
         findById_throws save_throws no_user_faults orb].
    rewrite Hn, Hi, Hh. cbn [andb]. rewrite Hu. cbv zeta.
    fold account. by rewrite Hv1. }
  assert (Hdeleted : deleted
            = ({| ur_code := 200;
                  ur_body := Message "Payment account deleted successfully" |},
               <[uid := set_paymentAccount None
                          (set_paymentAccount (Some account) u)]> users)).
  { unfold deleted. rewrite Hstored.
    unfold deletePaymentAccount, with_user, save_user.
    cbn [findById_throws save_throws no_user_faults orb snd].
    rewrite lookup_insert_eq, Hv2. cbn [negb]. by rewrite insert_insert_eq. }
  rewrite Hdeleted, Hstored. cbn [fst snd].
  unfold getPaymentAccount, getAddresses, with_user.
  cbn [findById_throws no_user_faults]. rewrite !lookup_insert_eq. done.
Qed.

End UserRoutes.

(** ** The amount of an order *)







Section AmountProperties.

Variable parse_price : string → number.

Lemma cartSubtotal_fold_None (lines : list CartLine) :
  fold_left
    (λ acc item,
       a ← acc; price ← line_price parse_price item;
       Some (a + price * num_or (cl_quantity item) 1)%float)
    lines None = None.
Proof. by induction lines. Qed.




End AmountProperties.

(** ** The further properties on the example *)

(** X1 on the example: a correctly signed confirmation for an order that
    does not exist. *)
Lemma verify_unknown_order_witness :
  (verify (env := ex_env) no_faults ex_unknown_confirmation ex_in_cart).2
  = ex_in_cart ∧
  (verify (env := ex_env) no_faults ex_unknown_confirmation ex_in_cart).1
  = order_not_found.
Proof.
  destruct (verify_unknown_order_writes_nothing (env := ex_env) no_faults
              ex_unknown_confirmation ex_in_cart) as [Hstore Hanswer].
  - vm_compute. reflexivity.
  - split; [exact Hstore|]. apply Hanswer; reflexivity.
Defined.


(** X4 on the example: the order for the approved product is completed by
    hand, and completed again. *)
Lemma completeOrder_once_witness :
  (completeOrder (env := ex_env) no_faults ex_admin "cccccccccccccccccccccccc"
     (completeOrder (env := ex_env) no_faults ex_admin
        "cccccccccccccccccccccccc" ex_one_item_cart).2).2
  = (completeOrder (env := ex_env) no_faults ex_admin
       "cccccccccccccccccccccccc" ex_one_item_cart).2 ∧
  (completeOrder (env := ex_env) no_faults ex_admin "cccccccccccccccccccccccc"
     (completeOrder (env := ex_env) no_faults ex_admin
        "cccccccccccccccccccccccc" ex_one_item_cart).2).1
  = json_success 400 false "Order already completed".
Proof.
  destruct (completeOrder_once (env := ex_env) no_faults no_faults ex_admin
              "cccccccccccccccccccccccc" ex_one_item_cart
              (completeOrder (env := ex_env) no_faults ex_admin
                 "cccccccccccccccccccccccc" ex_one_item_cart).2
              (json_success 200 true "Order completed successfully"))
    as [Hstore Hanswer].
  - vm_compute. reflexivity.
  - reflexivity.
  - split; [exact Hstore|]. apply Hanswer. reflexivity.
Defined.

(** X5 on the example: the order with the static catalogue entry is
    completed by hand. *)
Lemma completeOrder_static_id_witness :
  completeOrder (env := ex_env) no_faults ex_admin "cccccccccccccccccccccccc"
                ex_in_cart
  = (json_success 500 false "Error completing order",
     with_orders
       (update_first (λ o, bool_decide (o_id o = "cccccccccccccccccccccccc"))
                     (set_paid "manual_verification") (orders ex_in_cart))
       ex_in_cart) ∧
  List.find (λ o, bool_decide (o_id o = "cccccccccccccccccccccccc"))
            (orders (completeOrder (env := ex_env) no_faults ex_admin
                       "cccccccccccccccccccccccc" ex_in_cart).2)
  = Some (set_paid "manual_verification" ex_order) ∧
  products (completeOrder (env := ex_env) no_faults ex_admin
              "cccccccccccccccccccccccc" ex_in_cart).2
  = products ex_in_cart.
Proof.
  apply (completeOrder_static_id_pays_without_selling (env := ex_env)
           no_faults ex_admin "cccccccccccccccccccccccc"
           "cccccccccccccccccccccccc" ex_order ex_static_item ex_in_cart).
  - reflexivity.
  - vm_compute. reflexivity.
  - vm_compute. reflexivity.
  - vm_compute. discriminate.
  - apply list_elem_of_In. simpl. right. left. reflexivity.
  - vm_compute. reflexivity.
  - reflexivity.
  - reflexivity.
Defined.

(** X6 on the example: the seller accepts the offer. *)
Lemma sell_request_witness :
  one_document_written ex_submitted (ex_handle ex_accept ex_submitted).
Proof.
  apply (sell_request_writes_one_document (env := ex_env) no_faults ex_accept
           ex_submitted).
  reflexivity.
Defined.

(** X7 on the example: the payment for a cart with the pending product. *)
Lemma handle_keeps_submission_witness :
  ∃ p', products (ex_handle (Verify ex_confirmation) ex_pending_in_cart).2
          !! ex_pid = Some p' ∧
        same_submission ex_pending_doc p'.
Proof.
  apply (handle_keeps_submission (env := ex_env) no_faults
           (Verify ex_confirmation) ex_pending_in_cart ex_pid ex_pending_doc).
  vm_compute. reflexivity.
Defined.

(** X8 on the example: the same payment takes the product from pending to
    sold. *)
Lemma status_moves_witness :
  (status (set_status sold ex_pending_doc) = pending →
   status ex_pending_doc = pending) ∧
  (status (set_status sold ex_pending_doc) = approved →
   status ex_pending_doc = pending ∨ status ex_pending_doc = approved) ∧
  (is_review (Verify ex_confirmation) = false →
   status (set_status sold ex_pending_doc) = status ex_pending_doc ∨
   (status ex_pending_doc = pending ∧
    (status (set_status sold ex_pending_doc) = approved ∨
     status (set_status sold ex_pending_doc) = rejected)) ∨
   status (set_status sold ex_pending_doc) = sold).
Proof.
  apply (status_moves (env := ex_env) no_faults (Verify ex_confirmation)
           ex_pending_in_cart ex_pid).
  - vm_compute. reflexivity.
  - vm_compute. reflexivity.
Defined.

(** X9 on the example: the seller accepts the offer for the submitted
    product. *)
Lemma acceptOffer_witness :
  ∃ k p pk pay,
    ob_pickup_details ex_offer = Some pk ∧
    ob_payment_details ex_offer = Some pay ∧
    castObjectId (env := ex_env) ex_pid = Some k ∧
    products ex_submitted !! k = Some p ∧
    seller p = u_id ex_seller ∧ status p = pending ∧
    ex_accepted
    = with_products
        (<[k := set_status approved (set_details (Some pk) (Some pay) p)]>
           (products ex_submitted)) ex_submitted.
Proof.
  apply (acceptOffer_by_seller_of_pending (env := ex_env) no_faults ex_seller
           ex_pid ex_offer ex_submitted ex_accepted
           (json 200 "Offer accepted successfully. We will contact you soon for pickup.")).
  - vm_compute. reflexivity.
  - reflexivity.
Defined.



(** X12 on the example: the admin approves the accepted product. *)
Lemma approval_listing_witness :
  ∃ k p p' final lp,
    castObjectId (env := ex_env) ex_pid = Some k ∧
    products ex_accepted !! k = Some p ∧
    products ex_listed !! k = Some p' ∧
    rb_final_price ex_approve_body = Some final ∧
    status p' = listed ∧ listed_product p' = Some lp ∧
    title lp = brand p +:+ " " +:+ article p ∧
    price lp = final ∧ lp_category lp = category p ∧
    listed_at lp = 5 ∧
    lp_mainCategory lp = mainCategory p' ∧
    (gender p = Some "male" → mainCategory p' = Some "Men") ∧
    (gender p = Some "female" → mainCategory p' = Some "Women") ∧
    (gender p = Some "kids" → mainCategory p' = Some "Kids") ∧
    (gender p ∉ [Some "male"; Some "female"; Some "kids"] →
     mainCategory p' = Some "Unisex") ∧
    (∀ t, t ∈ tags lp →
       t ≠ "" ∧
       (t = brand p ∨ t = article p ∨ gender p = Some t ∨
        t = Quality_str (quality (image_analysis (ai_analysis p))) ∨
        t ∈ features (image_analysis (ai_analysis p)))).
Proof.
  apply (approval_listing (env := ex_env) no_faults 5 ex_admin ex_pid
           ex_approve_body ex_accepted ex_listed
           (json 200 "Submission approved successfully")).
  - vm_compute. reflexivity.
  - reflexivity.
  - reflexivity.
Defined.

(** X13 on the example: the listing and the sold products after the
    payment. *)
Lemma settled_products_witness :
  (∃ order,
     List.find (λ o, bool_decide (razorpayOrderId o
                                  = order_id ex_confirmation))
               (orders ex_in_cart) = Some order ∧
     ∀ item,
       item ∈ cart order →
       persisted (env := ex_env) (productId item) = true →
       ∃ listing soldOnes,
         listedPublic no_faults ex_sold = Products listing ∧
         adminListed no_faults ex_admin ex_sold = Products listing ∧
         adminSold no_faults ex_admin ex_sold = Products soldOnes ∧
         listing !! toLowerCase (productId item) = None ∧
         soldOnes !! toLowerCase (productId item)
         = set_status sold <$>
             products ex_in_cart !! toLowerCase (productId item)) ∧
  (∀ listing soldOnes k,
     listedPublic no_faults ex_sold = Products listing →
     adminSold no_faults ex_admin ex_sold = Products soldOnes →
     is_Some (listing !! k) → soldOnes !! k = None).
Proof.
  apply (settled_products_leave_the_listing (env := ex_env) no_faults
           ex_confirmation ex_in_cart ex_sold payment_verified ex_admin).
  - vm_compute. reflexivity.
  - reflexivity.
  - reflexivity.
Defined.


(** X15 on the example: a colour outside every range. *)
Lemma rgbToColorName_witness :
  rgbToColorName ex_pow PrimFloat.sqrt 60%float 60%float 60%float = "Gray".
Proof.
  apply (rgbToColorName_in_table ex_pow PrimFloat.sqrt).
  intros cr Hcr.
  repeat (apply elem_of_cons in Hcr as [-> | Hcr]; [vm_compute; reflexivity|]).
  by apply elem_of_nil in Hcr.
Defined.

(** X16 on the example: a label response without dominant colours. *)
Lemma detectColors_witness :
  detectColorsWithVision ex_pow PrimFloat.sqrt None = [].
Proof.
  apply (detectColors_at_most_two_names ex_pow PrimFloat.sqrt None).
  left. reflexivity.
Defined.

(** X17 on the example: the text read from the image names a brand. *)
Lemma detected_brand_witness :
  ∃ text before after,
    Some "Vintage Puma tee" = Some text ∧ text ≠ "" ∧
    brands = (before ++ "Puma" :: after)%list ∧
    includes (toLowerCase text) (toLowerCase "Puma") = true ∧
    Forall (λ b', includes (toLowerCase text) (toLowerCase b') = false)
           before ∧
    brandForPricing (Some "Puma") "Nike" = "Puma".
Proof.
  apply (detected_brand_overrides_declared (Some "Vintage Puma tee") "Nike").
  - intros text [= <-]. reflexivity.
  - vm_compute. reflexivity.
Defined.

(** X18 on the example: the first of the two addresses is made the
    default. *)
Lemma setDefault_witness :
  ∃ l',
    setDefaultAddress no_user_faults ex_uid "a1" ex_users2
    = ({| ur_code := 200; ur_body := AddressList l' |},
       <[ex_uid := set_addresses l' ex_user2]> ex_users2) ∧
    Forall2 (λ a a', a' = set_isDefault (bool_decide (a_id a = "a1")) a)
            (addresses ex_user2) l' ∧
    defaultCount l'
    = (if bool_decide ("a1" ∈ a_id <$> addresses ex_user2) then 1 else 0)%nat.
Proof.
  apply (setDefault_flags_the_address ex_uid "a1" ex_users2 ex_user2).
  - vm_compute. reflexivity.
  - reflexivity.
  - apply (bool_decide_unpack _). vm_compute. reflexivity.
Defined.

(** X19 on the example: the first address of a user. *)
Lemma addAddress_witness :
  addAddress no_user_faults ex_uid ex_home "a1" ex_users0
  = ({| ur_code := 201;
        ur_body := AddressList [set_isDefault true ex_home_address] |},
     <[ex_uid := set_addresses [set_isDefault true ex_home_address] ex_user0]>
       ex_users0).
Proof.
  apply (addAddress_appends ex_uid ex_home "a1" ex_users0 ex_user0).
  - vm_compute. reflexivity.
  - reflexivity.
  - reflexivity.
Defined.

(** X20 on the example: the first of the two addresses is deleted. *)
Lemma deleteAddress_witness :
  ∃ l',
    deleteAddress no_user_faults ex_uid "a1" ex_users2
    = ({| ur_code := 200; ur_body := AddressList l' |},
       <[ex_uid := set_addresses l' ex_user2]> ex_users2) ∧
    l' `sublist_of` addresses ex_user2 ∧
    (∀ a, a ∈ l' ↔ a ∈ addresses ex_user2 ∧ a_id a ≠ "a1") ∧
    ("a1" ∉ a_id <$> addresses ex_user2 → l' = addresses ex_user2) ∧
    deleteAddress no_user_faults ex_uid "a1"
      (<[ex_uid := set_addresses l' ex_user2]> ex_users2)
    = ({| ur_code := 200; ur_body := AddressList l' |},
       <[ex_uid := set_addresses l' ex_user2]> ex_users2).
Proof.
  apply (deleteAddress_removes_by_id ex_uid "a1" ex_users2 ex_user2).
  - vm_compute. reflexivity.
  - reflexivity.
Defined.

(** X21 on the example: the second address takes the fields of the first
    and stays the default; an unknown id is answered 404. *)
Lemma updateAddress_witness :
  updateAddress no_user_faults ex_uid "a9" ex_home ex_users2
  = ({| ur_code := 404; ur_body := Message "Address not found" |}, ex_users2) ∧
  updateAddress no_user_faults ex_uid "a2" ex_home ex_users2
  = ({| ur_code := 200;
        ur_body :=
          AddressList
            [ex_home_address;
             set_isDefault true (assign_address ex_home ex_office_address)] |},
     <[ex_uid :=
         set_addresses
           [ex_home_address;
            set_isDefault true (assign_address ex_home ex_office_address)]
           ex_user2]> ex_users2).
Proof.
  destruct (updateAddress_rewrites_in_place no_user_faults ex_uid "a9" ex_home
              ex_users2 ex_user2) as [Hunknown _];
    [vm_compute; reflexivity | reflexivity | reflexivity |].
  destruct (updateAddress_rewrites_in_place no_user_faults ex_uid "a2" ex_home
              ex_users2 ex_user2) as [_ Hknown];
    [vm_compute; reflexivity | reflexivity | reflexivity |].
  split.
  - apply Hunknown. apply (bool_decide_unpack _). vm_compute. reflexivity.
  - apply (Hknown [ex_home_address] ex_office_address []).
    + reflexivity.
    + apply (bool_decide_unpack _). vm_compute. reflexivity.
    + reflexivity.
    + reflexivity.
    + reflexivity.
Defined.

(** X22 on the example: a third address is added. *)
Lemma handle_address_witness :
  (∀ k u,
     (handle_address no_user_faults ex_uid (AddAddress ex_office "a3")
                     ex_users2).2 !! k = Some u →
     addresses_ok (addresses u)) ∧
  (∀ k, k ≠ ex_uid →
        (handle_address no_user_faults ex_uid (AddAddress ex_office "a3")
                        ex_users2).2 !! k = ex_users2 !! k).
Proof.
  assert (Husers : ex_users2 = {[ ex_uid := ex_user2 ]})
    by (vm_compute; reflexivity).
  apply (handle_address_keeps_addresses_ok no_user_faults ex_uid
           (AddAddress ex_office "a3") ex_users2).
  - intros k u. rewrite Husers. intros [_ <-]%lookup_singleton_Some.
    split; [apply (bool_decide_unpack _); vm_compute; reflexivity|].
    vm_compute. lia.
  - intros body newId u [= <- <-]. rewrite Husers, lookup_singleton_eq.
    intros [= <-]. apply (bool_decide_unpack _). vm_compute. reflexivity.
Defined.

(** X23 on the example: the seller's account is stored, read, deleted and
    read again. *)
Lemma payment_account_witness :
  (setPaymentAccount no_user_faults ex_uid ex_account ex_users2).1
  = {| ur_code := 200;
       ur_body :=
         AccountUpdated "Payment account updated successfully"
           (Some {| account_number := "000123456789";
                    ifsc_code := "HDFC0000001";
                    account_holder := "Seller One" |}) |} ∧
  getPaymentAccount no_user_faults ex_uid
    (setPaymentAccount no_user_faults ex_uid ex_account ex_users2).2
  = ({| ur_code := 200;
        ur_body :=
          AccountOrNull
            (Some {| account_number := "000123456789";
                     ifsc_code := "HDFC0000001";
                     account_holder := "Seller One" |}) |},
     (setPaymentAccount no_user_faults ex_uid ex_account ex_users2).2) ∧
  (deletePaymentAccount no_user_faults ex_uid
     (setPaymentAccount no_user_faults ex_uid ex_account ex_users2).2).1
  = {| ur_code := 200;
       ur_body := Message "Payment account deleted successfully" |} ∧
  getPaymentAccount no_user_faults ex_uid
    (deletePaymentAccount no_user_faults ex_uid
       (setPaymentAccount no_user_faults ex_uid ex_account ex_users2).2).2
  = ({| ur_code := 200; ur_body := AccountOrNull None |},
     (deletePaymentAccount no_user_faults ex_uid
        (setPaymentAccount no_user_faults ex_uid ex_account ex_users2).2).2) ∧
  getAddresses no_user_faults ex_uid
    (deletePaymentAccount no_user_faults ex_uid
       (setPaymentAccount no_user_faults ex_uid ex_account ex_users2).2).2
  = ({| ur_code := 200; ur_body := AddressList (addresses ex_user2) |},
     (deletePaymentAccount no_user_faults ex_uid
        (setPaymentAccount no_user_faults ex_uid ex_account ex_users2).2).2).
Proof.
  apply (payment_account_round_trip ex_uid "000123456789" "HDFC0000001"
           "Seller One" ex_users2 ex_user2).
  - vm_compute. reflexivity.
  - reflexivity.
  - reflexivity.
  - reflexivity.
  - reflexivity.
Defined.

